(** * RepoDoctor: evidence collection, heuristic scan, AI review and issue
    publishing (backend/main.py, backend/ai_review.py,
    backend/github_issues.py), embedded in Rocq.

    Character model: a Python [str] is a [string]; its characters are the
    code points below 256.  Collaborators the program calls (git, the model
    provider, the issue tracker, the temporary-name generator) are fields of
    a [world] record: their answers are inputs of the model, their calls are
    logged in a trace. *)

From Stdlib Require Import ZArith Lia Bool Ascii String List DecimalString.
From stdpp Require Import base option list strings gmap.

Open Scope string_scope.
Open Scope nat_scope.
Open Scope list_scope.

(** ** Python strings *)
Module Py.

Definition chr (n : nat) : ascii := ascii_of_nat n.
Definition ord (c : ascii) : nat := nat_of_ascii c.

Definition ch (c : ascii) : string := String c EmptyString.

(** The double quote, the line feed, the tab and the carriage return. *)
Definition dq : string := ch "034".
Definition lf : string := ch "010".
Definition tab : string := ch "009".
Definition cr : string := ch "013".

Definition eqc (a b : ascii) : bool := Ascii.eqb a b.

(** [str.isspace] on one character (code points below 256). *)
Definition is_space (c : ascii) : bool :=
  let n := ord c in
  ((9 <=? n) && (n <=? 13)) || ((28 <=? n) && (n <=? 32))
  || (n =? 133) || (n =? 160).

(** WHATWG C0 control or space: code points 0 to 32. *)
Definition is_c0_or_space (c : ascii) : bool := ord c <=? 32.

Definition is_upper (c : ascii) : bool :=
  let n := ord c in
  ((65 <=? n) && (n <=? 90))
  || ((192 <=? n) && (n <=? 222) && negb (n =? 215)).

Definition lower_char (c : ascii) : ascii :=
  if is_upper c then chr (ord c + 32) else c.

Definition is_ascii_alpha (c : ascii) : bool :=
  let n := ord c in
  ((65 <=? n) && (n <=? 90)) || ((97 <=? n) && (n <=? 122)).

Definition is_ascii_digit (c : ascii) : bool :=
  let n := ord c in (48 <=? n) && (n <=? 57).

Fixpoint lower (s : string) : string :=
  match s with
  | EmptyString => EmptyString
  | String c r => String (lower_char c) (lower r)
  end.

Fixpoint lstrip_by (p : ascii -> bool) (s : string) : string :=
  match s with
  | EmptyString => EmptyString
  | String c r => if p c then lstrip_by p r else s
  end.

Fixpoint rstrip_by (p : ascii -> bool) (s : string) : string :=
  match s with
  | EmptyString => EmptyString
  | String c r =>
      match rstrip_by p r with
      | EmptyString => if p c then EmptyString else ch c
      | r' => String c r'
      end
  end.

Definition strip_by (p : ascii -> bool) (s : string) : string :=
  rstrip_by p (lstrip_by p s).

(** [s.strip()] *)
Definition strip (s : string) : string := strip_by is_space s.

(** [s.strip(c)] for a one-character argument *)
Definition strip_char (c : ascii) (s : string) : string := strip_by (eqc c) s.

Fixpoint startswith (p s : string) : bool :=
  match p, s with
  | EmptyString, _ => true
  | String a p', String b s' => eqc a b && startswith p' s'
  | String _ _, EmptyString => false
  end.

(** [sub in s] *)
Fixpoint contains (sub s : string) : bool :=
  startswith sub s ||
  match s with
  | EmptyString => false
  | String _ r => contains sub r
  end.

Fixpoint has_char (c : ascii) (s : string) : bool :=
  match s with
  | EmptyString => false
  | String a r => eqc a c || has_char c r
  end.

(** [s[:n]] *)
Fixpoint take (n : nat) (s : string) : string :=
  match n, s with
  | O, _ => EmptyString
  | S _, EmptyString => EmptyString
  | S m, String c r => String c (take m r)
  end.

(** [s[n:]] *)
Fixpoint drop (n : nat) (s : string) : string :=
  match n, s with
  | O, _ => s
  | S _, EmptyString => EmptyString
  | S m, String _ r => drop m r
  end.

Fixpoint remove_chars (p : ascii -> bool) (s : string) : string :=
  match s with
  | EmptyString => EmptyString
  | String c r => if p c then remove_chars p r else String c (remove_chars p r)
  end.

(** [s.replace(c, t)] for a one-character [c] *)
Fixpoint replace_char (c : ascii) (t : string) (s : string) : string :=
  match s with
  | EmptyString => EmptyString
  | String a r =>
      if eqc a c then t +:+ replace_char c t r
      else String a (replace_char c t r)
  end.

(** [s.split(c)] for a one-character separator: never empty. *)
Fixpoint split (c : ascii) (s : string) : list string :=
  match s with
  | EmptyString => [EmptyString]
  | String a r =>
      if eqc a c then EmptyString :: split c r
      else match split c r with
           | [] => [ch a]
           | w :: ws => String a w :: ws
           end
  end.

(** The part of [s] before the first character satisfying [p], and the
    rest from that character on. *)
Fixpoint break_at (p : ascii -> bool) (s : string) : string * string :=
  match s with
  | EmptyString => (EmptyString, EmptyString)
  | String a r =>
      if p a then (EmptyString, s)
      else let '(x, y) := break_at p r in (String a x, y)
  end.

(** [sep.join(l)] *)
Fixpoint join (sep : string) (l : list string) : string :=
  match l with
  | [] => EmptyString
  | [x] => x
  | x :: r => x +:+ sep +:+ join sep r
  end.

Definition nonempty (s : string) : bool :=
  match s with EmptyString => false | _ => true end.

Definition str_eqb (a b : string) : bool := String.eqb a b.

(** [str(n)] for a non-negative integer *)
Definition str_of_nat (n : nat) : string := NilEmpty.string_of_uint (Nat.to_uint n).

(** Exceptions, as instances of [Exception] seen through their class name
    and [str(e)]. *)
Record exn := Exn { exn_class : string; exn_str : string }.

Definition RuntimeError (msg : string) : exn := Exn "RuntimeError" msg.
Definition ValueError (msg : string) : exn := Exn "ValueError" msg.
(** [str(KeyError(k))] is [repr(k)]; keys here are plain identifiers. *)
Definition KeyError (k : string) : exn := Exn "KeyError" ("'" +:+ k +:+ "'").
Definition TypeError (msg : string) : exn := Exn "TypeError" msg.

(** The outcome of a call: a value, or a raised exception. *)
Inductive res (A : Type) : Type :=
| Ok (a : A)
| Raise (e : exn).
Arguments Ok {A} a.
Arguments Raise {A} e.

Definition bind {A B} (r : res A) (k : A -> res B) : res B :=
  match r with
  | Ok a => k a
  | Raise e => Raise e
  end.

(** A dict with string keys, in insertion order. *)
Definition dict (V : Type) : Type := list (string * V).

Fixpoint dict_get {V} (k : string) (d : dict V) : option V :=
  match d with
  | [] => None
  | (k', v) :: r => if str_eqb k k' then Some v else dict_get k r
  end.

(** [k in d] *)
Definition dict_mem {V} (k : string) (d : dict V) : bool :=
  match dict_get k d with Some _ => true | None => false end.

(** [d[k] = v]: an existing key keeps its position. *)
Fixpoint dict_set {V} (k : string) (v : V) (d : dict V) : dict V :=
  match d with
  | [] => [(k, v)]
  | (k', v') :: r =>
      if str_eqb k k' then (k, v) :: r else (k', v') :: dict_set k v r
  end.

(** [list(d.keys())] *)
Definition dict_keys {V} (d : dict V) : list string := map fst d.

End Py.

(** ** urllib.parse.urlparse *)
Module Url.
Import Py.

Record ParseResult := {
  scheme : string;
  netloc : string;
  path : string;
  params : string;
  query : string;
  fragment : string
}.

Definition is_scheme_char (c : ascii) : bool :=
  is_ascii_alpha c || is_ascii_digit c
  || eqc c "+" || eqc c "-" || eqc c ".".

Fixpoint all_chars (p : ascii -> bool) (s : string) : bool :=
  match s with
  | EmptyString => true
  | String c r => p c && all_chars p r
  end.

Definition uses_params : list string :=
  [""; "ftp"; "hdl"; "prospero"; "http"; "imap"; "https"; "shttp"; "rtsp";
   "rtspu"; "sip"; "sips"; "mms"; "sftp"; "tel"].

Definition is_unsafe_byte (c : ascii) : bool :=
  eqc c "009" || eqc c "013" || eqc c "010".

(** The scheme of [url] and what follows its colon, when the text before the
    first colon is a well-formed scheme; otherwise no scheme. *)
Definition split_scheme (url : string) : string * string :=
  let '(pre, rest) := break_at (eqc ":") url in
  match rest, url with
  | String _ after, String c0 _ =>
      if nonempty pre && is_ascii_alpha c0 && all_chars is_scheme_char pre
      then (lower pre, after)
      else (EmptyString, url)
  | _, _ => (EmptyString, url)
  end.

Definition is_netloc_end (c : ascii) : bool :=
  eqc c "/" || eqc c "?" || eqc c "#".

(** [url[:url.rfind("/")]] and [url[url.rfind("/"):]] *)
Fixpoint from_last_slash (s : string) : string * string :=
  match s with
  | EmptyString => (EmptyString, EmptyString)
  | String c r =>
      if has_char "/" r
      then let '(x, y) := from_last_slash r in (String c x, y)
      else (EmptyString, s)
  end.

(** [_splitparams]: the parameters of the last path segment. *)
Definition splitparams (url : string) : string * string :=
  if has_char "/" url then
    let '(before, lastseg) := from_last_slash url in
    let '(seg, rest) := break_at (eqc ";") lastseg in
    match rest with
    | EmptyString => (url, EmptyString)
    | String _ ps => (before +:+ seg, ps)
    end
  else
    let '(seg, rest) := break_at (eqc ";") url in
    match rest with
    | EmptyString => (url, EmptyString)
    | String _ ps => (seg, ps)
    end.

Definition is_hex_digit (c : ascii) : bool :=
  let n := ord c in
  is_ascii_digit c || ((97 <=? n) && (n <=? 102)) || ((65 <=? n) && (n <=? 70)).

Definition hex_low (n : nat) : ascii :=
  if n <? 10 then chr (48 + n) else chr (87 + n).

(** One character of [repr(s)], [q] being the quote in use. *)
Definition repr_char (q : ascii) (c : ascii) : string :=
  let n := ord c in
  if eqc c q || eqc c "\" then String "\" (ch c)
  else if eqc c "009" then "\t"
  else if eqc c "010" then "\n"
  else if eqc c "013" then "\r"
  else if (n <? 32) || (n =? 127) || ((128 <=? n) && (n <=? 160)) || (n =? 173)
  then "\x" +:+ ch (hex_low (n / 16)) +:+ ch (hex_low (n mod 16))
  else ch c.

(** [repr(s)] of a [str] *)
Definition repr (s : string) : string :=
  let q := if has_char "'" s && negb (has_char "034" s)
           then "034"%char else "'"%char in
  ch q +:+ String.concat "" (map (repr_char q) (list_ascii_of_string s)) +:+ ch q.

(** [s.rpartition(c)[2]]: what follows the last [c], all of [s] without
    one. *)
Fixpoint after_last (c : ascii) (s : string) : string :=
  match s with
  | EmptyString => EmptyString
  | String a r =>
      if has_char c r then after_last c r
      else if eqc a c then r else s
  end.

Fixpoint digits_value (acc : nat) (s : string) : nat :=
  match s with
  | EmptyString => acc
  | String c r => digits_value (acc * 10 + (ord c - 48)) r
  end.

(** [ipaddress.IPv4Address._parse_octet] accepts [o]. *)
Definition octet_ok (o : string) : bool :=
  if negb (nonempty o) then false
  else if negb (all_chars is_ascii_digit o) then false
  else if 3 <? String.length o then false
  else if negb (str_eqb o "0") && startswith "0" o then false
  else digits_value 0 o <=? 255.

(** [ipaddress.IPv4Address(s)] does not raise. *)
Definition ipv4_ok (s : string) : bool :=
  negb (has_char "/" s) && nonempty s
  && (length (split "." s) =? 4) && forallb octet_ok (split "." s).

(** [ipaddress.IPv6Address._parse_hextet] accepts [h]. *)
Definition hextet_ok (h : string) : bool :=
  all_chars is_hex_digit h && (String.length h <=? 4) && nonempty h.

Definition is_empty (s : string) : bool := negb (nonempty s).

(** The position of the first empty string of [l], counted from [i]. *)
Fixpoint first_empty (i : nat) (l : list string) : option nat :=
  match l with
  | [] => None
  | x :: r => if is_empty x then Some i else first_empty (S i) r
  end.

(** [ipaddress.IPv6Address._ip_int_from_string(s)] does not raise. *)
Definition ipv6_addr_ok (s : string) : bool :=
  let parts0 := split ":" s in
  let lastp := List.last parts0 "" in
  let v4 := has_char "." lastp in
  (* an IPv4 suffix stands for two hextets *)
  let parts := if v4 then removelast parts0 ++ ["0"; "0"] else parts0 in
  let n := length parts in
  let interior := removelast (tl parts) in
  let head_empty := is_empty (hd "" parts) in
  let last_empty := is_empty (List.last parts "") in
  nonempty s && (3 <=? length parts0)
  && (if v4 then ipv4_ok lastp else true)
  && (n <=? 9)
  && (length (List.filter is_empty interior) <=? 1)
  && match first_empty 1 interior with
     | Some skip_index =>
         let parts_hi := if head_empty then skip_index - 1 else skip_index in
         let parts_lo :=
           if last_empty then n - skip_index - 1 - 1 else n - skip_index - 1 in
         (if head_empty then parts_hi =? 0 else true)
         && (if last_empty then parts_lo =? 0 else true)
         && (parts_hi + parts_lo <=? 7)
         && forallb hextet_ok (firstn parts_hi parts)
         && forallb hextet_ok (skipn (n - parts_lo) parts)
     | None =>
         (n =? 8) && negb head_empty && negb last_empty
         && forallb hextet_ok parts
     end.

(** [ipaddress.IPv6Address(s)] does not raise: an address, optionally
    followed by [%] and a scope. *)
Definition ipv6_ok (s : string) : bool :=
  negb (has_char "/" s)
  && match snd (break_at (eqc "%") s) with
     | EmptyString => true
     | String _ scope => nonempty scope && negb (has_char "%" scope)
     end
  && ipv6_addr_ok (fst (break_at (eqc "%") s)).

(** [re.match(r"\Av[a-fA-F0-9]+\..+\Z", s)] *)
Definition ipvfuture_ok (s : string) : bool :=
  match s with
  | String "v" r =>
      let '(hex, rest) := break_at (fun c => negb (is_hex_digit c)) r in
      nonempty hex
      && match rest with
         | String "." (String c tail) =>
             negb (has_char "010" (String c tail))
         | _ => false
         end
  | _ => false
  end.

(** [_check_bracketed_host] *)
Definition check_bracketed_host (hostname : string) : res unit :=
  if startswith "v" hostname then
    if ipvfuture_ok hostname then Ok tt
    else Raise (ValueError "IPvFuture address is invalid")
  else if ipv4_ok hostname then
    Raise (ValueError "An IPv4 address cannot be in brackets")
  else if ipv6_ok hostname then Ok tt
  else Raise (ValueError
         (repr hostname +:+ " does not appear to be an IPv4 or IPv6 address")).

(** [_check_bracketed_netloc], called on a netloc that holds both
    brackets. *)
Definition check_bracketed_netloc (netloc : string) : res unit :=
  let hostname_and_port := after_last "@" netloc in
  let '(before_bracket, rest) := break_at (eqc "[") hostname_and_port in
  match rest with
  | String _ bracketed =>
      if nonempty before_bracket then Raise (ValueError "Invalid IPv6 URL")
      else
        let '(hostname, after) := break_at (eqc "]") bracketed in
        let port := drop 1 after in
        if nonempty port && negb (startswith ":" port)
        then Raise (ValueError "Invalid IPv6 URL")
        else check_bracketed_host hostname
  | EmptyString =>
      check_bracketed_host (fst (break_at (eqc ":") hostname_and_port))
  end.

(** [urlparse(url)] (CPython 3.11 [urlsplit] followed by the parameter
    split).  The NFKC check of a non-ASCII netloc is not written out: no
    code point below 256 normalises to one of the characters it looks
    for, so it never raises on the strings of this model. *)
Definition urlparse (url0 : string) : res ParseResult :=
  let url := remove_chars is_unsafe_byte (lstrip_by is_c0_or_space url0) in
  let sc := split_scheme url in
  let nl :=
    if startswith "//" (snd sc) then break_at is_netloc_end (drop 2 (snd sc))
    else (EmptyString, snd sc) in
  if xorb (has_char "[" (fst nl)) (has_char "]" (fst nl))
  then Raise (ValueError "Invalid IPv6 URL")
  else
    match (if has_char "[" (fst nl) && has_char "]" (fst nl)
           then check_bracketed_netloc (fst nl) else Ok tt) with
    | Raise e => Raise e
    | Ok _ =>
        let fr := break_at (eqc "#") (snd nl) in
        let qr := break_at (eqc "?") (fst fr) in
        let pr :=
          if existsb (str_eqb (fst sc)) uses_params && has_char ";" (fst qr)
          then splitparams (fst qr) else (fst qr, EmptyString) in
        Ok {| scheme := fst sc; netloc := fst nl; path := fst pr;
              params := snd pr; query := drop 1 (snd qr);
              fragment := drop 1 (snd fr) |}
    end.

(** [u.hostname]: the host of the network location, without the user
    information and the port, in lower case (the zone of a scoped address,
    from its [%], is kept as written); [None] when it is empty. *)
Definition hostname (u : ParseResult) : option string :=
  let hostinfo := after_last "@" (netloc u) in
  let host :=
    match snd (break_at (eqc "[") hostinfo) with
    | String _ bracketed => fst (break_at (eqc "]") bracketed)
    | EmptyString => fst (break_at (eqc ":") hostinfo)
    end in
  if nonempty host
  then Some (lower (fst (break_at (eqc "%") host))
             +:+ snd (break_at (eqc "%") host))
  else None.

End Url.

(** ** backend/github_issues.py *)
Module GithubIssues.
Import Py.

(** [re.sub(r"\.git$", "", s)]: [$] matches at the end of the string and
    just before a final line feed. *)
Fixpoint sub_git_suffix (s : string) : string :=
  match s with
  | EmptyString => EmptyString
  | String c r =>
      if str_eqb s ".git" then EmptyString
      else if str_eqb s (".git" +:+ lf) then lf
      else String c (sub_git_suffix r)
  end.

Definition parse_repo (repo_url : string) : res (string * string) :=
  bind (Url.urlparse (strip repo_url)) (fun u =>
  if negb (str_eqb (lower (Url.netloc u)) "github.com")
  then Raise (ValueError "Repo URL must be a github.com URL")
  else
    let parts := filter (fun p => nonempty p = true) (split "/" (Url.path u)) in
    match parts with
    | owner :: name :: _ => Ok (owner, sub_git_suffix name)
    | _ => Raise (ValueError
             "Repo URL must look like https://github.com/owner/repo")
    end).

End GithubIssues.

(** ** json.loads
    Values, a tokenizer and a stack parser that follow CPython 3.11's
    decoder, error messages and positions included.  Outside the model: a
    [\u] escape of a code point above 255 (it is reported as a decoding
    error here) and the interpreter's recursion limit. *)
Module Json.
Import Py.

#[warnings="-register-all"]
Inductive json :=
| JNull
| JBool (b : bool)
| JInt (z : Z)
| JFloat (lexeme : string)
| JStr (s : string)
| JArr (items : list json)
| JObj (members : list (string * json)).

Inductive token :=
| TLBrace | TRBrace | TLBrack | TRBrack | TComma | TColon
| TStr (s : string)
| TInt (neg : bool) (digits : string)
| TFloat (lexeme : string)
| TLit (v : json)
| TBadStr (msg : string) (at_ : nat)
| TBad.

Inductive sres :=
| SOk (v : string) (consumed : nat)
| SErr (msg : string) (off : nat)
| SUnterminated.

Definition scons (c : ascii) (r : sres) : sres :=
  match r with
  | SOk v n => SOk (String c v) n
  | other => other
  end.

Definition hex_digit (c : ascii) : option nat :=
  let n := ord c in
  if (48 <=? n) && (n <=? 57) then Some (n - 48)
  else if (97 <=? n) && (n <=? 102) then Some (n - 87)
  else if (65 <=? n) && (n <=? 70) then Some (n - 55)
  else None.

Definition hex4 (a b c d : ascii) : option nat :=
  match hex_digit a, hex_digit b, hex_digit c, hex_digit d with
  | Some x, Some y, Some z, Some w => Some (((x * 16 + y) * 16 + z) * 16 + w)
  | _, _, _, _ => None
  end.

Definition unescape (e : ascii) : option ascii :=
  if eqc e "034" then Some "034"%char
  else if eqc e "\" then Some "\"%char
  else if eqc e "/" then Some "/"%char
  else if eqc e "b" then Some "008"%char
  else if eqc e "f" then Some "012"%char
  else if eqc e "n" then Some "010"%char
  else if eqc e "r" then Some "013"%char
  else if eqc e "t" then Some "009"%char
  else None.

(** The string literal whose opening quote precedes [s]; [off] is the
    offset of [s] from the character after that quote. *)
Fixpoint scan_string (off : nat) (s : string) : sres :=
  match s with
  | EmptyString => SUnterminated
  | String c r =>
      if eqc c "034" then SOk EmptyString (S off)
      else if eqc c "\" then
        match r with
        | EmptyString => SUnterminated
        | String e r' =>
            if eqc e "u" then
              match r' with
              | String x1 (String x2 (String x3 (String x4 r''))) =>
                  match hex4 x1 x2 x3 x4 with
                  | Some n =>
                      if n <? 256 then scons (chr n) (scan_string (off + 6) r'')
                      else SErr "code point above 255" (S off)
                  | None => SErr "Invalid \uXXXX escape" (S off)
                  end
              | _ => SErr "Invalid \uXXXX escape" (S off)
              end
            else
              match unescape e with
              | Some x => scons x (scan_string (off + 2) r')
              | None => SErr "Invalid \escape" off
              end
        end
      else if ord c <? 32 then SErr "Invalid control character at" off
      else scons c (scan_string (S off) r)
  end.

Definition span_digits (s : string) : string * string :=
  break_at (fun c => negb (is_ascii_digit c)) s.

(** The longest number at the start of [s]: an optional minus sign, an
    integer part without leading zeros, then optionally a fraction and
    optionally an exponent. *)
Definition scan_number (s : string) : option (token * nat) :=
  let '(neg, s1) :=
    match s with
    | String "-" r => (true, r)
    | _ => (false, s)
    end in
  let int_part :=
    match s1 with
    | String "0" r => Some ("0", r)
    | String c _ =>
        if is_ascii_digit c then Some (span_digits s1) else None
    | EmptyString => None
    end in
  match int_part with
  | None => None
  | Some (ds, r1) =>
      let n_int := (if neg then 1 else 0) + String.length ds in
      let n_frac :=
        match r1 with
        | String "." r =>
            let '(fs, _) := span_digits r in
            if nonempty fs then S (String.length fs) else 0
        | _ => 0
        end in
      let r2 := drop n_frac r1 in
      let n_exp :=
        match r2 with
        | String c r =>
            if eqc c "e" || eqc c "E" then
              let '(sg, r') :=
                match r with
                | String "+" r'' => (1, r'')
                | String "-" r'' => (1, r'')
                | _ => (0, r)
                end in
              let '(es, _) := span_digits r' in
              if nonempty es then 1 + sg + String.length es else 0
            else 0
        | EmptyString => 0
        end in
      let n := n_int + n_frac + n_exp in
      if (n_frac =? 0) && (n_exp =? 0) then Some (TInt neg ds, n)
      else Some (TFloat (take n s), n)
  end.

(** The token at the start of [s] (not white space) and its length. *)
Definition scan_token (s : string) : token * nat :=
  match s with
  | EmptyString => (TBad, 0)
  | String c r =>
      if eqc c "{" then (TLBrace, 1)
      else if eqc c "}" then (TRBrace, 1)
      else if eqc c "[" then (TLBrack, 1)
      else if eqc c "]" then (TRBrack, 1)
      else if eqc c "," then (TComma, 1)
      else if eqc c ":" then (TColon, 1)
      else if eqc c "034" then
        match scan_string 0 r with
        | SOk v n => (TStr v, S n)
        | SErr msg off => (TBadStr msg (S off), 0)
        | SUnterminated => (TBadStr "Unterminated string starting at" 0, 0)
        end
      else if startswith "null" s then (TLit JNull, 4)
      else if startswith "true" s then (TLit (JBool true), 4)
      else if startswith "false" s then (TLit (JBool false), 5)
      else
        match scan_number s with
        | Some tn => tn
        | None =>
            if startswith "NaN" s then (TLit (JFloat "NaN"), 3)
            else if startswith "Infinity" s then (TLit (JFloat "Infinity"), 8)
            else if startswith "-Infinity" s
                 then (TLit (JFloat "-Infinity"), 9)
            else (TBad, 0)
        end
  end.

Definition is_json_ws (c : ascii) : bool :=
  eqc c " " || eqc c "009" || eqc c "010" || eqc c "013".

Definition is_bad (t : token) : bool :=
  match t with
  | TBad | TBadStr _ _ => true
  | _ => false
  end.

(** The tokens of [s] with their positions, up to the first bad one;
    [skip] characters of [s] belong to the token before. *)
Fixpoint tokens (pos skip : nat) (s : string) : list (token * nat) :=
  match s with
  | EmptyString => []
  | String c r =>
      match skip with
      | S k => tokens (S pos) k r
      | O =>
          if is_json_ws c then tokens (S pos) 0 r
          else
            let '(t, n) := scan_token s in
            (t, pos) :: (if is_bad t then [] else tokens (S pos) (n - 1) r)
      end
  end.

(** Containers being read, innermost first. *)
Inductive frame :=
| FArr (acc : list json)
| FObj (acc : dict json) (key : string).

Inductive mode :=
| MVal
| MValOrClose
| MKeyOrClose
| MKey (acc : dict json)
| MColon (acc : dict json) (key : string)
| MSepArr (acc : list json)
| MSepObj (acc : dict json)
| MDone (v : json).

(** [lineno] and [colno] of position [pos] in [doc]. *)
Fixpoint line_col (line col pos : nat) (doc : string) : nat * nat :=
  match pos, doc with
  | S p, String c r =>
      if eqc c "010" then line_col (S line) 1 p r
      else line_col line (S col) p r
  | _, _ => (line, col)
  end.

Definition JSONDecodeError (msg doc : string) (pos : nat) : exn :=
  let '(l, c) := line_col 1 1 pos doc in
  Exn "JSONDecodeError"
    (msg +:+ ": line " +:+ str_of_nat l +:+ " column " +:+ str_of_nat c
         +:+ " (char " +:+ str_of_nat pos +:+ ")").

Definition int_max_str_digits : nat := 4300.

Fixpoint Z_of_digits (acc : Z) (s : string) : Z :=
  match s with
  | EmptyString => acc
  | String c r => Z_of_digits (acc * 10 + Z.of_nat (ord c - 48))%Z r
  end.

(** [int(lexeme)] *)
Definition int_of_lexeme (neg : bool) (digits : string) : res json :=
  if int_max_str_digits <? String.length digits then
    Raise (ValueError
      ("Exceeds the limit (4300 digits) for integer string conversion: value has "
       +:+ str_of_nat (String.length digits)
       +:+ " digits; use sys.set_int_max_str_digits() to increase the limit"))
  else
    let z := Z_of_digits 0 digits in
    Ok (JInt (if neg then - z else z)%Z).

(** A finished value goes to the innermost open container. *)
Definition ret (v : json) (st : list frame) : mode * list frame :=
  match st with
  | [] => (MDone v, [])
  | FArr acc :: st' => (MSepArr (acc ++ [v]), st')
  | FObj acc k :: st' => (MSepObj (dict_set k v acc), st')
  end.

Definition expect_value (doc : string) (t : token) (pos : nat)
    (st : list frame) : res (mode * list frame) :=
  match t with
  | TLBrack => Ok (MValOrClose, st)
  | TLBrace => Ok (MKeyOrClose, st)
  | TStr s => Ok (ret (JStr s) st)
  | TInt neg ds => bind (int_of_lexeme neg ds) (fun v => Ok (ret v st))
  | TFloat l => Ok (ret (JFloat l) st)
  | TLit v => Ok (ret v st)
  | TBadStr msg off => Raise (JSONDecodeError msg doc (pos + off))
  | _ => Raise (JSONDecodeError "Expecting value" doc pos)
  end.

Definition expect_key (doc : string) (acc : dict json) (t : token)
    (pos : nat) (st : list frame) : res (mode * list frame) :=
  match t with
  | TStr k => Ok (MColon acc k, st)
  | TBadStr msg off => Raise (JSONDecodeError msg doc (pos + off))
  | _ => Raise (JSONDecodeError
                  "Expecting property name enclosed in double quotes" doc pos)
  end.

Definition step (doc : string) (m : mode) (st : list frame) (t : token)
    (pos : nat) : res (mode * list frame) :=
  match m with
  | MVal => expect_value doc t pos st
  | MValOrClose =>
      match t with
      | TRBrack => Ok (ret (JArr []) st)
      | _ => expect_value doc t pos (FArr [] :: st)
      end
  | MKeyOrClose =>
      match t with
      | TRBrace => Ok (ret (JObj []) st)
      | _ => expect_key doc [] t pos st
      end
  | MKey acc => expect_key doc acc t pos st
  | MColon acc k =>
      match t with
      | TColon => Ok (MVal, FObj acc k :: st)
      | _ => Raise (JSONDecodeError "Expecting ':' delimiter" doc pos)
      end
  | MSepArr acc =>
      match t with
      | TComma => Ok (MVal, FArr acc :: st)
      | TRBrack => Ok (ret (JArr acc) st)
      | _ => Raise (JSONDecodeError "Expecting ',' delimiter" doc pos)
      end
  | MSepObj acc =>
      match t with
      | TComma => Ok (MKey acc, st)
      | TRBrace => Ok (ret (JObj acc) st)
      | _ => Raise (JSONDecodeError "Expecting ',' delimiter" doc pos)
      end
  | MDone _ => Raise (JSONDecodeError "Extra data" doc pos)
  end.

Definition at_end (doc : string) (m : mode) : res json :=
  let pos := String.length doc in
  match m with
  | MDone v => Ok v
  | MVal | MValOrClose => Raise (JSONDecodeError "Expecting value" doc pos)
  | MKeyOrClose | MKey _ =>
      Raise (JSONDecodeError
               "Expecting property name enclosed in double quotes" doc pos)
  | MColon _ _ => Raise (JSONDecodeError "Expecting ':' delimiter" doc pos)
  | MSepArr _ | MSepObj _ =>
      Raise (JSONDecodeError "Expecting ',' delimiter" doc pos)
  end.

Fixpoint run (doc : string) (m : mode) (st : list frame)
    (toks : list (token * nat)) : res json :=
  match toks with
  | [] => at_end doc m
  | (t, pos) :: rest =>
      match step doc m st t pos with
      | Ok (m', st') => run doc m' st' rest
      | Raise e => Raise e
      end
  end.

(** [json.loads(doc)] *)
Definition loads (doc : string) : res json :=
  run doc MVal [] (tokens 0 0 doc).

(** [v[k]] on a decoded value *)
Definition getitem (v : json) (k : string) : res json :=
  match v with
  | JObj d =>
      match dict_get k d with
      | Some x => Ok x
      | None => Raise (KeyError k)
      end
  | JArr _ => Raise (TypeError "list indices must be integers or slices, not str")
  | JStr _ => Raise (TypeError "string indices must be integers, not 'str'")
  | JNull => Raise (TypeError "'NoneType' object is not subscriptable")
  | JBool _ => Raise (TypeError "'bool' object is not subscriptable")
  | JInt _ => Raise (TypeError "'int' object is not subscriptable")
  | JFloat _ => Raise (TypeError "'float' object is not subscriptable")
  end.

End Json.

(** ** The file system, as a tree
    A path is its list of components; [path_str] is the string the program
    holds.  Entry names are file names: no slash, not [.] or [..]. *)
Module Fs.
Import Py.

(** A file holds the text [read] returns under [errors="ignore"], or the
    exception that opening or reading it raises. *)
#[warnings="-register-all"]
Inductive node :=
| File (content : res string)
| Dir (entries : list (string * node)).

Definition path := list string.

Definition path_str (p : path) : string :=
  match p with
  | [] => "/"
  | _ => String.concat "" (map (fun c => "/" +:+ c) p)
  end.

(** [os.path.join(p, name)] for a relative one-component [name] *)
Definition path_join (p : path) (name : string) : path := p ++ [name].

Definition norm_step (stack : list string) (c : string) : list string :=
  if str_eqb c "" || str_eqb c "." then stack
  else if str_eqb c ".." then tl stack
  else c :: stack.

(** [os.path.abspath] of an absolute path: [stack] is the result so far,
    innermost component first. *)
Definition norm (p : path) : path := rev (fold_left norm_step p []).

Fixpoint entry_get (x : string) (es : list (string * node)) : option node :=
  match es with
  | [] => None
  | (y, n) :: r => if str_eqb x y then Some n else entry_get x r
  end.

Fixpoint entry_del (x : string) (es : list (string * node))
  : list (string * node) :=
  match es with
  | [] => []
  | (y, n) :: r =>
      if str_eqb x y then entry_del x r else (y, n) :: entry_del x r
  end.

(** Apply [f] to the entry named [x] (the first one). *)
Fixpoint entry_at (x : string) (f : node -> node) (es : list (string * node))
  : list (string * node) :=
  match es with
  | [] => []
  | (y, n) :: r =>
      if str_eqb x y then (y, f n) :: r else (y, n) :: entry_at x f r
  end.

(** The node at a normalised path. *)
Fixpoint lookup (p : path) (t : node) : option node :=
  match p with
  | [] => Some t
  | x :: p' =>
      match t with
      | Dir es =>
          match entry_get x es with
          | Some n => lookup p' n
          | None => None
          end
      | File _ => None
      end
  end.

(** Remove the tree at a normalised path. *)
Fixpoint remove (p : path) (t : node) : node :=
  match p, t with
  | [], _ => t
  | [x], Dir es => Dir (entry_del x es)
  | x :: p', Dir es => Dir (entry_at x (remove p') es)
  | _, File _ => t
  end.

(** Put [n] at a normalised path whose parent is a directory. *)
Fixpoint put (p : path) (n : node) (t : node) : node :=
  match p, t with
  | [], _ => t
  | [x], Dir es => Dir (entry_del x es ++ [(x, n)])
  | x :: p', Dir es => Dir (entry_at x (put p' n) es)
  | _, File _ => t
  end.

Definition FileExistsError (p : path) : exn :=
  Exn "FileExistsError"
      ("[Errno 17] File exists: '" +:+ path_str p +:+ "'").
Definition FileNotFoundError (p : path) : exn :=
  Exn "FileNotFoundError"
      ("[Errno 2] No such file or directory: '" +:+ path_str p +:+ "'").
Definition NotADirectoryError (p : path) : exn :=
  Exn "NotADirectoryError"
      ("[Errno 20] Not a directory: '" +:+ path_str p +:+ "'").

Definition parent (p : path) : path := removelast p.

(** [os.mkdir(p)] *)
Definition mkdir (p : path) (t : node) : res node :=
  let q := norm p in
  match lookup q t with
  | Some _ => Raise (FileExistsError p)
  | None =>
      match lookup (parent q) t with
      | Some (Dir _) => Ok (put q (Dir []) t)
      | Some (File _) => Raise (NotADirectoryError p)
      | None => Raise (FileNotFoundError p)
      end
  end.

(** [shutil.rmtree(p, ignore_errors=True)] *)
Definition rmtree (p : path) (t : node) : node := remove (norm p) t.

Definition is_dir (n : node) : bool :=
  match n with Dir _ => true | File _ => false end.

(** [os.walk(top)]: each directory with its path string, its path relative
    to the walk's root, its sub-directory names and its other entries'
    names; a directory comes before its sub-directories. *)
Fixpoint walk (dirpath : string) (rel : list string) (n : node)
  : list (string * list string * list string * list string) :=
  match n with
  | File _ => []
  | Dir es =>
      (dirpath, rel,
       map fst (filter (fun e => is_dir (snd e) = true) es),
       map fst (filter (fun e => is_dir (snd e) = false) es))
      :: (fix subdirs (l : list (string * node)) :=
            match l with
            | [] => []
            | (name, child) :: r =>
                walk (dirpath +:+ "/" +:+ name) (rel ++ [name]) child
                ++ subdirs r
            end) es
  end.

End Fs.

(** ** The world outside the program *)
Module World.
Import Py.

Inductive clone_outcome :=
| CloneOk (tree : list (string * Fs.node))
| CloneFail (e : exn).

(** A JSON schema, as far as [REVIEW_SCHEMA] uses the vocabulary. *)
#[warnings="-register-all"]
Inductive schema :=
| SString (enum : option (list string))
| SArray (min_items max_items : option nat) (items : schema)
| SObject (additional : bool) (props : list (string * schema))
          (required : list string).

(** The arguments of [client.responses.create]. *)
Record model_request := {
  mr_model : string;
  mr_system : string;
  mr_user : string;
  mr_format_name : string;
  mr_schema : schema;
  mr_strict : bool
}.

(** The arguments of [requests.post]. *)
Record post_request := {
  post_url : string;
  post_authorization : string;
  post_accept : string;
  post_title : string;
  post_body : string
}.

Record http_response := { status_code : nat; text : string }.

Inductive event :=
| EMkdir (p : Fs.path)
| EClone (url : string) (dest : Fs.path)
| ERmtree (p : Fs.path)
| EModel (r : model_request)
| EPost (r : post_request).

Record world := {
  (** [os.getenv("OPENAI_API_KEY")] *)
  w_api_key : option string;
  w_fs : Fs.node;
  (** [tempfile.gettempdir()] *)
  w_tempdir : Fs.path;
  (** the random names [tempfile.mkdtemp] has left to try *)
  w_names : list string;
  (** git: what cloning a URL gives *)
  w_git : string -> clone_outcome;
  (** the model provider: the [output_text] of the response, or the
      exception the client raises *)
  w_model : model_request -> res string;
  (** the issue tracker, given the requests already posted *)
  w_tracker : list post_request -> post_request -> res http_response;
  w_trace : list event
}.

Definition log (ev : event) (w : world) : world :=
  {| w_api_key := w_api_key w; w_fs := w_fs w; w_tempdir := w_tempdir w;
     w_names := w_names w; w_git := w_git w; w_model := w_model w;
     w_tracker := w_tracker w; w_trace := w_trace w ++ [ev] |}.

Definition set_fs (t : Fs.node) (w : world) : world :=
  {| w_api_key := w_api_key w; w_fs := t; w_tempdir := w_tempdir w;
     w_names := w_names w; w_git := w_git w; w_model := w_model w;
     w_tracker := w_tracker w; w_trace := w_trace w |}.

Definition set_names (l : list string) (w : world) : world :=
  {| w_api_key := w_api_key w; w_fs := w_fs w; w_tempdir := w_tempdir w;
     w_names := l; w_git := w_git w; w_model := w_model w;
     w_tracker := w_tracker w; w_trace := w_trace w |}.

Definition posts (tr : list event) : list post_request :=
  flat_map (fun ev => match ev with EPost r => [r] | _ => [] end) tr.

(** [tempfile.mkdtemp(prefix=prefix)]: the first candidate name that
    [os.mkdir] accepts; an existing name is skipped, any other error is
    raised; the absolute path of the new directory is returned. *)
Fixpoint mkdtemp_from (prefix : string) (names : list string) (w : world)
  : world * res Fs.path :=
  match names with
  | [] =>
      (set_names [] w,
       Raise (Exn "FileExistsError"
                "[Errno 17] No usable temporary directory name found"))
  | name :: rest =>
      let file := Fs.path_join (w_tempdir w) (prefix +:+ name) in
      let w1 := log (EMkdir file) (set_names rest w) in
      match Fs.mkdir file (w_fs w) with
      | Ok t => (set_fs t w1, Ok (Fs.norm file))
      | Raise e =>
          if str_eqb (exn_class e) "FileExistsError"
          then mkdtemp_from prefix rest w1
          else (w1, Raise e)
      end
  end.

Definition mkdtemp (prefix : string) (w : world) : world * res Fs.path :=
  mkdtemp_from prefix (w_names w) w.

Definition GitCommandError (msg : string) : exn := Exn "GitCommandError" msg.

(** [Repo.clone_from(url, dest, depth=1)]: git refuses a destination that
    exists and is not an empty directory; otherwise the outcome is git's,
    and a successful clone leaves the checkout at [dest]. *)
Definition clone_from (url : string) (dest : Fs.path) (w : world)
  : world * res unit :=
  let w1 := log (EClone url dest) w in
  let q := Fs.norm dest in
  let refuse :=
    (w1, Raise (GitCommandError
       ("fatal: destination path '" +:+ Fs.path_str dest
        +:+ "' already exists and is not an empty directory."))) in
  let go :=
    match w_git w url with
    | CloneOk tree => (set_fs (Fs.put q (Fs.Dir tree) (w_fs w)) w1, Ok tt)
    | CloneFail e => (w1, Raise e)
    end in
  match Fs.lookup q (w_fs w) with
  | Some (Fs.Dir []) => go
  | Some _ => refuse
  | None => go
  end.

(** [shutil.rmtree(p, ignore_errors=True)] *)
Definition rmtree (p : Fs.path) (w : world) : world :=
  log (ERmtree p) (set_fs (Fs.rmtree p (w_fs w)) w).

End World.

(** ** backend/ai_review.py *)
Module AiReview.
Import Py World.

Definition SYSTEM_PROMPT : string :=
"You are RepoDoctor, a strict senior engineer.

Rules:
- Use ONLY the provided file tree + key file contents as evidence.
- If you can't verify something from the provided data, do NOT claim it.
- Produce EXACTLY 5 issues in top_5.
- Every issue must include evidence (file path + short snippet or concrete clue).
- Every issue must include a concrete fix (specific steps or edits).

Return ONLY valid JSON matching the schema. No markdown.
".

Definition REVIEW_SCHEMA : schema :=
  SObject false
    [("one_liner", SString None);
     ("top_5",
      SArray (Some 5) (Some 5)
        (SObject false
           [("title", SString None);
            ("severity", SString (Some ["critical"; "high"; "medium"; "low"]));
            ("evidence", SString None);
            ("fix", SString None)]
           ["title"; "severity"; "evidence"; "fix"]));
     ("next_7_days_plan", SArray None None (SString None))]
    ["one_liner"; "top_5"; "next_7_days_plan"].

Definition hex_char (n : nat) : ascii :=
  if n <? 10 then chr (48 + n) else chr (87 + n).

(** One character of a string under [json.dumps] ([ensure_ascii=True]). *)
Definition dumps_char (c : ascii) : string :=
  let n := ord c in
  if eqc c "034" then "\" +:+ dq
  else if eqc c "\" then "\\"
  else if eqc c "010" then "\n"
  else if eqc c "013" then "\r"
  else if eqc c "009" then "\t"
  else if eqc c "008" then "\b"
  else if eqc c "012" then "\f"
  else if (32 <=? n) && (n <=? 126) then ch c
  else "\u00" +:+ ch (hex_char (n / 16)) +:+ ch (hex_char (n mod 16)).

Fixpoint dumps_chars (s : string) : string :=
  match s with
  | EmptyString => EmptyString
  | String c r => dumps_char c +:+ dumps_chars r
  end.

(** [json.dumps(s)] for a string *)
Definition dumps_str (s : string) : string := dq +:+ dumps_chars s +:+ dq.

(** [json.dumps(d)] for a dict of strings *)
Definition dumps_dict (d : dict string) : string :=
  "{" +:+ join ", " (map (fun kv => dumps_str (fst kv) +:+ ": " +:+ snd kv) d)
      +:+ "}".

Definition key_file_snips (key_files : dict string) : dict string :=
  fold_left
    (fun acc kv =>
       let '(name, content) := kv in
       if str_eqb content "DIRECTORY_PRESENT"
       then dict_set name "DIRECTORY_PRESENT" acc
       else dict_set name (take 4000 content) acc)
    key_files [].

Definition user_payload (repo_url : string) (file_tree : list string)
    (key_files : dict string) : string :=
  dumps_dict
    [("repo_url", dumps_str repo_url);
     ("file_tree", dumps_str (join lf (firstn 200 file_tree)));
     ("key_files",
      dumps_dict (map (fun kv => (fst kv, dumps_str (snd kv)))
                      (key_file_snips key_files)))].

Definition review_request (repo_url : string) (file_tree : list string)
    (key_files : dict string) : model_request :=
  {| mr_model := "gpt-4o-mini";
     mr_system := SYSTEM_PROMPT;
     mr_user := user_payload repo_url file_tree key_files;
     mr_format_name := "repo_review";
     mr_schema := REVIEW_SCHEMA;
     mr_strict := true |}.

Definition call_ai_review (repo_url : string) (file_tree : list string)
    (key_files : dict string) (w : world) : world * res Json.json :=
  match w_api_key w with
  | None | Some EmptyString =>
      (w, Raise (RuntimeError
                   "OPENAI_API_KEY missing. Put it in repodoctor/.env"))
  | Some _ =>
      let rq := review_request repo_url file_tree key_files in
      let w1 := log (EModel rq) w in
      match w_model w rq with
      | Raise e => (w1, Raise e)
      | Ok output_text => (w1, Json.loads output_text)
      end
  end.

(** What a schema accepts. *)
Fixpoint validates (sc : schema) (v : Json.json) {struct sc} : bool :=
  match sc, v with
  | SString None, Json.JStr _ => true
  | SString (Some allowed), Json.JStr s => existsb (str_eqb s) allowed
  | SArray lo hi item, Json.JArr l =>
      match lo with Some n => n <=? length l | None => true end
      && match hi with Some n => length l <=? n | None => true end
      && forallb (validates item) l
  | SObject additional props required, Json.JObj d =>
      forallb (fun k => dict_mem k d) required
      && (additional || forallb (fun kv => dict_mem (fst kv) props) d)
      && (fix each (ps : list (string * schema)) : bool :=
            match ps with
            | [] => true
            | (k, sk) :: r =>
                match dict_get k d with
                | Some x => validates sk x
                | None => true
                end && each r
            end) props
  | _, _ => false
  end.

End AiReview.

(** ** backend/main.py *)
Module Main.
Import Py World.

Record AnalyzeRequest := { repo_url : string }.

(** An issue record is a dict; its fields are strings here, as the front
    end sends them. *)
Record CreateIssuesRequest := {
  ci_repo_url : string;
  github_token : string;
  issues : list (dict string)
}.

Definition safe_repo_name (url : string) : res string :=
  bind (Url.urlparse url) (fun p =>
  let s := replace_char "/" "__" (strip_char "/" (Url.path p)) in
  Ok (if nonempty s then s else "repo")).

Definition read_text_file (n : Fs.node) (max_chars : nat) : string :=
  match n with
  | Fs.File (Ok content) => take max_chars content
  | Fs.File (Raise _) => ""
  | Fs.Dir _ => ""
  end.

Definition skip : list string :=
  [".git"; "node_modules"; "__pycache__"; ".venv"; "dist"; "build"].

Definition important : list string :=
  ["README.md"; "LICENSE"; ".env.example"; "pyproject.toml";
   "requirements.txt"; "Dockerfile"; ".github"; "SECURITY.md"].

(** [os.path.relpath(dirpath, root)] for a directory of the walk *)
Definition relpath (rel : list string) : string :=
  match rel with
  | [] => "."
  | _ => join "/" rel
  end.

(** The inner loop: [fn] is appended unless the cap is reached, which ends
    the loop. *)
Fixpoint add_files (max_files : nat) (rel : string) (filenames : list string)
    (files : list string) : list string :=
  match filenames with
  | [] => files
  | fn :: r =>
      if max_files <=? length files then files
      else add_files max_files rel r (files ++ [rel +:+ "/" +:+ fn])
  end.

Definition walk_step (max_files : nat) (files : list string)
    (d : string * list string * list string * list string) : list string :=
  let '(dirpath, rel, _, filenames) := d in
  if existsb (fun s => contains s dirpath) skip then files
  else add_files max_files (relpath rel) filenames files.

Definition key_step (entries : list (string * Fs.node))
    (key_contents : dict string) (name : string) : dict string :=
  match Fs.entry_get name entries with
  | Some n =>
      dict_set name
        (if Fs.is_dir n then "DIRECTORY_PRESENT" else read_text_file n 8000)
        key_contents
  | None => key_contents
  end.

(** [walk_repo_summary(root, max_files)], [t] being what the file system
    has at [root]. *)
Definition walk_repo_summary (root : string) (t : option Fs.node)
    (max_files : nat) : list string * dict string :=
  let dirs := match t with Some n => Fs.walk root [] n | None => [] end in
  let files := fold_left (walk_step max_files) dirs [] in
  let entries := match t with Some (Fs.Dir es) => es | _ => [] end in
  let key_contents := fold_left (key_step entries) important [] in
  (firstn max_files files, key_contents).

Definition basic_heuristics (files : list string) (key_contents : dict string)
  : list string * list string * list string :=
  let quickwins := [] in
  let risks := [] in
  let findings := [] in
  let quickwins :=
    if negb (dict_mem "README.md" key_contents)
    then quickwins ++ ["Add a README.md with setup and usage instructions."]
    else quickwins in
  let quickwins :=
    if negb (dict_mem ".env.example" key_contents)
    then quickwins ++ ["Add a .env.example for environment variables."]
    else quickwins in
  let quickwins :=
    if negb (dict_mem "Dockerfile" key_contents)
    then quickwins ++ ["Add a Dockerfile for reproducible builds."]
    else quickwins in
  let risks :=
    if negb (dict_mem "LICENSE" key_contents)
    then risks ++ ["No LICENSE file found."]
    else risks in
  let risks :=
    if negb (existsb (fun f => contains "test" (lower f)) files)
    then risks ++ ["No obvious tests detected."]
    else risks in
  let findings :=
    if 180 <? length files
    then findings ++ ["Large repo: consider adding docs/architecture.md."]
    else findings in
  (findings, quickwins, risks).

Record analysis := {
  a_repo_url : string;
  file_count_sampled : nat;
  key_files_found : list string;
  a_findings : list string;
  quick_wins : list string;
  a_risks : list string;
  next_steps : list string;
  openai_key_present : bool;
  ai_error : option string;
  ai_review : option Json.json
}.

Inductive response :=
| ErrorDict (error : string)
| Analysis (a : analysis).

Definition analyze_repo (req : AnalyzeRequest) (w : world)
  : world * res response :=
  let repo_url := strip (repo_url req) in
  if negb (startswith "https://github.com/" repo_url)
  then (w, Ok (ErrorDict "Invalid GitHub repo URL"))
  else
    match mkdtemp "repodoctor_" w with
    | (w, Raise e) => (w, Raise e)
    | (w, Ok tmp_root) =>
        match safe_repo_name repo_url with
        | Raise e => (w, Raise e)
        | Ok name =>
            let dest := Fs.path_join tmp_root name in
            (* try *)
            let '(w, r) :=
              match clone_from repo_url dest w with
              | (w, Raise e) => (w, Raise e)
              | (w, Ok _) =>
                  let '(files, key_contents) :=
                    walk_repo_summary (Fs.path_str dest)
                      (Fs.lookup (Fs.norm dest) (w_fs w)) 200 in
                  let '(findings, quickwins, risks) :=
                    basic_heuristics files key_contents in
                  let '(w, review, error) :=
                    match AiReview.call_ai_review repo_url files key_contents w
                    with
                    | (w, Ok v) => (w, Some v, None)
                    | (w, Raise e) => (w, None, Some (exn_str e))
                    end in
                  (w, Ok (Analysis
                    {| a_repo_url := repo_url;
                       file_count_sampled := length files;
                       key_files_found := dict_keys key_contents;
                       a_findings := findings;
                       quick_wins := quickwins;
                       a_risks := risks;
                       next_steps :=
                         ["Add CI + basic tests";
                          "Document env vars and run steps";
                          "Add Docker";
                          "Run a dependency security audit"];
                       openai_key_present :=
                         match w_api_key w with
                         | Some k => nonempty k
                         | None => false
                         end;
                       ai_error := error;
                       ai_review := review |}))
              end in
            (* finally *)
            (rmtree tmp_root w, r)
        end
    end.

Definition issue_field (it : dict string) (k : string) : res string :=
  match dict_get k it with
  | Some v => Ok v
  | None => Raise (KeyError k)
  end.

Definition issue_body (it : dict string) : res string :=
  bind (issue_field it "severity") (fun severity =>
  bind (issue_field it "evidence") (fun evidence =>
  bind (issue_field it "fix") (fun fix_ =>
  Ok ("**Severity:** " +:+ severity +:+ lf +:+ lf
      +:+ "**Evidence:**" +:+ lf +:+ evidence +:+ lf +:+ lf
      +:+ "**Suggested fix:**" +:+ lf +:+ fix_ +:+ lf +:+ lf
      +:+ "_Created by RepoDoctor_")))).

(** The request [create_issue] posts. *)
Definition issue_post (token owner repo title body : string) : post_request :=
  {| post_url := "https://api.github.com/repos/" +:+ owner +:+ "/" +:+ repo
                 +:+ "/issues";
     post_authorization := "token " +:+ token;
     post_accept := "application/vnd.github+json";
     post_title := title;
     post_body := body |}.

(** backend/github_issues.py, [create_issue] *)
Definition create_issue (token owner repo title body : string) (w : world)
  : world * res Json.json :=
  let rq := issue_post token owner repo title body in
  let w1 := log (EPost rq) w in
  match w_tracker w (posts (w_trace w)) rq with
  | Raise e => (w1, Raise e)
  | Ok r =>
      if 400 <=? status_code r
      then (w1, Raise (RuntimeError
              ("GitHub API error " +:+ str_of_nat (status_code r) +:+ ": "
               +:+ take 300 (text r))))
      else (w1, Json.loads (text r))
  end.

(** The loop of [create_issues] over the issues left, [created] being the
    list built so far. *)
Fixpoint create_loop (token owner repo : string) (its : list (dict string))
    (created : list Json.json) (w : world) : world * res (list Json.json) :=
  match its with
  | [] => (w, Ok created)
  | it :: rest =>
      match issue_body it with
      | Raise e => (w, Raise e)
      | Ok body =>
          match issue_field it "title" with
          | Raise e => (w, Raise e)
          | Ok title =>
              match create_issue (strip token) owner repo title body w with
              | (w, Raise e) => (w, Raise e)
              | (w, Ok issue) =>
                  match Json.getitem issue "html_url" with
                  | Raise e => (w, Raise e)
                  | Ok u => create_loop token owner repo rest (created ++ [u]) w
                  end
              end
          end
      end
  end.

Definition create_issues (req : CreateIssuesRequest) (w : world)
  : world * res (list Json.json) :=
  match GithubIssues.parse_repo (ci_repo_url req) with
  | Raise e => (w, Raise e)
  | Ok (owner, repo) =>
      create_loop (github_token req) owner repo (firstn 5 (issues req)) [] w
  end.

End Main.

(** * Properties *)

(** ** The heuristic scanner *)
Section Heuristics.

Import Main.

Definition readme_tip : string :=
  "Add a README.md with setup and usage instructions.".
Definition env_tip : string := "Add a .env.example for environment variables.".
Definition docker_tip : string := "Add a Dockerfile for reproducible builds.".
Definition license_risk : string := "No LICENSE file found.".
Definition tests_risk : string := "No obvious tests detected.".
Definition large_finding : string :=
  "Large repo: consider adding docs/architecture.md.".

(** The entry a rule emits when its condition holds. *)
Definition emit (cond : bool) (entry : string) : list string :=
  if cond then [entry] else [].

(** [any("test" in f.lower() for f in files)] *)
Definition mentions_test (files : list string) : bool :=
  existsb (fun f => Py.contains "test" (Py.lower f)) files.

Lemma basic_heuristics_unfold files kc :
  basic_heuristics files kc =
  (emit (180 <? length files) large_finding,
   emit (negb (Py.dict_mem "README.md" kc)) readme_tip
     ++ emit (negb (Py.dict_mem ".env.example" kc)) env_tip
     ++ emit (negb (Py.dict_mem "Dockerfile" kc)) docker_tip,
   emit (negb (Py.dict_mem "LICENSE" kc)) license_risk
     ++ emit (negb (mentions_test files)) tests_risk).
Proof.
  unfold basic_heuristics, mentions_test, emit.
  destruct (Py.dict_mem "README.md" kc), (Py.dict_mem ".env.example" kc),
    (Py.dict_mem "Dockerfile" kc), (Py.dict_mem "LICENSE" kc),
    (existsb _ files), (180 <? length files); reflexivity.
Qed.

(** C7: the scanner's three sequences list the entries of the rules that
    fire in the fixed rule order (README, env example, Dockerfile for the
    quick wins; license, tests for the risks); with no README.md and no
    LICENSE key file and five listed files none of which mentions "test",
    the quick wins contain the README suggestion and the risks are the
    no-license risk followed by the no-tests risk. *)
Theorem C7_rule_order (files : list string) (kc : Py.dict string) :
  basic_heuristics files kc =
    (emit (180 <? length files) large_finding,
     emit (negb (Py.dict_mem "README.md" kc)) readme_tip
       ++ emit (negb (Py.dict_mem ".env.example" kc)) env_tip
       ++ emit (negb (Py.dict_mem "Dockerfile" kc)) docker_tip,
     emit (negb (Py.dict_mem "LICENSE" kc)) license_risk
       ++ emit (negb (mentions_test files)) tests_risk)
  /\ (Py.dict_mem "README.md" kc = false ->
      Py.dict_mem "LICENSE" kc = false ->
      length files = 5 ->
      Forall (fun f => Py.contains "test" (Py.lower f) = false) files ->
      In readme_tip (snd (fst (basic_heuristics files kc)))
      /\ snd (basic_heuristics files kc) = [license_risk; tests_risk]
      /\ fst (fst (basic_heuristics files kc)) = []).
Proof.
  split; [apply basic_heuristics_unfold|].
  intros Hreadme Hlicense Hlen Hnone.
  rewrite basic_heuristics_unfold; cbn [fst snd].
  rewrite Hreadme, Hlicense, Hlen.
  assert (Hm : mentions_test files = false).
  { unfold mentions_test. clear Hlen.
    induction Hnone as [|f l Hf _ IH]; cbn; [reflexivity|].
    now rewrite Hf, IH. }
  rewrite Hm. cbn. auto.
Qed.

Definition five_plain_files : list string :=
  ["./main.py"; "./app.py"; "src/util.py"; "src/core.py"; "docs/intro.md"].

Lemma C7_rule_order_witness :
  In readme_tip
     (snd (fst (basic_heuristics five_plain_files [("Dockerfile", "FROM x")])))
  /\ snd (basic_heuristics five_plain_files [("Dockerfile", "FROM x")])
     = [license_risk; tests_risk]
  /\ fst (fst (basic_heuristics five_plain_files [("Dockerfile", "FROM x")]))
     = [].
Proof.
  apply (C7_rule_order five_plain_files [("Dockerfile", "FROM x")]).
  - reflexivity.
  - reflexivity.
  - reflexivity.
  - repeat constructor.
Defined.

(** The entry of the rule that inspects key file [k], if a rule does. *)
Definition rule_entry (k : string) : option string :=
  if Py.str_eqb k "README.md" then Some readme_tip
  else if Py.str_eqb k ".env.example" then Some env_tip
  else if Py.str_eqb k "Dockerfile" then Some docker_tip
  else if Py.str_eqb k "LICENSE" then Some license_risk
  else None.

(** [l] without the entry of [k]'s rule. *)
Definition without_rule (k : string) (l : list string) : list string :=
  match rule_entry k with
  | Some m => filter (fun x => Py.str_eqb x m = false) l
  | None => l
  end.

Lemma dict_mem_other (k : string) (kc1 kc2 : Py.dict string) (k' : string) :
  (forall x, x <> k -> Py.dict_mem x kc1 = Py.dict_mem x kc2) ->
  k' <> k -> Py.dict_mem k' kc1 = Py.dict_mem k' kc2.
Proof. intros H Hne. now apply H. Qed.

(** C8: when two evidence sets have the same file listing and their key
    files differ only by the allow-listed file [k], absent from the first
    and present in the second, the findings are the same and the quick wins
    and risks of the second are those of the first without the entry of
    [k]'s rule: at most one entry differs. *)
Theorem C8_rules_independent (files : list string)
    (kc1 kc2 : Py.dict string) (k : string) :
  In k important ->
  Py.dict_mem k kc1 = false ->
  Py.dict_mem k kc2 = true ->
  (forall x, x <> k -> Py.dict_mem x kc1 = Py.dict_mem x kc2) ->
  let '(findings1, quickwins1, risks1) := basic_heuristics files kc1 in
  let '(findings2, quickwins2, risks2) := basic_heuristics files kc2 in
  findings2 = findings1
  /\ quickwins2 = without_rule k quickwins1
  /\ risks2 = without_rule k risks1
  /\ length quickwins1 + length risks1
     <= S (length quickwins2 + length risks2).
Proof.
  intros Hk H1 H2 Hother.
  rewrite !basic_heuristics_unfold.
  unfold important in Hk. cbn [In] in Hk.
  repeat (destruct Hk as [<-|Hk]); [| | | | | | | | contradiction];
    repeat match goal with
    | |- context [Py.dict_mem ?x kc1] =>
        first [ rewrite H1
              | rewrite (dict_mem_other _ kc1 kc2 x Hother) by discriminate ]
    end;
    rewrite ?H2;
    destruct (Py.dict_mem "README.md" kc2), (Py.dict_mem ".env.example" kc2),
      (Py.dict_mem "Dockerfile" kc2), (Py.dict_mem "LICENSE" kc2),
      (mentions_test files);
    try discriminate; cbn; repeat split; lia.
Qed.

Lemma C8_rules_independent_witness :
  let '(findings1, quickwins1, risks1) :=
    basic_heuristics five_plain_files [("Dockerfile", "FROM x")] in
  let '(findings2, quickwins2, risks2) :=
    basic_heuristics five_plain_files
      [("LICENSE", "MIT"); ("Dockerfile", "FROM x")] in
  findings2 = findings1
  /\ quickwins2 = without_rule "LICENSE" quickwins1
  /\ risks2 = without_rule "LICENSE" risks1
  /\ length quickwins1 + length risks1
     <= S (length quickwins2 + length risks2).
Proof.
  apply (C8_rules_independent five_plain_files
           [("Dockerfile", "FROM x")]
           [("LICENSE", "MIT"); ("Dockerfile", "FROM x")] "LICENSE").
  - cbn. auto.
  - reflexivity.
  - reflexivity.
  - intros x Hx. unfold Py.dict_mem. cbn.
    destruct (Py.str_eqb x "LICENSE") eqn:E; [|reflexivity].
    apply String.eqb_eq in E. contradiction.
Defined.

End Heuristics.

(** ** The evidence extractor *)
Section Extractor.

Import Main.

Lemma take_length (n : nat) (s : string) : String.length (Py.take n s) <= n.
Proof.
  revert s; induction n as [|n IH]; intros [|c r]; cbn; try lia.
  specialize (IH r). lia.
Qed.

Lemma read_text_file_length (n : Fs.node) (max_chars : nat) :
  String.length (read_text_file n max_chars) <= max_chars.
Proof.
  destruct n as [[content|e]|es]; cbn; try lia. apply take_length.
Qed.

Lemma dict_set_In {V} (k : string) (v : V) (d : Py.dict V) (kv : string * V) :
  In kv (Py.dict_set k v d) -> kv = (k, v) \/ In kv d.
Proof.
  induction d as [|[k' v'] d IH]; cbn.
  - intros [<-|[]]. now left.
  - destruct (Py.str_eqb k k'); cbn; intros [<-|H]; auto.
    destruct (IH H); auto.
Qed.

(** The cap holds all along the walk, not only after the final slice. *)
Lemma add_files_length (max_files : nat) (rel : string)
    (filenames files : list string) :
  length files <= max_files ->
  length (add_files max_files rel filenames files) <= max_files.
Proof.
  revert files; induction filenames as [|fn r IH]; intros files H; cbn.
  - exact H.
  - destruct (max_files <=? length files) eqn:E; [exact H|].
    apply Nat.leb_gt in E. apply IH. rewrite length_app. cbn. lia.
Qed.

Lemma walk_files_length (max_files : nat)
    (dirs : list (string * list string * list string * list string))
    (files : list string) :
  length files <= max_files ->
  length (fold_left (walk_step max_files) dirs files) <= max_files.
Proof.
  revert files; induction dirs as [|[[[dirpath rel] dns] fns] dirs IH];
    intros files H; cbn; [exact H|].
  apply IH.
  match goal with |- context [if ?b then _ else _] => destruct b end;
    [exact H|].
  now apply add_files_length.
Qed.

Definition key_entry_ok (kv : string * string) : Prop :=
  In (fst kv) important
  /\ (snd kv = "DIRECTORY_PRESENT" \/ String.length (snd kv) <= 8000).

Lemma key_contents_ok (entries : list (string * Fs.node))
    (names : list string) (kc : Py.dict string) :
  (forall n, In n names -> In n important) ->
  Forall key_entry_ok kc ->
  Forall key_entry_ok (fold_left (key_step entries) names kc).
Proof.
  revert kc; induction names as [|name names IH]; intros kc Hn Hkc; cbn.
  - exact Hkc.
  - apply IH; [intros n Hin; apply Hn; now right|].
    unfold key_step. destruct (Fs.entry_get name entries) as [n|]; [|exact Hkc].
    apply List.Forall_forall. intros kv Hin.
    apply dict_set_In in Hin. destruct Hin as [->|Hin].
    + split; [apply Hn; now left|]. cbn [snd].
      destruct (Fs.is_dir n); [now left|right].
      apply read_text_file_length.
    + revert kv Hin. now apply List.Forall_forall.
Qed.

(** C6: whatever the directory holds, the extractor lists at most 200
    paths (the cap is never exceeded during the walk, so the final slice
    drops nothing), every key of the key-file mapping is on the allow-list,
    and every value is the directory sentinel or has at most 8000
    characters. *)
Theorem C6_evidence_bounds (root : string) (t : option Fs.node) :
  length (fst (walk_repo_summary root t 200)) <= 200
  /\ fst (walk_repo_summary root t 200)
     = fold_left (walk_step 200)
         (match t with Some n => Fs.walk root [] n | None => [] end) []
  /\ Forall (fun kv =>
       In (fst kv) important
       /\ (snd kv = "DIRECTORY_PRESENT" \/ String.length (snd kv) <= 8000))
       (snd (walk_repo_summary root t 200)).
Proof.
  unfold walk_repo_summary; cbn [fst snd].
  set (dirs := match t with Some n => Fs.walk root [] n | None => [] end).
  assert (H : length (fold_left (walk_step 200) dirs []) <= 200)
    by (apply walk_files_length; cbn; lia).
  repeat split.
  - rewrite length_firstn. lia.
  - apply firstn_all2. exact H.
  - apply (key_contents_ok _ important []); [auto|constructor].
Qed.

End Extractor.

(** ** The issue publisher *)
Section Publisher.

Import World Main.

Lemma posts_app (a b : list event) : posts (a ++ b) = posts a ++ posts b.
Proof. unfold posts. apply flat_map_app. Qed.

Lemma create_issue_world (token owner repo title body : string) (w : world) :
  fst (create_issue token owner repo title body w)
  = log (EPost (issue_post token owner repo title body)) w.
Proof.
  unfold create_issue.
  destruct (w_tracker w _ _) as [r|e]; [|reflexivity].
  destruct (400 <=? status_code r); reflexivity.
Qed.

(** C9 (as the code has it): [create_issue] posts one request; when the
    tracker answers with a status of 400 or more it raises a RuntimeError
    whose message carries the status and the first 300 characters of the
    body; for any status below 400 it returns the decoded JSON body (and
    raises the decoding error if the body is not JSON); an exception of the
    HTTP client is passed on. *)
Theorem C9_create_issue (token owner repo title body : string) (w : world) :
  let rq := issue_post token owner repo title body in
  let out := create_issue token owner repo title body w in
  w_trace (fst out) = w_trace w ++ [EPost rq]
  /\ (forall r, w_tracker w (posts (w_trace w)) rq = Py.Ok r ->
      400 <= status_code r ->
      snd out = Py.Raise (Py.RuntimeError
        ("GitHub API error " +:+ Py.str_of_nat (status_code r) +:+ ": "
         +:+ Py.take 300 (text r))))
  /\ (forall r, w_tracker w (posts (w_trace w)) rq = Py.Ok r ->
      status_code r < 400 ->
      snd out = Json.loads (text r))
  /\ (forall e, w_tracker w (posts (w_trace w)) rq = Py.Raise e ->
      snd out = Py.Raise e).
Proof.
  cbn zeta. rewrite create_issue_world. split; [reflexivity|].
  unfold create_issue.
  destruct (w_tracker w _ _) as [r|e]; repeat split; intros x Hx;
    try discriminate; injection Hx as <-; try reflexivity.
  - intros H. apply Nat.leb_le in H. now rewrite H.
  - intros H. apply Nat.leb_gt in H. now rewrite H.
Qed.

(** A world with nothing in it but a tracker that always answers [r]. *)
Definition tracker_world (r : http_response) : world :=
  {| w_api_key := None; w_fs := Fs.Dir [("tmp", Fs.Dir [])];
     w_tempdir := ["tmp"]; w_names := [];
     w_git := fun _ => CloneFail (Py.Exn "GitCommandError" "not found");
     w_model := fun _ => Py.Raise (Py.Exn "APIConnectionError" "Connection error.");
     w_tracker := fun _ _ => Py.Ok r;
     w_trace := [] |}.

Definition quoted (s : string) : string := Py.dq +:+ s +:+ Py.dq.

Definition not_found : http_response :=
  {| status_code := 404;
     text := "{" +:+ quoted "message" +:+ ": " +:+ quoted "Not Found" +:+ "}" |}.

Lemma C9_create_issue_witness :
  snd (create_issue "tok" "owner" "repo" "Title" "Body"
         (tracker_world not_found))
  = Py.Raise (Py.RuntimeError
      ("GitHub API error 404: {" +:+ quoted "message" +:+ ": "
       +:+ quoted "Not Found" +:+ "}")).
Proof.
  destruct (C9_create_issue "tok" "owner" "repo" "Title" "Body"
              (tracker_world not_found)) as (_ & H & _).
  apply (H not_found); [reflexivity|cbn; lia].
Defined.

(** A 302 answer whose redirection the HTTP client did not follow. *)
Definition found_elsewhere : http_response :=
  {| status_code := 302;
     text := "{" +:+ quoted "message" +:+ ": " +:+ quoted "Moved" +:+ "}" |}.

(** C9, counterexample: the tracker answers 302, which is not a 2xx
    status, and [create_issue] raises nothing: it returns the decoded
    body. *)
Lemma C9_counterexample :
  let w := tracker_world found_elsewhere in
  w_tracker w (posts (w_trace w))
    (issue_post "tok" "owner" "repo" "Title" "Body") = Py.Ok found_elsewhere
  /\ ~ (200 <= status_code found_elsewhere < 300)
  /\ snd (create_issue "tok" "owner" "repo" "Title" "Body" w)
     = Py.Ok (Json.JObj [("message", Json.JStr "Moved")]).
Proof.
  cbn zeta. split; [reflexivity|]. split; [cbn; lia|].
  vm_compute. reflexivity.
Qed.

(** The request the loop posts for issue record [it]. *)
Definition issue_request (token owner repo : string) (it : Py.dict string)
  : Py.res post_request :=
  Py.bind (issue_body it) (fun body =>
  Py.bind (issue_field it "title") (fun title =>
  Py.Ok (issue_post (Py.strip token) owner repo title body))).

(** The tracker, having seen [hist], accepts [rq] and the [html_url] of its
    answer is [u]. *)
Definition answered (w : world) (hist : list post_request)
    (rq : post_request) (u : Json.json) : Prop :=
  exists r v,
    w_tracker w hist rq = Py.Ok r /\ status_code r < 400
    /\ Json.loads (text r) = Py.Ok v /\ Json.getitem v "html_url" = Py.Ok u.

Lemma create_issue_ok (token owner repo title body : string) (w : world)
    (v : Json.json) :
  snd (create_issue token owner repo title body w) = Py.Ok v ->
  exists r, w_tracker w (posts (w_trace w))
              (issue_post token owner repo title body) = Py.Ok r
            /\ status_code r < 400 /\ Json.loads (text r) = Py.Ok v.
Proof.
  unfold create_issue.
  destruct (w_tracker w _ _) as [r|e]; [|discriminate].
  destruct (400 <=? status_code r) eqn:E; [discriminate|].
  apply Nat.leb_gt in E. cbn. intros H. now exists r.
Qed.

Local Ltac nothing_sent :=
  exists []; cbn; rewrite app_nil_r;
  split; [reflexivity|]; split; [reflexivity|]; split; [lia|];
  split; [apply List.Forall2_nil|discriminate].

Lemma create_loop_spec (token owner repo : string)
    (its : list (Py.dict string)) :
  forall (created0 : list Json.json) (w : world),
  exists sent,
    posts (w_trace (fst (create_loop token owner repo its created0 w)))
      = posts (w_trace w) ++ sent
    /\ w_tracker (fst (create_loop token owner repo its created0 w))
       = w_tracker w
    /\ length sent <= length its
    /\ Forall2 (fun rq it => issue_request token owner repo it = Py.Ok rq)
         sent (firstn (length sent) its)
    /\ forall created,
         snd (create_loop token owner repo its created0 w) = Py.Ok created ->
         length sent = length its
         /\ exists new,
              created = created0 ++ new /\ length new = length sent
              /\ forall i rq u,
                   nth_error sent i = Some rq -> nth_error new i = Some u ->
                   answered w (posts (w_trace w) ++ firstn i sent) rq u.
Proof.
  induction its as [|it rest IH]; intros created0 w.
  - exists []. cbn. rewrite app_nil_r.
    split; [reflexivity|]. split; [reflexivity|]. split; [lia|].
    split; [constructor|].
    intros created Hc. injection Hc as <-. split; [reflexivity|].
    exists []. rewrite app_nil_r. split; [reflexivity|].
    split; [reflexivity|].
    intros [|i] rq u; discriminate.
  - cbn [create_loop]. unfold issue_request.
    destruct (issue_body it) as [body|e] eqn:Hb; [|nothing_sent].
    destruct (issue_field it "title") as [title|e] eqn:Ht; [|nothing_sent].
    pose proof (create_issue_world (Py.strip token) owner repo title body w)
      as Hw.
    pose proof (create_issue_ok (Py.strip token) owner repo title body w)
      as Hok.
    set (rq := issue_post (Py.strip token) owner repo title body) in *.
    destruct (create_issue (Py.strip token) owner repo title body w)
      as [w1 [issue|e]]; cbn [fst snd] in *; subst w1.
    2:{ exists [rq]. cbn. rewrite posts_app. cbn.
        split; [reflexivity|]. split; [reflexivity|]. split; [lia|].
        split; [|discriminate].
        apply List.Forall2_cons; [now rewrite Hb, Ht|apply List.Forall2_nil]. }
    destruct (Json.getitem issue "html_url") as [u|e] eqn:Hu.
    2:{ exists [rq]. cbn. rewrite posts_app. cbn.
        split; [reflexivity|]. split; [reflexivity|]. split; [lia|].
        split; [|discriminate].
        apply List.Forall2_cons; [now rewrite Hb, Ht|apply List.Forall2_nil]. }
    destruct (IH (created0 ++ [u]) (log (EPost rq) w))
      as (sent & Hp & Htr & Hlen & Hreq & Hres).
    exists (rq :: sent). cbn [length firstn].
    split; [rewrite Hp; cbn; rewrite posts_app; cbn;
            now rewrite <- app_assoc|].
    split; [exact Htr|]. split; [lia|].
    split; [apply List.Forall2_cons; [now rewrite Hb, Ht|exact Hreq]|].
    intros created Hc. destruct (Hres created Hc) as (Hl & new & -> & Hn & Hi).
    split; [lia|]. exists (u :: new). rewrite <- app_assoc.
    split; [reflexivity|]. split; [cbn; lia|].
    intros [|i] rq' u' H1 H2; cbn in H1, H2.
    + injection H1 as <-. injection H2 as <-. cbn. rewrite app_nil_r.
      destruct (Hok issue eq_refl) as (r & Hr & Hs & Hv).
      now exists r, issue.
    + specialize (Hi i rq' u' H1 H2).
      cbn [w_trace log] in Hi. rewrite posts_app in Hi. cbn in Hi.
      rewrite <- app_assoc in Hi. exact Hi.
Qed.

(** Record [it] has the four fields the loop reads. *)
Definition complete (it : Py.dict string) : bool :=
  forallb (fun k => Py.dict_mem k it) ["severity"; "evidence"; "fix"; "title"].

Lemma complete_request (token owner repo : string) (it : Py.dict string) :
  complete it = true ->
  exists rq, issue_request token owner repo it = Py.Ok rq.
Proof.
  unfold complete, issue_request, issue_body, issue_field, Py.dict_mem.
  cbn [forallb].
  destruct (Py.dict_get "severity" it); [|discriminate].
  destruct (Py.dict_get "evidence" it); [|discriminate].
  destruct (Py.dict_get "fix" it); [|discriminate].
  destruct (Py.dict_get "title" it); [|discriminate].
  intros _. cbn. eauto.
Qed.

Lemma complete_requests (token owner repo : string)
    (its : list (Py.dict string)) :
  List.Forall (fun it => complete it = true) its ->
  exists rqs,
    Forall2 (fun it rq => issue_request token owner repo it = Py.Ok rq)
            its rqs.
Proof.
  induction 1 as [|it its Hit _ (rqs & IH)].
  - exists []. apply List.Forall2_nil.
  - destruct (complete_request token owner repo it Hit) as (rq & Hrq).
    exists (rq :: rqs). now apply List.Forall2_cons.
Qed.

(** The tracker accepts the requests [rqs] one after the other, starting
    from the history [hist], and answers with the identifiers [urls]. *)
Fixpoint all_answered (w : world) (hist : list post_request)
    (rqs : list post_request) (urls : list Json.json) : Prop :=
  match rqs, urls with
  | [], [] => True
  | rq :: rqs', u :: urls' =>
      answered w hist rq u /\ all_answered w (hist ++ [rq]) rqs' urls'
  | _, _ => False
  end.

Lemma all_answered_length (w : world) :
  forall rqs hist urls,
    all_answered w hist rqs urls -> length urls = length rqs.
Proof.
  induction rqs as [|rq rqs IH]; intros hist [|u urls] H; cbn in *;
    try contradiction; [reflexivity|].
  f_equal. now apply (IH (hist ++ [rq])).
Qed.

(** A tracker that accepts whatever it is sent accepts any sequence. *)
Lemma cooperative_answers (w : world) :
  (forall hist rq, exists u, answered w hist rq u) ->
  forall rqs hist, exists urls, all_answered w hist rqs urls.
Proof.
  intros Hw. induction rqs as [|rq rqs IH]; intros hist.
  - now exists [].
  - destruct (Hw hist rq) as (u & Hu).
    destruct (IH (hist ++ [rq])) as (urls & Hurls).
    exists (u :: urls). now split.
Qed.

(** The world after the requests [rqs] were posted. *)
Definition post_all (rqs : list post_request) (w : world) : world :=
  fold_left (fun w rq => log (EPost rq) w) rqs w.

Lemma post_all_world (rqs : list post_request) :
  forall w,
    w_tracker (post_all rqs w) = w_tracker w
    /\ posts (w_trace (post_all rqs w)) = posts (w_trace w) ++ rqs
    /\ w_fs (post_all rqs w) = w_fs w.
Proof.
  induction rqs as [|rq rqs IH]; intros w; cbn [post_all fold_left].
  - now rewrite app_nil_r.
  - destruct (IH (log (EPost rq) w)) as (H1 & H2 & H3).
    unfold post_all in *. rewrite H1, H2, H3. cbn [log w_tracker w_trace w_fs].
    rewrite posts_app. cbn. now rewrite <- app_assoc.
Qed.

Lemma all_answered_tracker (w w' : world) :
  w_tracker w' = w_tracker w ->
  forall rqs hist urls,
    all_answered w hist rqs urls -> all_answered w' hist rqs urls.
Proof.
  intros Ht. induction rqs as [|rq rqs IH]; intros hist [|u urls] H;
    cbn in *; try contradiction; [exact I|].
  destruct H as [(r & v & H1 & H2 & H3 & H4) H]. split; [|now apply IH].
  exists r, v. now rewrite Ht.
Qed.

(** The loop over records that are complete and that the tracker
    accepts. *)
Lemma create_loop_done (token owner repo : string)
    (rest : list (Py.dict string)) (done : list (Py.dict string)) :
  forall rqs urls created w,
    Forall2 (fun it rq => issue_request token owner repo it = Py.Ok rq)
            done rqs ->
    all_answered w (posts (w_trace w)) rqs urls ->
    create_loop token owner repo (done ++ rest) created w
    = create_loop token owner repo rest (created ++ urls) (post_all rqs w).
Proof.
  induction done as [|it done IH]; intros rqs urls created w Hreq Hans.
  - inversion Hreq; subst. destruct urls; [|contradiction].
    cbn. now rewrite app_nil_r.
  - inversion Hreq as [|? rq ? rqs' Hrq Hreq']; subst.
    destruct urls as [|u urls]; [contradiction|].
    destruct Hans as [(r & v & H1 & H2 & H3 & H4) Hans].
    cbn [app create_loop]. unfold issue_request in Hrq.
    destruct (issue_body it) as [body|e]; [|discriminate].
    destruct (issue_field it "title") as [title|e]; [|discriminate].
    cbn [Py.bind] in Hrq. injection Hrq as <-.
    unfold create_issue. rewrite H1.
    apply Nat.leb_gt in H2. rewrite H2, H3, H4.
    rewrite (IH rqs' urls (created ++ [u]) _ Hreq').
    + cbn [post_all fold_left]. now rewrite <- app_assoc.
    + apply (all_answered_tracker w); [reflexivity|].
      cbn [log w_trace]. rewrite posts_app. exact Hans.
Qed.

(** The whole run over records that are complete and accepted. *)
Lemma create_loop_returns (token owner repo : string)
    (its : list (Py.dict string)) (rqs : list post_request)
    (urls : list Json.json) (w : world) :
  Forall2 (fun it rq => issue_request token owner repo it = Py.Ok rq)
          its rqs ->
  all_answered w (posts (w_trace w)) rqs urls ->
  snd (create_loop token owner repo its [] w) = Py.Ok urls
  /\ posts (w_trace (fst (create_loop token owner repo its [] w)))
     = posts (w_trace w) ++ rqs
  /\ length rqs = length its
  /\ length urls = length rqs.
Proof.
  intros Hreq Hans.
  rewrite <- (app_nil_r its) at 1 2.
  rewrite (create_loop_done _ _ _ [] _ rqs urls [] w Hreq Hans).
  cbn [create_loop fst snd app].
  split; [reflexivity|]. split; [apply post_all_world|].
  split; [symmetry; exact (List.Forall2_length Hreq)|].
  exact (all_answered_length _ _ _ _ Hans).
Qed.

(** C10: [create_issues] posts the requests of a prefix of the first five
    issue records, in their order, and nothing else: at most five requests,
    none for a sixth or later record.  When it returns, every one of the
    first five records was posted and the returned list holds the
    [html_url] of each answer in the order processed.  And it does return:
    when each of the first five records has its four fields and the tracker
    accepts each request in turn (a status below 400 and a JSON body with
    [html_url]), it posts exactly the requests of the first five records,
    [min 5 n] of them for [n] records, and returns their identifiers in
    that order.  An invalid repository URL raises before anything is
    posted. *)
Theorem C10_first_five (req : CreateIssuesRequest) (w : world) :
  let out := create_issues req w in
  match GithubIssues.parse_repo (ci_repo_url req) with
  | Py.Raise e => out = (w, Py.Raise e)
  | Py.Ok (owner, repo) =>
      (exists sent,
        posts (w_trace (fst out)) = posts (w_trace w) ++ sent
        /\ length sent <= 5
        /\ Forall2
             (fun rq it =>
                issue_request (github_token req) owner repo it = Py.Ok rq)
             sent (firstn (length sent) (issues req))
        /\ forall created,
             snd out = Py.Ok created ->
             length sent = Nat.min 5 (length (issues req))
             /\ length created = length sent
             /\ forall i rq u,
                  nth_error sent i = Some rq -> nth_error created i = Some u ->
                  answered w (posts (w_trace w) ++ firstn i sent) rq u)
      /\ (forall rqs urls,
            Forall2
              (fun it rq =>
                 issue_request (github_token req) owner repo it = Py.Ok rq)
              (firstn 5 (issues req)) rqs ->
            all_answered w (posts (w_trace w)) rqs urls ->
            snd out = Py.Ok urls
            /\ posts (w_trace (fst out)) = posts (w_trace w) ++ rqs
            /\ length rqs = Nat.min 5 (length (issues req))
            /\ length urls = length rqs)
      /\ (List.Forall (fun it => complete it = true) (firstn 5 (issues req)) ->
          (forall hist rq, exists u, answered w hist rq u) ->
          exists rqs urls,
            Forall2
              (fun it rq =>
                 issue_request (github_token req) owner repo it = Py.Ok rq)
              (firstn 5 (issues req)) rqs
            /\ all_answered w (posts (w_trace w)) rqs urls
            /\ snd out = Py.Ok urls
            /\ posts (w_trace (fst out)) = posts (w_trace w) ++ rqs
            /\ length rqs = Nat.min 5 (length (issues req))
            /\ length urls = length rqs)
  end.
Proof.
  cbn zeta. unfold create_issues.
  destruct (GithubIssues.parse_repo (ci_repo_url req)) as [[owner repo]|e];
    [|reflexivity].
  assert (Hlive : forall rqs urls,
            Forall2
              (fun it rq =>
                 issue_request (github_token req) owner repo it = Py.Ok rq)
              (firstn 5 (issues req)) rqs ->
            all_answered w (posts (w_trace w)) rqs urls ->
            snd (create_loop (github_token req) owner repo
                   (firstn 5 (issues req)) [] w) = Py.Ok urls
            /\ posts (w_trace (fst (create_loop (github_token req) owner repo
                                      (firstn 5 (issues req)) [] w)))
               = posts (w_trace w) ++ rqs
            /\ length rqs = Nat.min 5 (length (issues req))
            /\ length urls = length rqs).
  { intros rqs urls Hreq Hans.
    destruct (create_loop_returns _ _ _ _ _ _ _ Hreq Hans)
      as (H1 & H2 & H3 & H4).
    rewrite length_firstn in H3. now repeat split. }
  split; [|split; [exact Hlive|]].
  - destruct (create_loop_spec (github_token req) owner repo
                (firstn 5 (issues req)) [] w)
      as (sent & Hp & _ & Hlen & Hreq & Hres).
    rewrite length_firstn in Hlen.
    exists sent. split; [exact Hp|]. split; [lia|].
    split.
    + rewrite firstn_firstn in Hreq.
      now replace (Nat.min (length sent) 5) with (length sent) in Hreq by lia.
    + intros created Hc.
      destruct (Hres created Hc) as (Hl & new & -> & Hn & Hi).
      rewrite length_firstn in Hl. cbn [app].
      split; [exact Hl|]. split; [exact Hn|exact Hi].
  - intros Hc Hw.
    destruct (complete_requests (github_token req) owner repo _ Hc)
      as (rqs & Hreq).
    destruct (cooperative_answers w Hw rqs (posts (w_trace w)))
      as (urls & Hans).
    exists rqs, urls. split; [exact Hreq|]. split; [exact Hans|].
    exact (Hlive rqs urls Hreq Hans).
Qed.

(** Seven issue records and a tracker that numbers the issues it creates. *)
Definition issue_record (n : string) : Py.dict string :=
  [("title", "Issue " +:+ n); ("severity", "low");
   ("evidence", "file " +:+ n); ("fix", "edit " +:+ n)].

Definition seven_issues : CreateIssuesRequest :=
  {| ci_repo_url := "https://github.com/owner/repo";
     github_token := " tok ";
     issues := map issue_record ["1"; "2"; "3"; "4"; "5"; "6"; "7"] |}.

Definition numbering_tracker (hist : list post_request) (rq : post_request)
  : Py.res http_response :=
  Py.Ok {| status_code := 201;
           text := "{" +:+ quoted "html_url" +:+ ": "
                   +:+ quoted ("https://github.com/owner/repo/issues/"
                               +:+ Py.str_of_nat (S (length hist))) +:+ "}" |}.

Definition numbering_world : world :=
  {| w_api_key := None; w_fs := Fs.Dir [("tmp", Fs.Dir [])];
     w_tempdir := ["tmp"]; w_names := [];
     w_git := fun _ => CloneFail (Py.Exn "GitCommandError" "not found");
     w_model := fun _ => Py.Raise (Py.Exn "APIConnectionError" "Connection error.");
     w_tracker := numbering_tracker;
     w_trace := [] |}.

(** The request for [issue_record n], and the identifier the numbering
    tracker gives the [n]-th issue. *)
Definition record_request (n : string) : post_request :=
  issue_post "tok" "owner" "repo" ("Issue " +:+ n)
    ("**Severity:** low" +:+ Py.lf +:+ Py.lf
     +:+ "**Evidence:**" +:+ Py.lf +:+ "file " +:+ n +:+ Py.lf +:+ Py.lf
     +:+ "**Suggested fix:**" +:+ Py.lf +:+ "edit " +:+ n +:+ Py.lf +:+ Py.lf
     +:+ "_Created by RepoDoctor_").

Definition record_url (n : string) : Json.json :=
  Json.JStr ("https://github.com/owner/repo/issues/" +:+ n).

(** A tracker that answers every request with the same created issue. *)
Definition created_answer : http_response :=
  {| status_code := 201;
     text := "{" +:+ quoted "html_url" +:+ ": "
             +:+ quoted "https://github.com/owner/repo/issues/1" +:+ "}" |}.

Local Ltac tracker_answers :=
  cbn [all_answered map];
  repeat match goal with
         | |- _ /\ _ => split
         | |- True => exact I
         | |- answered _ _ _ _ =>
             eexists _, _;
             split; [reflexivity|];
             split; [apply Nat.ltb_lt; vm_compute; reflexivity|];
             split; [vm_compute; reflexivity|vm_compute; reflexivity]
         end.

(** Given seven records, the first five are posted, in order, the sixth and
    the seventh are not, and the five identifiers come back in the order
    processed; with a tracker that accepts everything, five requests are
    posted and five identifiers returned. *)
Lemma C10_first_five_witness :
  (snd (create_issues seven_issues numbering_world)
   = Py.Ok (map record_url ["1"; "2"; "3"; "4"; "5"])
   /\ posts (w_trace (fst (create_issues seven_issues numbering_world)))
      = map record_request ["1"; "2"; "3"; "4"; "5"])
  /\ (exists rqs urls,
        snd (create_issues seven_issues (tracker_world created_answer))
        = Py.Ok urls
        /\ posts (w_trace (fst (create_issues seven_issues
                                  (tracker_world created_answer)))) = rqs
        /\ length rqs = 5 /\ length urls = 5).
Proof.
  split.
  - destruct (C10_first_five seven_issues numbering_world)
      as (_ & Hlive & _).
    destruct (Hlive (map record_request ["1"; "2"; "3"; "4"; "5"])
                    (map record_url ["1"; "2"; "3"; "4"; "5"]))
      as (H1 & H2 & _).
    + repeat constructor.
    + tracker_answers.
    + split; [exact H1|exact H2].
  - destruct (C10_first_five seven_issues (tracker_world created_answer))
      as (_ & _ & Hcoop).
    destruct Hcoop as (rqs & urls & _ & _ & H1 & H2 & H3 & H4).
    + repeat constructor.
    + intros hist rq. eexists. eexists _, _.
      split; [reflexivity|].
      split; [apply Nat.ltb_lt; vm_compute; reflexivity|].
      split; vm_compute; reflexivity.
    + exists rqs, urls. split; [exact H1|]. split; [exact H2|].
      split; [exact H3|]. rewrite H4. exact H3.
Defined.

End Publisher.

(** ** The review requester *)
Section Review.

Import World AiReview.

(** [bool(os.getenv("OPENAI_API_KEY"))] *)
Definition key_present (w : world) : bool :=
  match w_api_key w with
  | Some k => Py.nonempty k
  | None => false
  end.

(** A value of type string under key [k]. *)
Definition string_at (d : Py.dict Json.json) (k : string) (s : string) : Prop :=
  Py.dict_get k d = Some (Json.JStr s).

(** What [REVIEW_SCHEMA] guarantees of an issue record: the four fields are
    strings and the severity is one of the four levels. *)
Definition issue_shape (it : Json.json) : Prop :=
  exists d title severity evidence fix_,
    it = Json.JObj d
    /\ string_at d "title" title /\ string_at d "severity" severity
    /\ string_at d "evidence" evidence /\ string_at d "fix" fix_
    /\ In severity ["critical"; "high"; "medium"; "low"].

Definition review_shape (v : Json.json) : Prop :=
  exists d one_liner top_5 plan,
    v = Json.JObj d
    /\ string_at d "one_liner" one_liner
    /\ Py.dict_get "top_5" d = Some (Json.JArr top_5)
    /\ length top_5 = 5 /\ Forall issue_shape top_5
    /\ Py.dict_get "next_7_days_plan" d = Some (Json.JArr plan).

Lemma required_string (d : Py.dict Json.json) (k : string) :
  Py.dict_mem k d = true ->
  match Py.dict_get k d with
  | Some x => validates (SString None) x
  | None => true
  end = true ->
  exists s, string_at d k s.
Proof.
  unfold Py.dict_mem, string_at.
  destruct (Py.dict_get k d) as [[]|]; cbn; try discriminate.
  intros _ _. eauto.
Qed.

Lemma existsb_str_In (s : string) (l : list string) :
  existsb (Py.str_eqb s) l = true -> In s l.
Proof.
  induction l as [|x l IH]; cbn; [discriminate|].
  destruct (Py.str_eqb s x) eqn:E; cbn.
  - intros _. left. symmetry. now apply String.eqb_eq.
  - intros H. right. now apply IH.
Qed.

Ltac split_andb :=
  repeat match goal with
  | H : (_ && _)%bool = true |- _ => apply andb_prop in H; destruct H
  end.

Lemma issue_shape_of_schema (it : Json.json) :
  validates
    (SObject false
       [("title", SString None);
        ("severity", SString (Some ["critical"; "high"; "medium"; "low"]));
        ("evidence", SString None);
        ("fix", SString None)]
       ["title"; "severity"; "evidence"; "fix"]) it = true ->
  issue_shape it.
Proof.
  destruct it as [| | | | |l|d]; cbn -[Py.dict_mem]; try discriminate.
  intros H. split_andb.
  destruct (required_string d "title") as [t Ht]; auto.
  destruct (required_string d "evidence") as [e He]; auto.
  destruct (required_string d "fix") as [f Hf]; auto.
  assert (Hs : exists s, string_at d "severity" s
                         /\ In s ["critical"; "high"; "medium"; "low"]).
  { unfold Py.dict_mem, string_at in *.
    destruct (Py.dict_get "severity" d) as [[]|]; try discriminate.
    eexists; split; [reflexivity|]. now apply existsb_str_In. }
  destruct Hs as (s & Hs & Hin).
  exists d, t, s, e, f. auto 10.
Qed.

Lemma review_shape_of_schema (v : Json.json) :
  validates REVIEW_SCHEMA v = true -> review_shape v.
Proof.
  destruct v as [| | | | |l|d]; try (cbn; discriminate).
  unfold REVIEW_SCHEMA, review_shape, string_at.
  cbn -[Py.dict_mem Nat.leb]. unfold Py.dict_mem. intros H. split_andb.
  destruct (Py.dict_get "one_liner" d) as [[| | | |o| |]|] eqn:E1;
    try discriminate.
  destruct (Py.dict_get "top_5" d) as [[| | | | |items|]|] eqn:E5;
    try discriminate.
  destruct (Py.dict_get "next_7_days_plan" d) as [[| | | | |plan|]|] eqn:Ep;
    try discriminate.
  split_andb.
  exists d, o, items, plan. repeat split; auto.
  - repeat match goal with
    | H : (_ <=? _) = true |- _ => apply Nat.leb_le in H
    end. lia.
  - apply List.Forall_forall. intros it Hin.
    apply issue_shape_of_schema.
    match goal with
    | H : forallb _ items = true |- _ =>
        rewrite forallb_forall in H; exact (H it Hin)
    end.
Qed.

(** C3 (as the code has it): [call_ai_review] validates nothing itself.
    Without an API key it raises before calling the model; with one it
    sends a single request that asks for [REVIEW_SCHEMA] in strict mode and
    returns whatever JSON value the output text decodes to, failing only
    when the client raises or the text is not JSON.  An output that
    conforms to [REVIEW_SCHEMA] has exactly five issue records, each with
    string title, severity, evidence and fix and a severity among the four
    levels; the strings may be empty. *)
Theorem C3_review_is_decoded_output (repo_url : string)
    (file_tree : list string) (key_files : Py.dict string) (w : world) :
  let rq := review_request repo_url file_tree key_files in
  let out := call_ai_review repo_url file_tree key_files w in
  mr_schema rq = REVIEW_SCHEMA /\ mr_strict rq = true
  /\ (key_present w = false ->
      out = (w, Py.Raise (Py.RuntimeError
                "OPENAI_API_KEY missing. Put it in repodoctor/.env")))
  /\ (key_present w = true ->
      fst out = log (EModel rq) w
      /\ snd out = match w_model w rq with
                   | Py.Ok output_text => Json.loads output_text
                   | Py.Raise e => Py.Raise e
                   end)
  /\ (forall v, snd out = Py.Ok v -> validates REVIEW_SCHEMA v = true ->
      review_shape v).
Proof.
  cbn zeta. split; [reflexivity|]. split; [reflexivity|].
  unfold call_ai_review, key_present.
  destruct (w_api_key w) as [[|c k]|]; cbn [Py.nonempty].
  - repeat split; try discriminate; auto using review_shape_of_schema.
  - split; [discriminate|]. split; [|auto using review_shape_of_schema].
    intros _. destruct (w_model w _); split; reflexivity.
  - repeat split; try discriminate; auto using review_shape_of_schema.
Qed.

(** The text of a review with the given issue titles. *)
Definition issue_text (title : string) : string :=
  dumps_dict [("title", dumps_str title); ("severity", dumps_str "high");
              ("evidence", dumps_str "README.md is missing");
              ("fix", dumps_str "Add a README.md")].

Definition review_text (titles : list string) : string :=
  dumps_dict
    [("one_liner", dumps_str "Needs documentation.");
     ("top_5", "[" +:+ Py.join ", " (map issue_text titles) +:+ "]");
     ("next_7_days_plan", "[" +:+ dumps_str "Write the README" +:+ "]")].

(** A world whose model answers with [output_text]. *)
Definition model_world (output_text : string) : world :=
  {| w_api_key := Some "sk-test"; w_fs := Fs.Dir [("tmp", Fs.Dir [])];
     w_tempdir := ["tmp"]; w_names := ["k3x9q_ab"];
     w_git := fun _ => CloneOk [("main.py", Fs.File (Py.Ok "print(1)"))];
     w_model := fun _ => Py.Ok output_text;
     w_tracker := fun _ _ => Py.Raise (Py.Exn "ConnectionError" "offline");
     w_trace := [] |}.

Definition five_titles : list string := ["A"; "B"; "C"; "D"; "E"].

Lemma C3_review_is_decoded_output_witness :
  exists v,
    snd (call_ai_review "https://github.com/o/r" ["./main.py"] []
           (model_world (review_text five_titles))) = Py.Ok v
    /\ review_shape v.
Proof.
  destruct (C3_review_is_decoded_output "https://github.com/o/r"
              ["./main.py"] [] (model_world (review_text five_titles)))
    as (_ & _ & _ & Hk & Hshape).
  destruct (Hk eq_refl) as [_ Hout].
  eexists. split; [rewrite Hout; vm_compute; reflexivity|].
  apply Hshape; [rewrite Hout|]; vm_compute; reflexivity.
Defined.

(** What the claim requires of a returned review: exactly five issue
    records, each with non-empty title, severity, evidence and fix, the
    severity among the four levels. *)
Definition nonempty_at (d : Py.dict Json.json) (k : string) : bool :=
  match Py.dict_get k d with
  | Some (Json.JStr s) => Py.nonempty s
  | _ => false
  end.

Definition issue_complete (it : Json.json) : bool :=
  match it with
  | Json.JObj d =>
      nonempty_at d "title" && nonempty_at d "severity"
      && nonempty_at d "evidence" && nonempty_at d "fix"
      && match Py.dict_get "severity" d with
         | Some (Json.JStr s) =>
             existsb (Py.str_eqb s) ["critical"; "high"; "medium"; "low"]
         | _ => false
         end
  | _ => false
  end.

Definition review_complete (v : Json.json) : bool :=
  match v with
  | Json.JObj d =>
      match Py.dict_get "top_5" d with
      | Some (Json.JArr l) => (length l =? 5) && forallb issue_complete l
      | _ => false
      end
  | _ => false
  end.

(** C3, counterexample: the model's output conforms to [REVIEW_SCHEMA] but
    its first issue has an empty title; [call_ai_review] returns it.  An
    output with no issue at all, which the schema excludes, is returned
    as well. *)
Lemma C3_counterexample :
  (exists v,
     snd (call_ai_review "https://github.com/o/r" ["./main.py"] []
            (model_world (review_text [""; "B"; "C"; "D"; "E"]))) = Py.Ok v
     /\ validates REVIEW_SCHEMA v = true
     /\ review_complete v = false)
  /\ (exists v,
       snd (call_ai_review "https://github.com/o/r" ["./main.py"] []
              (model_world (review_text []))) = Py.Ok v
       /\ validates REVIEW_SCHEMA v = false
       /\ review_complete v = false).
Proof.
  split; eexists; (split; [vm_compute; reflexivity|]);
    split; vm_compute; reflexivity.
Qed.

End Review.

(** ** Repository URLs *)
Section Urls.

Import GithubIssues.

(** The non-empty segments of a path. *)
Definition segments (p : string) : list string :=
  filter (fun s => Py.nonempty s = true) (Py.split "/" p).

Definition not_github : Py.exn :=
  Py.ValueError "Repo URL must be a github.com URL".
Definition not_owner_repo : Py.exn :=
  Py.ValueError "Repo URL must look like https://github.com/owner/repo".

(** What [parse_repo] does with a URL that [urlparse] accepts. *)
Lemma parse_repo_parsed (url : string) (u : Url.ParseResult) :
  Url.urlparse (Py.strip url) = Py.Ok u ->
  parse_repo url =
    if Py.str_eqb (Py.lower (Url.netloc u)) "github.com" then
      match segments (Url.path u) with
      | owner :: name :: _ => Py.Ok (owner, sub_git_suffix name)
      | _ => Py.Raise not_owner_repo
      end
    else Py.Raise not_github.
Proof.
  intros H. unfold parse_repo. rewrite H. cbn [Py.bind].
  destruct (Py.str_eqb _ "github.com"); [|reflexivity].
  cbn [negb]. fold (segments (Url.path u)).
  now destruct (segments (Url.path u)) as [|owner [|name rest]].
Qed.

Lemma str_length_app (a b : string) :
  String.length (a +:+ b) = String.length a + String.length b.
Proof.
  induction a as [|c a IH]; [reflexivity|].
  change (S (String.length (a +:+ b)) = S (String.length a + String.length b)).
  now rewrite IH.
Qed.

(** The suffix is removed once, whatever the name. *)
Lemma sub_git_suffix_app (name : string) :
  sub_git_suffix (name +:+ ".git") = name.
Proof.
  induction name as [|c r IH]; [reflexivity|].
  assert (L : String.length (String c (r +:+ ".git"))
              = S (String.length r + 4))
    by (cbn [String.length]; now rewrite str_length_app).
  assert (H1 : Py.str_eqb (String c (r +:+ ".git")) ".git" = false).
  { apply String.eqb_neq. intros E. rewrite E in L.
    change (String.length ".git") with 4 in L. lia. }
  assert (H2 : Py.str_eqb (String c (r +:+ ".git")) (".git" +:+ Py.lf) = false).
  { apply String.eqb_neq. intros E. rewrite E in L.
    change (String.length (".git" +:+ Py.lf)) with 5 in L.
    destruct r; [discriminate E|cbn [String.length] in L; lia]. }
  change (String c r +:+ ".git") with (String c (r +:+ ".git")).
  cbn [sub_git_suffix]. now rewrite H1, H2, IH.
Qed.

End Urls.

(** ** The file system *)
Section FileSystem.













End FileSystem.

(** ** The acquisition coordinator *)
Section Coordinator.

Import World Main.

Definition trusted_prefix : string := "https://github.com/".

Lemma str_app_cons (a : ascii) (p x : string) :
  String a p +:+ x = String a (p +:+ x).
Proof. reflexivity. Qed.

Lemma str_app_nil (x : string) : "" +:+ x = x.
Proof. reflexivity. Qed.

Lemma startswith_app (p s : string) :
  Py.startswith p s = true -> s = p +:+ Py.drop (String.length p) s.
Proof.
  revert s; induction p as [|a p IH]; intros s H; [reflexivity|].
  destruct s as [|b s]; [discriminate|]. cbn in H.
  apply andb_prop in H. destruct H as [Hc Hs].
  apply Ascii.eqb_eq in Hc. subst b. cbn [String.length Py.drop].
  rewrite str_app_cons. f_equal. now apply IH.
Qed.

(** A URL with the trusted prefix parses, and its host is github.com. *)
Lemma urlparse_github (s : string) :
  Py.startswith trusted_prefix s = true ->
  exists u, Url.urlparse s = Py.Ok u /\ Url.netloc u = "github.com".
Proof.
  intros H. apply startswith_app in H. rewrite H.
  set (rest := Py.drop _ s). clearbody rest. clear H.
  unfold trusted_prefix. rewrite !str_app_cons, str_app_nil.
  unfold Url.urlparse.
  match goal with
  | |- context [xorb ?a ?b] => change (xorb a b) with false
  end.
  cbv iota. eexists. split; reflexivity.
Qed.

Lemma safe_repo_name_ok (s : string) :
  Py.startswith trusted_prefix s = true ->
  exists name, safe_repo_name s = Py.Ok name.
Proof.
  intros H. destruct (urlparse_github s H) as (u & Hu & _).
  unfold safe_repo_name. rewrite Hu. cbn [Py.bind]. eauto.
Qed.

(** C4 (as the code has it): a URL that, once stripped, does not start
    with https://github.com/ gets the structured error and nothing else
    happens: the world, trace included, is unchanged.  This covers every
    URL that [urlparse] rejects or whose host is not github.com.  A URL
    with the prefix is not examined further. *)
Theorem C4_prefix_guard (req : AnalyzeRequest) (w : world) :
  (Py.startswith trusted_prefix (Py.strip (repo_url req)) = false ->
   analyze_repo req w = (w, Py.Ok (ErrorDict "Invalid GitHub repo URL")))
  /\ (forall u,
        Url.urlparse (Py.strip (repo_url req)) = Py.Ok u ->
        Py.lower (Url.netloc u) <> "github.com" ->
        analyze_repo req w = (w, Py.Ok (ErrorDict "Invalid GitHub repo URL")))
  /\ (forall e,
        Url.urlparse (Py.strip (repo_url req)) = Py.Raise e ->
        analyze_repo req w = (w, Py.Ok (ErrorDict "Invalid GitHub repo URL"))).
Proof.
  assert (Hguard :
    Py.startswith trusted_prefix (Py.strip (repo_url req)) = false ->
    analyze_repo req w = (w, Py.Ok (ErrorDict "Invalid GitHub repo URL"))).
  { intros H. unfold analyze_repo. fold trusted_prefix. now rewrite H. }
  split; [exact Hguard|]. split.
  - intros u Hu Hn. apply Hguard.
    destruct (Py.startswith trusted_prefix _) eqn:E; [|reflexivity].
    destruct (urlparse_github _ E) as (u' & Hu' & Hnl).
    rewrite Hu in Hu'. injection Hu' as <-. now rewrite Hnl in Hn.
  - intros e He. apply Hguard.
    destruct (Py.startswith trusted_prefix _) eqn:E; [|reflexivity].
    destruct (urlparse_github _ E) as (u' & Hu' & _).
    rewrite He in Hu'. discriminate.
Qed.

(** A world where git and the model provider cannot be reached. *)
Definition offline_world : world :=
  {| w_api_key := Some "sk-test"; w_fs := Fs.Dir [("tmp", Fs.Dir [])];
     w_tempdir := ["tmp"]; w_names := ["k3x9q_ab"];
     w_git := fun _ =>
       CloneFail (GitCommandError "fatal: repository not found");
     w_model := fun _ =>
       Py.Raise (Py.Exn "APIConnectionError" "Connection error.");
     w_tracker := fun _ _ => Py.Raise (Py.Exn "ConnectionError" "offline");
     w_trace := [] |}.

Lemma C4_prefix_guard_witness :
  analyze_repo {| repo_url := " http://github.com/owner/repo " |}
    offline_world
  = (offline_world, Py.Ok (ErrorDict "Invalid GitHub repo URL"))
  /\ analyze_repo {| repo_url := "https://gitlab.com/owner/repo" |}
       offline_world
     = (offline_world, Py.Ok (ErrorDict "Invalid GitHub repo URL")).
Proof.
  split.
  - apply (C4_prefix_guard {| repo_url := " http://github.com/owner/repo " |}
             offline_world). reflexivity.
  - destruct (C4_prefix_guard {| repo_url := "https://gitlab.com/owner/repo" |}
                offline_world) as (_ & H & _).
    apply (H {| Url.scheme := "https"; Url.netloc := "gitlab.com";
                Url.path := "/owner/repo"; Url.params := "";
                Url.query := ""; Url.fragment := "" |});
      [reflexivity|discriminate].
Defined.

(** C4, counterexample: https://github.com/owner has a one-segment path,
    which [parse_repo] rejects, but it passes the guard of [analyze_repo]:
    a scratch directory is made, git is called, and git's failure is
    raised. *)
Lemma C4_counterexample :
  let out := analyze_repo {| repo_url := "https://github.com/owner" |}
               offline_world in
  GithubIssues.parse_repo "https://github.com/owner" = Py.Raise not_owner_repo
  /\ snd out = Py.Raise (GitCommandError "fatal: repository not found")
  /\ w_trace (fst out)
     = [EMkdir ["tmp"; "repodoctor_k3x9q_ab"];
        EClone "https://github.com/owner"
          ["tmp"; "repodoctor_k3x9q_ab"; "owner"];
        ERmtree ["tmp"; "repodoctor_k3x9q_ab"]].
Proof. cbn zeta. repeat split; vm_compute; reflexivity. Qed.







Definition some_request : AnalyzeRequest :=
  {| repo_url := " https://github.com/owner/repo.git " |}.

Definition scratch : Fs.path := ["tmp"; "repodoctor_k3x9q_ab"].


(** C1 (as the code has it): when the URL has the trusted prefix, the
    scratch directory is made and the clone succeeds, an exception [e] of
    the review step is caught: [analyze_repo] returns an analysis whose
    findings, quick wins and risks are the scanner's output on the
    extracted evidence, whose review is null and whose [ai_error] is
    [str(e)]; the scratch directory is then removed.  With no API key
    [str(e)] is the missing-key message; in general it is non-empty exactly
    when the exception has a message. *)
Theorem C1_review_failure_contained (req : AnalyzeRequest)
    (w w1 w2 w3 : world) (tmp_root : Fs.path) (name : string) (e : Py.exn) :
  let url := Py.strip (repo_url req) in
  let dest := Fs.path_join tmp_root name in
  Py.startswith trusted_prefix url = true ->
  mkdtemp "repodoctor_" w = (w1, Py.Ok tmp_root) ->
  safe_repo_name url = Py.Ok name ->
  clone_from url dest w1 = (w2, Py.Ok tt) ->
  let evidence :=
    walk_repo_summary (Fs.path_str dest)
      (Fs.lookup (Fs.norm dest) (w_fs w2)) 200 in
  let scan := basic_heuristics (fst evidence) (snd evidence) in
  AiReview.call_ai_review url (fst evidence) (snd evidence) w2
    = (w3, Py.Raise e) ->
  analyze_repo req w =
    (rmtree tmp_root w3,
     Py.Ok (Analysis
       {| a_repo_url := url;
          file_count_sampled := length (fst evidence);
          key_files_found := Py.dict_keys (snd evidence);
          a_findings := fst (fst scan);
          quick_wins := snd (fst scan);
          a_risks := snd scan;
          next_steps :=
            ["Add CI + basic tests"; "Document env vars and run steps";
             "Add Docker"; "Run a dependency security audit"];
          openai_key_present := key_present w3;
          ai_error := Some (Py.exn_str e);
          ai_review := None |}))
  /\ (key_present w2 = false ->
      Py.exn_str e = "OPENAI_API_KEY missing. Put it in repodoctor/.env").
Proof.
  cbn zeta. intros Hp Hm Hn Hc Hr. split.
  - unfold analyze_repo. fold trusted_prefix. rewrite Hp. cbn [negb].
    rewrite Hm, Hn, Hc.
    destruct (walk_repo_summary _ _ 200) as [files key_contents].
    cbn [fst snd] in *. rewrite Hr.
    destruct (basic_heuristics files key_contents) as [[findings qw] risks].
    reflexivity.
  - intros Hk. unfold AiReview.call_ai_review in Hr.
    unfold key_present in Hk.
    destruct (w_api_key w2) as [[|c k]|]; cbn [Py.nonempty] in Hk;
      try discriminate; now injection Hr as _ <-.
Qed.

(** A world in which the clone succeeds and the review step fails: with no
    API key when [key] is [None], else with the client raising [e]. *)
Definition failing_world (key : option string) (e : Py.exn) : world :=
  {| w_api_key := key; w_fs := Fs.Dir [("tmp", Fs.Dir [])];
     w_tempdir := ["tmp"]; w_names := ["k3x9q_ab"];
     w_git := fun _ => CloneOk [("main.py", Fs.File (Py.Ok "print(1)"))];
     w_model := fun _ => Py.Raise e;
     w_tracker := fun _ _ => Py.Raise (Py.Exn "ConnectionError" "offline");
     w_trace := [] |}.

Definition no_key_world : world :=
  failing_world None (Py.Exn "APIConnectionError" "Connection error.").

Lemma C1_review_failure_contained_witness :
  exists a,
    snd (analyze_repo some_request no_key_world) = Py.Ok (Analysis a)
    /\ ai_review a = None
    /\ ai_error a = Some "OPENAI_API_KEY missing. Put it in repodoctor/.env"
    /\ (a_findings a, quick_wins a, a_risks a)
       = basic_heuristics ["./main.py"] [].
Proof.
  pose (w1 := fst (mkdtemp "repodoctor_" no_key_world)).
  pose (url := Py.strip (repo_url some_request)).
  pose (w2 := fst (clone_from url (Fs.path_join scratch "owner__repo.git") w1)).
  destruct (C1_review_failure_contained some_request no_key_world w1 w2 w2
              scratch "owner__repo.git"
              (Py.RuntimeError
                 "OPENAI_API_KEY missing. Put it in repodoctor/.env")
              eq_refl eq_refl eq_refl eq_refl eq_refl) as [H _].
  rewrite H. eexists. split; [reflexivity|].
  split; [reflexivity|]. split; [reflexivity|].
  vm_compute. reflexivity.
Defined.

(** C1, counterexample: the client raises an exception that has no
    message, as [Exception()] has; the request passes URL validation and
    acquisition, [analyze_repo] returns an analysis with a null review, and
    its [ai_error] is the empty string. *)
Lemma C1_counterexample :
  let w := failing_world (Some "sk-test") (Py.Exn "Exception" "") in
  exists a,
    snd (analyze_repo some_request w) = Py.Ok (Analysis a)
    /\ ai_review a = None
    /\ ai_error a = Some ""
    /\ Py.nonempty "" = false.
Proof.
  cbn zeta. eexists. split; [vm_compute; reflexivity|].
  split; [reflexivity|]. split; reflexivity.
Qed.

End Coordinator.

(** ** Repository names *)
Section Names.

Import GithubIssues Main.

Lemma all_chars_app (p : ascii -> bool) (a b : string) :
  Url.all_chars p (a +:+ b) = Url.all_chars p a && Url.all_chars p b.
Proof.
  induction a as [|c a IH]; [reflexivity|].
  rewrite str_app_cons. cbn [Url.all_chars]. now rewrite IH, andb_assoc.
Qed.

Lemma all_chars_impl (p q : ascii -> bool) (s : string) :
  (forall c, p c = true -> q c = true) ->
  Url.all_chars p s = true -> Url.all_chars q s = true.
Proof.
  intros Hpq. induction s as [|c s IH]; [reflexivity|]. cbn.
  intros H. apply andb_prop in H. destruct H as [Hc Hs].
  now rewrite (Hpq c Hc), (IH Hs).
Qed.

Lemma break_at_none (p : ascii -> bool) (s : string) :
  Url.all_chars (fun c => negb (p c)) s = true -> Py.break_at p s = (s, "").
Proof.
  induction s as [|c s IH]; [reflexivity|]. cbn.
  intros H. apply andb_prop in H. destruct H as [Hc Hs].
  apply negb_true_iff in Hc. now rewrite Hc, (IH Hs).
Qed.

Lemma remove_chars_none (p : ascii -> bool) (s : string) :
  Url.all_chars (fun c => negb (p c)) s = true -> Py.remove_chars p s = s.
Proof.
  induction s as [|c s IH]; [reflexivity|]. cbn.
  intros H. apply andb_prop in H. destruct H as [Hc Hs].
  apply negb_true_iff in Hc. now rewrite Hc, (IH Hs).
Qed.

Lemma has_char_none (c : ascii) (s : string) :
  Url.all_chars (fun a => negb (Py.eqc a c)) s = true -> Py.has_char c s = false.
Proof.
  induction s as [|a s IH]; [reflexivity|]. cbn.
  intros H. apply andb_prop in H. destruct H as [Hc Hs].
  apply negb_true_iff in Hc. now rewrite Hc, (IH Hs).
Qed.

Lemma lstrip_by_none (p : ascii -> bool) (s : string) :
  Url.all_chars (fun c => negb (p c)) s = true -> Py.lstrip_by p s = s.
Proof.
  destruct s as [|c s]; [reflexivity|]. cbn.
  intros H. apply andb_prop in H. destruct H as [Hc _].
  apply negb_true_iff in Hc. now rewrite Hc.
Qed.

Lemma rstrip_by_none (p : ascii -> bool) (s : string) :
  Url.all_chars (fun c => negb (p c)) s = true -> Py.rstrip_by p s = s.
Proof.
  induction s as [|c s IH]; [reflexivity|]. cbn.
  intros H. apply andb_prop in H. destruct H as [Hc Hs].
  apply negb_true_iff in Hc. rewrite (IH Hs), Hc. now destruct s.
Qed.

Lemma strip_by_none (p : ascii -> bool) (s : string) :
  Url.all_chars (fun c => negb (p c)) s = true -> Py.strip_by p s = s.
Proof.
  intros H. unfold Py.strip_by. now rewrite (lstrip_by_none p s H), rstrip_by_none.
Qed.

(** A character of an owner or repository name: no white space and none of
    the characters that end a path or a segment. *)
Definition seg_char (c : ascii) : bool :=
  negb (Py.is_space c) && negb (Py.eqc c "/") && negb (Py.eqc c "?")
  && negb (Py.eqc c "#") && negb (Py.eqc c ";").

Definition segment (s : string) : Prop :=
  Py.nonempty s = true /\ Url.all_chars seg_char s = true.

(** A character that [urlparse] leaves in the path. *)
Definition path_char (c : ascii) : bool :=
  negb (Py.is_space c) && negb (Py.eqc c "?") && negb (Py.eqc c "#")
  && negb (Py.eqc c ";").

Lemma seg_char_path (c : ascii) : seg_char c = true -> path_char c = true.
Proof.
  unfold seg_char, path_char.
  destruct (Py.is_space c), (Py.eqc c "/"), (Py.eqc c "?"), (Py.eqc c "#"),
    (Py.eqc c ";"); cbn; congruence.
Qed.

Lemma seg_char_no_slash (c : ascii) :
  seg_char c = true -> negb (Py.eqc c "/") = true.
Proof.
  unfold seg_char.
  destruct (Py.is_space c), (Py.eqc c "/"); cbn; congruence.
Qed.

Lemma space_of_unsafe (c : ascii) :
  Url.is_unsafe_byte c = true -> Py.is_space c = true.
Proof.
  unfold Url.is_unsafe_byte, Py.eqc. intros H.
  apply orb_prop in H. destruct H as [H|H]; [apply orb_prop in H; destruct H as [H|H]|];
    apply Ascii.eqb_eq in H; subst c; reflexivity.
Qed.

Lemma path_char_spec (c : ascii) :
  path_char c = true ->
  Py.is_space c = false /\ Url.is_unsafe_byte c = false
  /\ Py.eqc c "?" = false /\ Py.eqc c "#" = false /\ Py.eqc c ";" = false.
Proof.
  unfold path_char. intros H.
  destruct (Py.is_space c) eqn:E1, (Py.eqc c "?"), (Py.eqc c "#"),
    (Py.eqc c ";"); try discriminate.
  repeat split; try reflexivity.
  destruct (Url.is_unsafe_byte c) eqn:E; [|reflexivity].
  apply space_of_unsafe in E. congruence.
Qed.

(** What [urlparse] makes of a URL with the trusted prefix. *)
Lemma urlparse_prefixed (p : string) :
  Url.urlparse (trusted_prefix +:+ p) =
    let q := "/" +:+ Py.remove_chars Url.is_unsafe_byte p in
    let fr := Py.break_at (Py.eqc "#") q in
    let qr := Py.break_at (Py.eqc "?") (fst fr) in
    let pr := if Py.has_char ";" (fst qr) then Url.splitparams (fst qr)
              else (fst qr, "") in
    Py.Ok {| Url.scheme := "https"; Url.netloc := "github.com";
             Url.path := fst pr; Url.params := snd pr;
             Url.query := Py.drop 1 (snd qr);
             Url.fragment := Py.drop 1 (snd fr) |}.
Proof. reflexivity. Qed.

Lemma eqc_sym_all (x : ascii) (s : string) :
  Url.all_chars (fun c => negb (Py.eqc c x)) s
  = Url.all_chars (fun c => negb (Py.eqc x c)) s.
Proof.
  induction s as [|c s IH]; [reflexivity|].
  cbn. unfold Py.eqc in *. now rewrite Ascii.eqb_sym, IH.
Qed.

Lemma urlparse_clean (p : string) :
  Url.all_chars path_char p = true ->
  Url.urlparse (trusted_prefix +:+ p) =
    Py.Ok {| Url.scheme := "https"; Url.netloc := "github.com";
             Url.path := "/" +:+ p; Url.params := "";
             Url.query := ""; Url.fragment := "" |}.
Proof.
  intros H. rewrite urlparse_prefixed. cbv zeta.
  rewrite remove_chars_none
    by (apply (all_chars_impl path_char); [|exact H];
        intros c Hc; apply path_char_spec in Hc as (_ & -> & _); reflexivity).
  assert (Hq : forall x, x = "#"%char \/ x = "?"%char \/ x = ";"%char ->
               Url.all_chars (fun c => negb (Py.eqc c x)) ("/" +:+ p) = true).
  { intros x Hx. rewrite str_app_cons, str_app_nil. cbn [Url.all_chars].
    apply andb_true_intro. split.
    - destruct Hx as [->|[->| ->]]; reflexivity.
    - apply (all_chars_impl path_char); [|exact H].
      intros c Hc. apply path_char_spec in Hc as (_ & _ & H1 & H2 & H3).
      destruct Hx as [->|[->| ->]]; now rewrite ?H1, ?H2, ?H3. }
  rewrite (break_at_none (Py.eqc "#") ("/" +:+ p))
    by (rewrite <- eqc_sym_all; apply Hq; auto).
  cbn [fst snd].
  rewrite (break_at_none (Py.eqc "?") ("/" +:+ p))
    by (rewrite <- eqc_sym_all; apply Hq; auto).
  cbn [fst snd].
  rewrite (has_char_none ";" ("/" +:+ p)) by (apply Hq; auto).
  reflexivity.
Qed.

Lemma split_none (c : ascii) (s : string) :
  Py.has_char c s = false -> Py.split c s = [s].
Proof.
  induction s as [|a s IH]; [reflexivity|]. cbn.
  intros H. apply orb_false_elim in H. destruct H as [Ha Hs].
  now rewrite Ha, (IH Hs).
Qed.

Lemma split_app (c : ascii) (a b : string) :
  Py.has_char c a = false ->
  Py.split c (a +:+ String c b) = a :: Py.split c b.
Proof.
  induction a as [|x a IH]; intros H.
  - rewrite str_app_nil. cbn. unfold Py.eqc. now rewrite Ascii.eqb_refl.
  - cbn in H. apply orb_false_elim in H. destruct H as [Hx Ha].
    rewrite str_app_cons. cbn [Py.split]. now rewrite Hx, (IH Ha).
Qed.

Lemma segment_no_slash (s : string) : segment s -> Py.has_char "/" s = false.
Proof.
  intros [_ H]. apply has_char_none.
  apply (all_chars_impl seg_char); [apply seg_char_no_slash|exact H].
Qed.

Lemma segment_path (s : string) :
  segment s -> Url.all_chars path_char s = true.
Proof.
  intros [_ H]. apply (all_chars_impl seg_char); [apply seg_char_path|exact H].
Qed.

(** [parse_repo] on a URL with the trusted prefix and a clean path. *)
Lemma parse_repo_clean (p : string) :
  Url.all_chars path_char p = true ->
  parse_repo (trusted_prefix +:+ p) =
    match segments ("/" +:+ p) with
    | owner :: name :: _ => Py.Ok (owner, sub_git_suffix name)
    | _ => Py.Raise not_owner_repo
    end.
Proof.
  intros H.
  assert (Hs : Py.strip (trusted_prefix +:+ p) = trusted_prefix +:+ p).
  { apply strip_by_none. rewrite all_chars_app.
    apply andb_true_intro. split; [reflexivity|].
    apply (all_chars_impl path_char); [|exact H].
    intros c Hc. apply path_char_spec in Hc as (-> & _). reflexivity. }
  rewrite (parse_repo_parsed _ _ (eq_trans (f_equal Url.urlparse Hs)
                                    (urlparse_clean p H))).
  reflexivity.
Qed.

Lemma segments_two (owner repo : string) :
  segment owner -> segment repo ->
  segments ("/" +:+ owner +:+ "/" +:+ repo) = [owner; repo]
  /\ segments ("/" +:+ owner +:+ "/" +:+ repo +:+ "/") = [owner; repo].
Proof.
  intros Ho Hr. unfold segments.
  rewrite !(str_app_cons "/" ""), !str_app_nil.
  cbn [Py.split]. change (Py.eqc "/" "/") with true. cbv iota.
  rewrite !(split_app "/" owner) by now apply segment_no_slash.
  rewrite (split_none "/" repo) by now apply segment_no_slash.
  rewrite (split_app "/" repo "") by now apply segment_no_slash.
  destruct Ho as [Ho _], Hr as [Hr _].
  split.
  - rewrite filter_cons_False by (cbn; discriminate).
    rewrite filter_cons_True by exact Ho.
    now rewrite filter_cons_True by exact Hr.
  - rewrite filter_cons_False by (cbn; discriminate).
    rewrite filter_cons_True by exact Ho.
    rewrite filter_cons_True by exact Hr.
    cbn [Py.split]. now rewrite filter_cons_False by (cbn; discriminate).
Qed.

Lemma segment_app (a b : string) :
  segment a -> Url.all_chars seg_char b = true -> segment (a +:+ b).
Proof.
  intros [Hn Ha] Hb. split.
  - destruct a; [discriminate|reflexivity].
  - rewrite all_chars_app. now rewrite Ha, Hb.
Qed.

Lemma str_app_empty (s : string) : s +:+ "" = s.
Proof.
  induction s as [|c s IH]; [reflexivity|]. now rewrite str_app_cons, IH.
Qed.

(** The three documented forms, for every owner and repository name. *)
Lemma parse_repo_three_forms (owner repo : string) :
  segment owner -> segment repo ->
  parse_repo (trusted_prefix +:+ owner +:+ "/" +:+ repo)
    = Py.Ok (owner, sub_git_suffix repo)
  /\ parse_repo (trusted_prefix +:+ owner +:+ "/" +:+ repo +:+ "/")
     = Py.Ok (owner, sub_git_suffix repo)
  /\ parse_repo (trusted_prefix +:+ owner +:+ "/" +:+ repo +:+ ".git")
     = Py.Ok (owner, repo).
Proof.
  intros Ho Hr.
  assert (Hg : segment (repo +:+ ".git")) by now apply segment_app.
  assert (Hp : forall r t, segment r ->
                 Url.all_chars path_char t = true ->
                 Url.all_chars path_char (owner +:+ "/" +:+ r +:+ t) = true).
  { intros r t Hr' Ht. rewrite !all_chars_app.
    now rewrite (segment_path owner Ho), (segment_path r Hr'), Ht. }
  split; [|split].
  - specialize (Hp repo "" Hr eq_refl). rewrite str_app_empty in Hp.
    rewrite (parse_repo_clean _ Hp).
    now rewrite (proj1 (segments_two owner repo Ho Hr)).
  - rewrite (parse_repo_clean _ (Hp repo "/" Hr eq_refl)).
    now rewrite (proj2 (segments_two owner repo Ho Hr)).
  - specialize (Hp (repo +:+ ".git") "" Hg eq_refl).
    rewrite str_app_empty in Hp.
    assert (E : repo +:+ ".git" = (repo +:+ ".git")) by reflexivity.
    pose proof (parse_repo_clean _ Hp) as Hc.
    rewrite (proj1 (segments_two owner (repo +:+ ".git") Ho Hg)) in Hc.
    rewrite sub_git_suffix_app in Hc. exact Hc.
Qed.

Lemma check_bracketed_host_class (hostname : string) (e : Py.exn) :
  Url.check_bracketed_host hostname = Py.Raise e ->
  Py.exn_class e = "ValueError".
Proof.
  unfold Url.check_bracketed_host.
  destruct (Py.startswith "v" hostname).
  - destruct (Url.ipvfuture_ok hostname); [discriminate|].
    now intros [= <-].
  - destruct (Url.ipv4_ok hostname); [now intros [= <-]|].
    destruct (Url.ipv6_ok hostname); [discriminate|]. now intros [= <-].
Qed.

(** [urlparse] raises nothing but ValueError. *)
Lemma urlparse_value_error (s : string) (e : Py.exn) :
  Url.urlparse s = Py.Raise e -> Py.exn_class e = "ValueError".
Proof.
  unfold Url.urlparse.
  destruct (xorb _ _); [now intros [= <-]|].
  match goal with
  | |- context [if ?b then Url.check_bracketed_netloc ?n else _] =>
      destruct b; [|discriminate];
      destruct (Url.check_bracketed_netloc n) as [[]|e'] eqn:E; [discriminate|]
  end.
  intros [= <-]. revert E. unfold Url.check_bracketed_netloc.
  destruct (Py.break_at (Py.eqc "[") _) as [before rest].
  destruct rest as [|c bracketed]; [apply check_bracketed_host_class|].
  destruct (Py.nonempty before); [now intros [= <-]|].
  destruct (Py.break_at (Py.eqc "]") bracketed) as [hostname after].
  destruct (_ && _); [now intros [= <-]|apply check_bracketed_host_class].
Qed.

(** A name that does not end in [.git] is kept as it is. *)
Lemma sub_git_suffix_keep (s : string) :
  Url.all_chars seg_char s = true ->
  (forall p, s <> p +:+ ".git") ->
  sub_git_suffix s = s.
Proof.
  induction s as [|c r IH]; [reflexivity|].
  intros Hc Hp. cbn [sub_git_suffix].
  destruct (Py.str_eqb (String c r) ".git") eqn:E1.
  { apply String.eqb_eq in E1. now destruct (Hp ""). }
  destruct (Py.str_eqb (String c r) (".git" +:+ Py.lf)) eqn:E2.
  { apply String.eqb_eq in E2. rewrite E2 in Hc. discriminate Hc. }
  cbn [Url.all_chars] in Hc. apply andb_prop in Hc. destruct Hc as [_ Hr].
  rewrite IH; [reflexivity|exact Hr|].
  intros p ->. now destruct (Hp (String c p)).
Qed.
(** A character of a plain host name: none of the characters that set off
    user information, a bracketed address, a port or a zone. *)
Definition host_char (c : ascii) : bool :=
  negb (Py.eqc c "@") && negb (Py.eqc c "[") && negb (Py.eqc c ":")
  && negb (Py.eqc c "%").

Lemma host_char_lower (c : ascii) :
  host_char (Py.lower_char c) = host_char c.
Proof. destruct c as [[] [] [] [] [] [] [] []]; reflexivity. Qed.

Lemma all_host_char_lower (s : string) :
  Url.all_chars host_char (Py.lower s) = Url.all_chars host_char s.
Proof.
  induction s as [|c s IH]; [reflexivity|].
  cbn [Py.lower Url.all_chars]. now rewrite host_char_lower, IH.
Qed.

Lemma after_last_none (c : ascii) (s : string) :
  Py.has_char c s = false -> Url.after_last c s = s.
Proof.
  destruct s as [|a r]; [reflexivity|]. cbn [Py.has_char Url.after_last].
  intros H. apply orb_false_elim in H. destruct H as [Ha Hr].
  now rewrite Hr, Ha.
Qed.

Lemma host_char_spec (x : ascii) (s : string) :
  In x ["@"; "["; ":"; "%"]%char ->
  Url.all_chars host_char s = true ->
  Url.all_chars (fun c => negb (Py.eqc c x)) s = true.
Proof.
  intros Hx. apply all_chars_impl. intros c. unfold host_char.
  cbn in Hx. destruct Hx as [<-|[<-|[<-|[<-|[]]]]];
    destruct (Py.eqc c "@"), (Py.eqc c "["), (Py.eqc c ":"), (Py.eqc c "%");
    cbn; congruence.
Qed.

(** The host of a network location without user information, brackets,
    port and zone is the network location in lower case. *)
Lemma hostname_plain (u : Url.ParseResult) :
  Py.nonempty (Url.netloc u) = true ->
  Url.all_chars host_char (Url.netloc u) = true ->
  Url.hostname u = Some (Py.lower (Url.netloc u)).
Proof.
  intros Hn Hc. unfold Url.hostname.
  rewrite after_last_none
    by (apply has_char_none, (host_char_spec "@"); [cbn; tauto|exact Hc]).
  rewrite !break_at_none
    by (rewrite <- eqc_sym_all; apply host_char_spec; [cbn; tauto|exact Hc]).
  cbn [fst snd]. rewrite Hn. now rewrite str_app_empty.
Qed.

(** A network location that is [github.com] has the host [github.com]. *)
Lemma hostname_github (u : Url.ParseResult) :
  Py.lower (Url.netloc u) = "github.com" ->
  Url.hostname u = Some "github.com".
Proof.
  intros H. rewrite <- H. apply hostname_plain.
  - destruct (Url.netloc u); [discriminate|reflexivity].
  - rewrite <- all_host_char_lower, H. reflexivity.
Qed.
(** C5 (as the code has it): the three documented forms of a repository
    URL give the same pair, for the literal owner and repo and for every
    owner and name free of white space and of the characters that end a
    path or a segment (the plain and the trailing-slash form give the name
    without one trailing [.git], the form with [.git] added gives the name
    itself, and the three agree for a name that does not end in [.git]).
    A URL is rejected with ValueError when [urlparse] rejects
    it, when its network location, the whole authority part in lower case,
    is not exactly [github.com], hence on any host other than [github.com],
    and when its path has fewer than two non-empty segments.  It is
    accepted exactly when the network location is [github.com] and the
    path has at least two non-empty segments, not only when it has exactly
    two: the pair is the first two segments, the second without one
    trailing [.git]. *)
Theorem C5_parse_repo :
  parse_repo "https://github.com/owner/repo" = Py.Ok ("owner", "repo")
  /\ parse_repo "https://github.com/owner/repo/" = Py.Ok ("owner", "repo")
  /\ parse_repo "https://github.com/owner/repo.git" = Py.Ok ("owner", "repo")
  /\ (forall owner repo,
        segment owner -> segment repo ->
        parse_repo (trusted_prefix +:+ owner +:+ "/" +:+ repo)
          = Py.Ok (owner, sub_git_suffix repo)
        /\ parse_repo (trusted_prefix +:+ owner +:+ "/" +:+ repo +:+ "/")
           = Py.Ok (owner, sub_git_suffix repo)
        /\ parse_repo (trusted_prefix +:+ owner +:+ "/" +:+ repo +:+ ".git")
           = Py.Ok (owner, repo)
        /\ ((forall p, repo <> p +:+ ".git") -> sub_git_suffix repo = repo))
  /\ (forall url e,
        Url.urlparse (Py.strip url) = Py.Raise e ->
        parse_repo url = Py.Raise e /\ Py.exn_class e = "ValueError")
  /\ (forall url u,
        Url.urlparse (Py.strip url) = Py.Ok u ->
        Py.lower (Url.netloc u) <> "github.com" ->
        parse_repo url = Py.Raise not_github)
  /\ (forall url u,
        Url.urlparse (Py.strip url) = Py.Ok u ->
        Url.hostname u <> Some "github.com" ->
        parse_repo url = Py.Raise not_github)
  /\ (forall url u,
        Url.urlparse (Py.strip url) = Py.Ok u ->
        length (segments (Url.path u)) < 2 ->
        exists e, parse_repo url = Py.Raise e
                  /\ Py.exn_class e = "ValueError")
  /\ (forall url owner repo,
        parse_repo url = Py.Ok (owner, repo)
        <-> exists u name rest,
              Url.urlparse (Py.strip url) = Py.Ok u
              /\ Py.lower (Url.netloc u) = "github.com"
              /\ segments (Url.path u) = owner :: name :: rest
              /\ repo = sub_git_suffix name)
  /\ (forall name, sub_git_suffix (name +:+ ".git") = name).
Proof.
  split; [reflexivity|]. split; [reflexivity|]. split; [reflexivity|].
  split.
  { intros owner repo Ho Hr.
    destruct (parse_repo_three_forms owner repo Ho Hr) as (H1 & H2 & H3).
    split; [exact H1|]. split; [exact H2|]. split; [exact H3|].
    intros Hp. apply sub_git_suffix_keep; [apply Hr|exact Hp]. }
  split; [|split; [|split; [|split; [|split]]]].
  - intros url e H. unfold parse_repo. rewrite H. split; [reflexivity|].
    exact (urlparse_value_error _ _ H).
  - intros url u H Hn. rewrite (parse_repo_parsed url u H).
    apply String.eqb_neq in Hn. unfold Py.str_eqb. now rewrite Hn.
  - intros url u H Hh. rewrite (parse_repo_parsed url u H).
    destruct (Py.str_eqb (Py.lower (Url.netloc u)) "github.com") eqn:Hn;
      [|reflexivity].
    apply String.eqb_eq in Hn. now destruct Hh; apply hostname_github.
  - intros url u H Hl. rewrite (parse_repo_parsed url u H).
    destruct (Py.str_eqb _ _); [|now eexists].
    destruct (segments (Url.path u)) as [|o [|n r]]; cbn in Hl;
      try lia; now eexists.
  - intros url owner repo. split.
    + intros H.
      destruct (Url.urlparse (Py.strip url)) as [u|e] eqn:Hu.
      2:{ unfold parse_repo in H. rewrite Hu in H. discriminate. }
      rewrite (parse_repo_parsed url u Hu) in H.
      destruct (Py.str_eqb (Py.lower (Url.netloc u)) "github.com") eqn:Hn;
        [|discriminate].
      apply String.eqb_eq in Hn.
      destruct (segments (Url.path u)) as [|o [|n r]] eqn:Hs;
        try discriminate.
      injection H as <- <-. now exists u, n, r.
    + intros (u & name & rest & Hu & Hn & Hs & ->).
      rewrite (parse_repo_parsed url u Hu), Hs.
      unfold Py.str_eqb. rewrite Hn. reflexivity.
  - apply sub_git_suffix_app.
Qed.

Lemma C5_parse_repo_witness :
  parse_repo "https://github.com/rocq-prover/stdlib.git"
    = Py.Ok ("rocq-prover", "stdlib")
  /\ parse_repo "  https://GitHub.com/rocq/stdlib.git/tree/main?x=1 "
     = Py.Ok ("rocq", "stdlib")
  /\ parse_repo "https://gitlab.com/owner/repo" = Py.Raise not_github
  /\ parse_repo "https://user@github.com.example.org:80/owner/repo"
     = Py.Raise not_github
  /\ parse_repo "https://github.com:443/owner/repo" = Py.Raise not_github
  /\ parse_repo "https://user@github.com/owner/repo" = Py.Raise not_github
  /\ parse_repo "https://[github.com]/owner/repo"
     = Py.Raise (Py.ValueError
         "'github.com' does not appear to be an IPv4 or IPv6 address")
  /\ (exists e, parse_repo "https://github.com/owner" = Py.Raise e
                /\ Py.exn_class e = "ValueError").
Proof.
  destruct C5_parse_repo
    as (_ & _ & _ & Hforms & Hraise & Hnetloc & Hhost & Hshort & Hiff & _).
  split; [|split; [|split; [|split; [|split; [|split; [|split]]]]]].
  - apply (Hforms "rocq-prover" "stdlib"); split; reflexivity.
  - apply Hiff.
    exists {| Url.scheme := "https"; Url.netloc := "GitHub.com";
              Url.path := "/rocq/stdlib.git/tree/main";
              Url.params := ""; Url.query := "x=1"; Url.fragment := "" |},
           "stdlib.git", ["tree"; "main"].
    repeat split; reflexivity.
  - apply (Hnetloc _ {| Url.scheme := "https"; Url.netloc := "gitlab.com";
                        Url.path := "/owner/repo"; Url.params := "";
                        Url.query := ""; Url.fragment := "" |});
      [reflexivity|discriminate].
  - apply (Hhost _ {| Url.scheme := "https";
                      Url.netloc := "user@github.com.example.org:80";
                      Url.path := "/owner/repo"; Url.params := "";
                      Url.query := ""; Url.fragment := "" |});
      [reflexivity|discriminate].
  - apply (Hnetloc _ {| Url.scheme := "https";
                        Url.netloc := "github.com:443";
                        Url.path := "/owner/repo"; Url.params := "";
                        Url.query := ""; Url.fragment := "" |});
      [reflexivity|discriminate].
  - apply (Hnetloc _ {| Url.scheme := "https";
                        Url.netloc := "user@github.com";
                        Url.path := "/owner/repo"; Url.params := "";
                        Url.query := ""; Url.fragment := "" |});
      [reflexivity|discriminate].
  - apply Hraise. reflexivity.
  - apply (Hshort _ {| Url.scheme := "https"; Url.netloc := "github.com";
                       Url.path := "/owner"; Url.params := "";
                       Url.query := ""; Url.fragment := "" |});
      [reflexivity|vm_compute; lia].
Defined.

(** C5, counterexample: a path of four segments is accepted. *)
Lemma C5_counterexample :
  parse_repo "https://github.com/owner/repo/issues/42"
  = Py.Ok ("owner", "repo")
  /\ Url.urlparse (Py.strip "https://github.com/owner/repo/issues/42")
     = Py.Ok {| Url.scheme := "https"; Url.netloc := "github.com";
                Url.path := "/owner/repo/issues/42"; Url.params := "";
                Url.query := ""; Url.fragment := "" |}
  /\ segments "/owner/repo/issues/42" = ["owner"; "repo"; "issues"; "42"].
Proof. repeat split. Qed.

End Names.

(** ** Checkout names *)
Section CheckoutNames.

Import GithubIssues Main.

Lemma str_app_assoc (a b c : string) : (a +:+ b) +:+ c = a +:+ b +:+ c.
Proof.
  induction a as [|x a IH]; [reflexivity|]. now rewrite !str_app_cons, IH.
Qed.

Lemma has_char_app (c : ascii) (a b : string) :
  Py.has_char c (a +:+ b) = Py.has_char c a || Py.has_char c b.
Proof.
  induction a as [|x a IH]; [reflexivity|].
  rewrite str_app_cons. cbn [Py.has_char]. now rewrite IH, orb_assoc.
Qed.

Lemma replace_char_app (c : ascii) (t a b : string) :
  Py.replace_char c t (a +:+ b)
  = Py.replace_char c t a +:+ Py.replace_char c t b.
Proof.
  induction a as [|x a IH]; [reflexivity|].
  rewrite str_app_cons. cbn [Py.replace_char].
  destruct (Py.eqc x c); rewrite IH; [now rewrite str_app_assoc|reflexivity].
Qed.

Lemma replace_char_none (c : ascii) (t s : string) :
  Py.has_char c s = false -> Py.replace_char c t s = s.
Proof.
  induction s as [|a s IH]; [reflexivity|]. cbn.
  intros H. apply orb_false_elim in H. destruct H as [Ha Hs].
  now rewrite Ha, (IH Hs).
Qed.

(** No separator is left after the replacement. *)
Lemma has_char_replace (c : ascii) (t s : string) :
  Py.has_char c t = false -> Py.has_char c (Py.replace_char c t s) = false.
Proof.
  intros Ht. induction s as [|a s IH]; [reflexivity|]. cbn.
  destruct (Py.eqc a c) eqn:E.
  - now rewrite has_char_app, Ht, IH.
  - cbn. now rewrite E, IH.
Qed.

Lemma rstrip_by_keep (p : ascii -> bool) (a b : string) :
  Py.nonempty b = true -> Py.rstrip_by p b = b ->
  Py.rstrip_by p (a +:+ b) = a +:+ b.
Proof.
  intros Hn Hb. induction a as [|x a IH]; [exact Hb|].
  rewrite str_app_cons. cbn [Py.rstrip_by]. rewrite IH.
  destruct (a +:+ b) eqn:E; [|reflexivity].
  destruct a; [|discriminate]. rewrite str_app_nil in E. now subst b.
Qed.

Lemma rstrip_by_all (p : ascii -> bool) (b : string) :
  Url.all_chars p b = true -> Py.rstrip_by p b = "".
Proof.
  induction b as [|x b IH]; [reflexivity|]. cbn.
  intros H. apply andb_prop in H. destruct H as [Hx Hb].
  now rewrite (IH Hb), Hx.
Qed.

Lemma rstrip_by_drop (p : ascii -> bool) (a b : string) :
  Url.all_chars p b = true -> Py.rstrip_by p (a +:+ b) = Py.rstrip_by p a.
Proof.
  intros Hb. induction a as [|x a IH].
  - rewrite str_app_nil. now apply rstrip_by_all.
  - rewrite str_app_cons. cbn [Py.rstrip_by]. now rewrite IH.
Qed.

(** X1: The directory name of a repository URL: owner and name joined by two
    underscores, a trailing slash ignored; a [.git] suffix is kept. *)
Theorem safe_repo_name_forms (owner repo : string) :
  segment owner -> segment repo ->
  safe_repo_name (trusted_prefix +:+ owner +:+ "/" +:+ repo)
    = Py.Ok (owner +:+ "__" +:+ repo)
  /\ safe_repo_name (trusted_prefix +:+ owner +:+ "/" +:+ repo +:+ "/")
     = Py.Ok (owner +:+ "__" +:+ repo).
Proof.
  intros Ho Hr.
  assert (Hp : forall t, Url.all_chars path_char t = true ->
                 Url.all_chars path_char (owner +:+ "/" +:+ repo +:+ t) = true).
  { intros t Ht. rewrite !all_chars_app.
    now rewrite (segment_path owner Ho), (segment_path repo Hr), Ht. }
  assert (Hstrip : forall t, Url.all_chars (Py.eqc "/") t = true ->
            Py.strip_char "/" ("/" +:+ owner +:+ "/" +:+ repo +:+ t)
            = owner +:+ "/" +:+ repo).
  { intros t Ht. unfold Py.strip_char, Py.strip_by.
    rewrite (str_app_cons "/" ""), str_app_nil.
    cbn [Py.lstrip_by]. change (Py.eqc "/" "/") with true. cbv iota.
    assert (Hl : Py.lstrip_by (Py.eqc "/") (owner +:+ "/" +:+ repo +:+ t)
                 = owner +:+ "/" +:+ repo +:+ t).
    { destruct Ho as [Hn Hc]. destruct owner as [|c o]; [discriminate|].
      rewrite str_app_cons. cbn [Py.lstrip_by].
      cbn in Hc. apply andb_prop in Hc. destruct Hc as [Hc _].
      apply seg_char_no_slash in Hc. apply negb_true_iff in Hc.
      unfold Py.eqc in *. now rewrite Ascii.eqb_sym, Hc. }
    rewrite Hl.
    replace (owner +:+ "/" +:+ repo +:+ t)
      with (((owner +:+ "/") +:+ repo) +:+ t) by now rewrite !str_app_assoc.
    rewrite (rstrip_by_drop _ _ t Ht).
    replace (owner +:+ "/" +:+ repo)
      with ((owner +:+ "/") +:+ repo) by now rewrite !str_app_assoc.
    apply rstrip_by_keep.
    - destruct Hr as [Hn _]. destruct repo; [discriminate|reflexivity].
    - apply rstrip_by_none. rewrite <- eqc_sym_all.
      destruct Hr as [_ Hc].
      apply (all_chars_impl seg_char); [apply seg_char_no_slash|exact Hc]. }
  assert (Hrep : Py.replace_char "/" "__" (owner +:+ "/" +:+ repo)
                 = owner +:+ "__" +:+ repo).
  { rewrite !replace_char_app.
    rewrite (replace_char_none "/" "__" owner) by now apply segment_no_slash.
    rewrite (replace_char_none "/" "__" repo) by now apply segment_no_slash.
    reflexivity. }
  assert (Hne : Py.nonempty (owner +:+ "__" +:+ repo) = true).
  { destruct Ho as [Hn _]. destruct owner; [discriminate|reflexivity]. }
  split.
  - specialize (Hp "" eq_refl). rewrite str_app_empty in Hp.
    unfold safe_repo_name. rewrite (urlparse_clean _ Hp). cbn [Py.bind Url.path].
    specialize (Hstrip "" eq_refl). rewrite str_app_empty in Hstrip.
    now rewrite Hstrip, Hrep, Hne.
  - unfold safe_repo_name. rewrite (urlparse_clean _ (Hp "/" eq_refl)).
    cbn [Py.bind Url.path].
    now rewrite (Hstrip "/" eq_refl), Hrep, Hne.
Qed.

Lemma safe_repo_name_forms_witness :
  safe_repo_name "https://github.com/rocq-prover/stdlib.git"
    = Py.Ok "rocq-prover__stdlib.git"
  /\ safe_repo_name "https://github.com/rocq-prover/stdlib.git/"
     = Py.Ok "rocq-prover__stdlib.git".
Proof.
  apply (safe_repo_name_forms "rocq-prover" "stdlib.git"); split; reflexivity.
Defined.

(** X2: Whatever the URL, a name that [safe_repo_name] returns is one path
    component: it is not empty and holds no slash.  On a URL that passed
    the guard of [analyze_repo] a name is returned. *)
Theorem safe_repo_name_component (url : string) :
  (forall name, safe_repo_name url = Py.Ok name ->
     Py.nonempty name = true /\ Py.has_char "/" name = false)
  /\ (Py.startswith trusted_prefix url = true ->
      exists name, safe_repo_name url = Py.Ok name).
Proof.
  split; [|apply safe_repo_name_ok].
  unfold safe_repo_name. intros name H.
  destruct (Url.urlparse url) as [p|e]; [|discriminate].
  cbn [Py.bind] in H. injection H as <-.
  pose proof (has_char_replace "/" "__" (Py.strip_char "/" (Url.path p)) eq_refl)
    as Hs.
  destruct (Py.replace_char "/" "__" _); [split; reflexivity|].
  split; [reflexivity|exact Hs].
Qed.

Lemma safe_repo_name_component_witness :
  (Py.nonempty "repo" = true /\ Py.has_char "/" "repo" = false)
  /\ exists name, safe_repo_name "https://github.com/" = Py.Ok name.
Proof.
  destruct (safe_repo_name_component "https://github.com/") as [H1 H2].
  split; [apply H1|apply H2]; reflexivity.
Defined.

(** X3: A URL that passes the guard of [analyze_repo] has the host that
    [parse_repo] requires: [parse_repo] accepts it or refuses it for its
    path, never for its host. *)
Theorem guard_implies_host (url : string) :
  Py.startswith trusted_prefix (Py.strip url) = true ->
  (exists owner repo, parse_repo url = Py.Ok (owner, repo))
  \/ parse_repo url = Py.Raise not_owner_repo.
Proof.
  intros H. destruct (urlparse_github _ H) as (u & Hu & Hn).
  rewrite (parse_repo_parsed url u Hu), Hn.
  change (Py.str_eqb (Py.lower "github.com") "github.com") with true.
  cbv iota.
  destruct (segments (Url.path u)) as [|owner [|name rest]]; eauto.
Qed.

Lemma guard_implies_host_witness :
  ((exists owner repo,
      parse_repo " https://github.com/o/r?tab=readme " = Py.Ok (owner, repo))
   \/ parse_repo " https://github.com/o/r?tab=readme " = Py.Raise not_owner_repo)
  /\ ((exists owner repo,
         parse_repo "https://github.com/?q=o/r" = Py.Ok (owner, repo))
      \/ parse_repo "https://github.com/?q=o/r" = Py.Raise not_owner_repo).
Proof.
  split; apply guard_implies_host; reflexivity.
Defined.

Lemma split_no_sep (c : ascii) (s : string) :
  Forall (fun x => Py.has_char c x = false) (Py.split c s).
Proof.
  induction s as [|a s IH]; cbn.
  - repeat constructor.
  - destruct (Py.eqc a c) eqn:E.
    + now apply List.Forall_cons.
    + destruct (Py.split c s) as [|w ws].
      * apply List.Forall_cons; [cbn; now rewrite E|constructor].
      * inversion IH as [|? ? Hw Hws]; subst.
        apply List.Forall_cons; [cbn; now rewrite E, Hw|exact Hws].
Qed.

Lemma sub_git_suffix_has_char (c : ascii) (s : string) :
  Py.has_char c s = false -> Py.has_char c (sub_git_suffix s) = false.
Proof.
  induction s as [|a s IH]; [reflexivity|]. intros H.
  cbn [sub_git_suffix].
  destruct (Py.str_eqb (String a s) ".git"); [reflexivity|].
  destruct (Py.str_eqb (String a s) (".git" +:+ Py.lf)) eqn:E.
  - apply String.eqb_eq in E. rewrite E in H.
    change (Py.has_char c (".git" +:+ Py.lf))
      with (Py.eqc "." c || (Py.eqc "g" c || (Py.eqc "i" c
            || (Py.eqc "t" c || Py.has_char c Py.lf)))) in H.
    do 4 (apply orb_false_elim in H; destruct H as [_ H]).
    exact H.
  - cbn in H |- *. apply orb_false_elim in H. destruct H as [Ha Hs].
    now rewrite Ha, (IH Hs).
Qed.

(** X4: What [parse_repo] returns: an owner that is not empty, and an owner and
    a repository name without a slash. *)
Theorem parse_repo_shape (url owner repo : string) :
  parse_repo url = Py.Ok (owner, repo) ->
  Py.nonempty owner = true
  /\ Py.has_char "/" owner = false /\ Py.has_char "/" repo = false.
Proof.
  unfold parse_repo.
  destruct (Url.urlparse (Py.strip url)) as [u|e]; [|discriminate].
  cbn [Py.bind].
  destruct (negb _); [discriminate|].
  destruct (filter _ _) as [|o [|n rest]] eqn:E; try discriminate.
  intros H. injection H as <- <-.
  assert (Ho : o ∈ filter (fun p => Py.nonempty p = true)
                 (Py.split "/" (Url.path u))) by (rewrite E; left).
  assert (Hn : n ∈ filter (fun p => Py.nonempty p = true)
                 (Py.split "/" (Url.path u))) by (rewrite E; right; left).
  apply list_elem_of_filter in Ho, Hn.
  destruct Ho as [Ho1 Ho2], Hn as [_ Hn2].
  pose proof (split_no_sep "/" (Url.path u)) as Hs.
  rewrite Forall_forall in Hs.
  split; [exact Ho1|]. split; [now apply Hs|].
  apply sub_git_suffix_has_char. now apply Hs.
Qed.

Lemma parse_repo_shape_witness :
  Py.nonempty "o" = true
  /\ Py.has_char "/" "o" = false /\ Py.has_char "/" "" = false.
Proof.
  apply (parse_repo_shape "http://GitHub.com//o//.git/x" "o" "").
  reflexivity.
Defined.


End CheckoutNames.

(** ** The walk of the checkout *)
Section Walk.

Import Main.

(** Induction on a tree, with the property for the entries of a
    directory. *)
Section NodeInduction.

Variable P : Fs.node -> Prop.
Hypothesis HFile : forall c, P (Fs.File c).
Hypothesis HDir :
  forall es, List.Forall (fun e => P (snd e)) es -> P (Fs.Dir es).

Fixpoint node_nested_ind (n : Fs.node) : P n :=
  match n with
  | Fs.File c => HFile c
  | Fs.Dir es =>
      HDir es
        ((fix go (l : list (string * Fs.node))
            : List.Forall (fun e => P (snd e)) l :=
            match l with
            | [] => @List.Forall_nil _ _
            | e :: r => @List.Forall_cons _ _ e r (node_nested_ind (snd e)) (go r)
            end) es)
  end.

End NodeInduction.

(** The directories below [dirpath], entry by entry. *)
Definition walk_entries (dirpath : string) (rel : list string)
    (es : list (string * Fs.node))
  : list (string * list string * list string * list string) :=
  flat_map (fun e => Fs.walk (dirpath +:+ "/" +:+ fst e) (rel ++ [fst e]) (snd e))
           es.

Lemma walk_dir (dirpath : string) (rel : list string)
    (es : list (string * Fs.node)) :
  Fs.walk dirpath rel (Fs.Dir es)
  = (dirpath, rel,
     map fst (filter (fun e => Fs.is_dir (snd e) = true) es),
     map fst (filter (fun e => Fs.is_dir (snd e) = false) es))
    :: walk_entries dirpath rel es.
Proof.
  cbn [Fs.walk]. f_equal. unfold walk_entries.
  induction es as [|[name child] es IH]; [reflexivity|].
  cbn [flat_map fst snd]. now rewrite <- IH.
Qed.

(** [dirpath] holds one of the words of the skip list. *)
Definition skipped (dirpath : string) : bool :=
  existsb (fun s => Py.contains s dirpath) skip.

(** The paths one directory of the walk contributes when nothing cuts the
    listing short. *)
Definition listing (d : string * list string * list string * list string)
  : list string :=
  let '(dirpath, rel, _, filenames) := d in
  if skipped dirpath then []
  else map (fun fn => relpath rel +:+ "/" +:+ fn) filenames.

(** The directories [os.walk] visits from [root]. *)
Definition walked (root : string) (t : option Fs.node)
  : list (string * list string * list string * list string) :=
  match t with Some n => Fs.walk root [] n | None => [] end.

Lemma firstn_firstn_app {A} (m : nat) (a b : list A) :
  firstn m (firstn m a ++ b) = firstn m (a ++ b).
Proof.
  destruct (le_lt_dec (length a) m) as [H|H].
  - now rewrite (firstn_all2 a H).
  - rewrite !List.firstn_app, List.firstn_firstn, length_firstn.
    replace (Nat.min m m) with m by lia.
    replace (Nat.min m (length a)) with m by lia.
    replace (m - m) with 0 by lia. replace (m - length a) with 0 by lia.
    reflexivity.
Qed.

Lemma add_files_firstn (m : nat) (rel : string) (fns files : list string) :
  length files <= m ->
  add_files m rel fns files
  = firstn m (files ++ map (fun fn => rel +:+ "/" +:+ fn) fns).
Proof.
  revert files. induction fns as [|fn r IH]; intros files H; cbn [add_files map].
  - rewrite app_nil_r. symmetry. now apply firstn_all2.
  - destruct (m <=? length files) eqn:E.
    + apply Nat.leb_le in E. rewrite List.firstn_app.
      replace (m - length files) with 0 by lia.
      cbn [firstn]. rewrite app_nil_r. symmetry. now apply firstn_all2.
    + apply Nat.leb_gt in E. rewrite IH by (rewrite length_app; cbn; lia).
      now rewrite <- app_assoc.
Qed.

Lemma walk_fold_firstn (m : nat)
    (dirs : list (string * list string * list string * list string))
    (files : list string) :
  length files <= m ->
  fold_left (walk_step m) dirs files
  = firstn m (files ++ flat_map listing dirs).
Proof.
  revert files. induction dirs as [|d dirs IH]; intros files H; cbn [fold_left flat_map].
  - rewrite app_nil_r. symmetry. now apply firstn_all2.
  - assert (Hd : walk_step m files d = firstn m (files ++ listing d)).
    { destruct d as [[[dirpath rel] dns] fns]. unfold walk_step, listing.
      fold (skipped dirpath). destruct (skipped dirpath).
      - rewrite app_nil_r. symmetry. now apply firstn_all2.
      - now apply add_files_firstn. }
    rewrite Hd, IH by (rewrite length_firstn; lia).
    now rewrite firstn_firstn_app, <- app_assoc.
Qed.

(** X5: The file listing is the first [max_files] paths of the directories
    that are not skipped, taken in the order of the walk: ending the inner
    loop at the cap loses nothing that the final slice would keep. *)
Theorem walk_files_spec (root : string) (t : option Fs.node) (max_files : nat) :
  fst (walk_repo_summary root t max_files)
  = firstn max_files (flat_map listing (walked root t)).
Proof.
  unfold walk_repo_summary. cbn [fst]. fold (walked root t).
  rewrite (walk_fold_firstn max_files (walked root t) []) by (cbn; lia).
  cbn [app]. rewrite List.firstn_firstn. f_equal. lia.
Qed.

Lemma startswith_app_r (p s x : string) :
  Py.startswith p s = true -> Py.startswith p (s +:+ x) = true.
Proof.
  revert s. induction p as [|a p IH]; intros s H; [reflexivity|].
  destruct s as [|b s]; [discriminate|].
  rewrite str_app_cons. cbn in H |- *.
  apply andb_prop in H. destruct H as [Hc Hs]. now rewrite Hc, (IH s Hs).
Qed.

Lemma contains_unfold (sub s : string) :
  Py.contains sub s
  = Py.startswith sub s
    || match s with EmptyString => false | String _ r => Py.contains sub r end.
Proof. now destruct s. Qed.

Lemma contains_app_r (sub s x : string) :
  Py.contains sub s = true -> Py.contains sub (s +:+ x) = true.
Proof.
  induction s as [|a s IH]; intros H.
  - rewrite contains_unfold in H. rewrite orb_false_r in H.
    rewrite contains_unfold. now rewrite (startswith_app_r sub "" x H).
  - rewrite contains_unfold in H. rewrite str_app_cons, contains_unfold.
    apply orb_prop in H. destruct H as [H|H].
    + pose proof (startswith_app_r sub (String a s) x H) as H'.
      rewrite str_app_cons in H'. now rewrite H'.
    + now rewrite (IH H), orb_true_r.
Qed.

Lemma contains_app_l (sub a s : string) :
  Py.contains sub s = true -> Py.contains sub (a +:+ s) = true.
Proof.
  intros H. induction a as [|c a IH]; [exact H|].
  rewrite str_app_cons, contains_unfold. now rewrite IH, orb_true_r.
Qed.

Lemma skipped_app_r (s x : string) :
  skipped s = true -> skipped (s +:+ x) = true.
Proof.
  unfold skipped. rewrite !existsb_exists.
  intros (w & Hw & Hc). exists w. split; [exact Hw|now apply contains_app_r].
Qed.

Lemma skipped_app_l (a s : string) :
  skipped s = true -> skipped (a +:+ s) = true.
Proof.
  unfold skipped. rewrite !existsb_exists.
  intros (w & Hw & Hc). exists w. split; [exact Hw|now apply contains_app_l].
Qed.

(** Below a skipped directory everything is skipped. *)
Lemma walk_skipped (n : Fs.node) :
  forall dirpath rel,
    skipped dirpath = true ->
    flat_map listing (Fs.walk dirpath rel n) = [].
Proof.
  induction n as [c|es IH] using node_nested_ind; intros dirpath rel H;
    [reflexivity|].
  rewrite walk_dir. cbn [flat_map listing]. rewrite H. cbn [app].
  unfold walk_entries.
  induction IH as [|[name child] es Hc _ IHes]; [reflexivity|].
  cbn [flat_map fst snd]. rewrite flat_map_app, IHes, app_nil_r.
  apply Hc. now apply skipped_app_r.
Qed.

Lemma walk_skips_all_files (root : string) (t : option Fs.node)
    (max_files : nat) :
  skipped root = true -> fst (walk_repo_summary root t max_files) = [].
Proof.
  intros H. unfold walk_repo_summary. cbn [fst].
  rewrite walk_fold_firstn by (cbn; lia). cbn [app].
  destruct t as [n|]; [|now rewrite !firstn_nil].
  now rewrite (walk_skipped n root [] H), !firstn_nil.
Qed.

(** X6: When the path of the checkout itself holds a word of the skip list
    (the word is looked for in the whole directory path), every directory
    is skipped and no file is listed, whatever the checkout contains. *)
Theorem walk_skips_all (root : string) (t : option Fs.node) (max_files : nat) :
  skipped root = true -> fst (walk_repo_summary root t max_files) = [].
Proof. apply walk_skips_all_files. Qed.

Definition small_checkout : Fs.node :=
  Fs.Dir [("README.md", Fs.File (Py.Ok "# demo"));
          ("src", Fs.Dir [("main.py", Fs.File (Py.Ok "print(1)"))])].

Lemma walk_skips_all_witness :
  fst (walk_repo_summary "/tmp/repodoctor_k3x9q_ab/owner__repo.git"
         (Some small_checkout) 200) = []
  /\ fst (walk_repo_summary "/tmp/repodoctor_k3x9q_ab/owner__repo"
            (Some small_checkout) 200) = ["./README.md"; "src/main.py"].
Proof.
  split; [|vm_compute; reflexivity].
  apply walk_skips_all. reflexivity.
Defined.

(** The path of a directory of the walk below the root. *)
Definition rel_suffix (rel : list string) : string :=
  fold_right (fun c acc => "/" +:+ c +:+ acc) "" rel.

Lemma rel_suffix_snoc (rel : list string) (c : string) :
  rel_suffix (rel ++ [c]) = rel_suffix rel +:+ "/" +:+ c.
Proof.
  induction rel as [|x rel IH]; cbn [rel_suffix fold_right app].
  - now rewrite str_app_empty.
  - fold (rel_suffix (rel ++ [c])). fold (rel_suffix rel).
    now rewrite IH, !str_app_assoc.
Qed.

Lemma rel_suffix_relpath (x : string) (r : list string) :
  rel_suffix (x :: r) = "/" +:+ relpath (x :: r).
Proof.
  unfold relpath. revert x. induction r as [|y r IH]; intros x.
  - cbn. now rewrite str_app_empty.
  - change (rel_suffix (x :: y :: r)) with ("/" +:+ x +:+ rel_suffix (y :: r)).
    rewrite IH. reflexivity.
Qed.

Lemma walk_dirpaths (n : Fs.node) :
  forall root rel,
    Forall (fun d => fst (fst (fst d)) = root +:+ rel_suffix (snd (fst (fst d))))
           (Fs.walk (root +:+ rel_suffix rel) rel n).
Proof.
  induction n as [c|es IH] using node_nested_ind; intros root rel;
    [constructor|].
  rewrite walk_dir. apply List.Forall_cons; [reflexivity|].
  unfold walk_entries.
  induction IH as [|[name child] es Hc _ IHes]; [constructor|].
  cbn [flat_map fst snd]. apply Forall_app. split; [|exact IHes].
  replace ((root +:+ rel_suffix rel) +:+ "/" +:+ name)
    with (root +:+ rel_suffix (rel ++ [name]))
    by now rewrite rel_suffix_snoc, str_app_assoc.
  apply Hc.
Qed.

Lemma skipped_relpath (root : string) (rel : list string) :
  skipped (relpath rel) = true -> skipped (root +:+ rel_suffix rel) = true.
Proof.
  destruct rel as [|x r]; [discriminate|].
  intros H. rewrite rel_suffix_relpath.
  apply skipped_app_l. now apply skipped_app_l.
Qed.

(** X7: Every listed path is [rel/fn] for a directory [rel] that the walk
    visited and a file name [fn] of that directory, and neither the path of
    that directory nor [rel] holds a word of the skip list: nothing below
    [.git], [node_modules] and the like is listed. *)
Theorem listed_files_not_skipped (root : string) (t : option Fs.node)
    (max_files : nat) (f : string) :
  In f (fst (walk_repo_summary root t max_files)) ->
  exists dirpath rel dirnames filenames fn,
    In (dirpath, rel, dirnames, filenames) (walked root t)
    /\ In fn filenames
    /\ f = relpath rel +:+ "/" +:+ fn
    /\ skipped dirpath = false
    /\ skipped (relpath rel) = false.
Proof.
  unfold walk_repo_summary. cbn [fst]. fold (walked root t).
  rewrite walk_fold_firstn by (cbn; lia). cbn [app].
  rewrite List.firstn_firstn. intros H.
  assert (Hin : In f (flat_map listing (walked root t))).
  { rewrite <- (firstn_skipn (Nat.min max_files max_files)
                  (flat_map listing (walked root t))).
    apply in_or_app. now left. }
  apply in_flat_map in Hin. destruct Hin as ([[[dirpath rel] dns] fns] & Hd & Hf).
  unfold listing in Hf. destruct (skipped dirpath) eqn:Es; [contradiction|].
  apply in_map_iff in Hf. destruct Hf as (fn & <- & Hfn).
  exists dirpath, rel, dns, fns, fn.
  split; [exact Hd|]. split; [exact Hfn|]. split; [reflexivity|].
  split; [exact Es|].
  destruct (skipped (relpath rel)) eqn:Er; [|reflexivity].
  assert (Hp : dirpath = root +:+ rel_suffix rel).
  { unfold walked in Hd. destruct t as [n|]; [|contradiction].
    pose proof (walk_dirpaths n root []) as Hw.
    cbn [rel_suffix fold_right] in Hw. rewrite str_app_empty in Hw.
    rewrite List.Forall_forall in Hw. exact (Hw _ Hd). }
  rewrite Hp, (skipped_relpath root rel Er) in Es. discriminate.
Qed.

Lemma listed_files_not_skipped_witness :
  exists dirpath rel dirnames filenames fn,
    In (dirpath, rel, dirnames, filenames)
       (walked "/tmp/repodoctor_k3x9q_ab/owner__repo" (Some small_checkout))
    /\ In fn filenames
    /\ "src/main.py" = relpath rel +:+ "/" +:+ fn
    /\ skipped dirpath = false
    /\ skipped (relpath rel) = false.
Proof.
  apply (listed_files_not_skipped "/tmp/repodoctor_k3x9q_ab/owner__repo"
           (Some small_checkout) 200 "src/main.py").
  vm_compute. auto.
Defined.

(** What the key-file mapping holds for an entry of the checkout. *)
Definition key_value (n : Fs.node) : string :=
  if Fs.is_dir n then "DIRECTORY_PRESENT" else read_text_file n 8000.

(** The entries directly under the root of the checkout. *)
Definition top_entries (t : option Fs.node) : list (string * Fs.node) :=
  match t with Some (Fs.Dir es) => es | _ => [] end.

Definition key_entry (es : list (string * Fs.node)) (name : string)
  : list (string * string) :=
  match Fs.entry_get name es with
  | Some n => [(name, key_value n)]
  | None => []
  end.

Lemma dict_set_fresh {V} (k : string) (v : V) (d : Py.dict V) :
  Py.dict_get k d = None -> Py.dict_set k v d = d ++ [(k, v)].
Proof.
  induction d as [|[k' v'] d IH]; [reflexivity|]. cbn.
  destruct (Py.str_eqb k k'); [discriminate|]. intros H. now rewrite (IH H).
Qed.

Lemma dict_get_app {V} (k : string) (a b : Py.dict V) :
  Py.dict_get k (a ++ b)
  = match Py.dict_get k a with Some v => Some v | None => Py.dict_get k b end.
Proof.
  induction a as [|[k' v'] a IH]; [reflexivity|]. cbn.
  now destruct (Py.str_eqb k k').
Qed.

Lemma key_fold (es : list (string * Fs.node)) (names : list string) :
  List.NoDup names ->
  forall acc : Py.dict string,
    (forall k, In k names -> Py.dict_get k acc = None) ->
    fold_left (key_step es) names acc = acc ++ flat_map (key_entry es) names.
Proof.
  induction 1 as [|name names Hnot Hnd IH]; intros acc Hacc;
    cbn [fold_left flat_map]; [now rewrite app_nil_r|].
  assert (Hs : key_step es acc name = acc ++ key_entry es name).
  { unfold key_step, key_entry. fold (key_value).
    destruct (Fs.entry_get name es) as [n|]; [|now rewrite app_nil_r].
    apply dict_set_fresh. apply Hacc. now left. }
  rewrite Hs, IH; [now rewrite <- app_assoc|].
  intros k Hk. rewrite dict_get_app, (Hacc k) by now right.
  unfold key_entry. destruct (Fs.entry_get name es); [|reflexivity].
  cbn. destruct (Py.str_eqb k name) eqn:E; [|reflexivity].
  apply String.eqb_eq in E. rewrite E in Hk. contradiction.
Qed.

Lemma important_nodup : List.NoDup important.
Proof.
  unfold important.
  repeat (constructor;
          [cbn; intros H; repeat (destruct H as [H|H]; [discriminate H|]);
           exact H|]).
  constructor.
Qed.

Lemma key_contents_flat (root : string) (t : option Fs.node)
    (max_files : nat) :
  snd (walk_repo_summary root t max_files)
  = flat_map (key_entry (top_entries t)) important.
Proof.
  unfold walk_repo_summary. cbn [snd]. fold (top_entries t).
  now rewrite (key_fold (top_entries t) important important_nodup []).
Qed.

(** X8: The key-file mapping has one entry for each name of the allow-list
    that is an entry directly under the root of the checkout, in the order
    of the allow-list: the sentinel for a directory, the first 8000
    characters for a file (the empty text if it cannot be read).  A key
    file in a sub-directory is not found. *)
Theorem key_contents_spec (root : string) (t : option Fs.node)
    (max_files : nat) :
  snd (walk_repo_summary root t max_files)
  = flat_map (key_entry (top_entries t)) important.
Proof. apply key_contents_flat. Qed.

End Walk.

(** ** The request payload *)
Section Payload.

Import World AiReview.

Lemma dict_set_keys_nodup {V} (k : string) (v : V) (d : Py.dict V) :
  List.NoDup (Py.dict_keys d) -> List.NoDup (Py.dict_keys (Py.dict_set k v d)).
Proof.
  unfold Py.dict_keys.
  induction d as [|[k' v'] d IH]; cbn; intros H.
  - constructor; [intros []|constructor].
  - inversion H as [|? ? Hnot Hd]; subst.
    destruct (Py.str_eqb k k') eqn:E.
    + apply String.eqb_eq in E. subst k'. now constructor.
    + cbn. constructor; [|now apply IH].
      intros Hin. apply in_map_iff in Hin. destruct Hin as ([k2 v2] & <- & Hin).
      apply dict_set_In in Hin. destruct Hin as [Heq|Hin].
      * injection Heq as -> _. unfold Py.str_eqb in E.
        now rewrite String.eqb_refl in E.
      * apply Hnot. apply in_map_iff. now exists (k2, v2).
Qed.

Definition snip (content : string) : string := Py.take 4000 content.

Lemma snips_fold (kf : Py.dict string) :
  List.NoDup (Py.dict_keys kf) ->
  forall acc : Py.dict string,
    (forall k, In k (Py.dict_keys kf) -> Py.dict_get k acc = None) ->
    fold_left
      (fun acc kv =>
         let '(name, content) := kv in
         if Py.str_eqb content "DIRECTORY_PRESENT"
         then Py.dict_set name "DIRECTORY_PRESENT" acc
         else Py.dict_set name (Py.take 4000 content) acc) kf acc
    = acc ++ map (fun kv => (fst kv, snip (snd kv))) kf.
Proof.
  unfold Py.dict_keys.
  induction kf as [|[name content] kf IH]; intros Hnd acc Hacc;
    cbn [fold_left map fst snd]; [now rewrite app_nil_r|].
  inversion Hnd as [|? ? Hnot Hnd']; subst.
  assert (Hs : (if Py.str_eqb content "DIRECTORY_PRESENT"
                then Py.dict_set name "DIRECTORY_PRESENT" acc
                else Py.dict_set name (Py.take 4000 content) acc)
               = acc ++ [(name, snip content)]).
  { rewrite <- dict_set_fresh by (apply Hacc; now left).
    destruct (Py.str_eqb content "DIRECTORY_PRESENT") eqn:E; [|reflexivity].
    apply String.eqb_eq in E. now subst content. }
  rewrite Hs, IH; [now rewrite <- app_assoc|exact Hnd'|].
  intros k Hk. rewrite dict_get_app, (Hacc k) by now right.
  cbn. destruct (Py.str_eqb k name) eqn:E; [|reflexivity].
  apply String.eqb_eq in E. rewrite E in Hk. contradiction.
Qed.

(** X9: The snippets sent to the model: every key file, in order, cut to its
    first 4000 characters.  The branch for the directory sentinel changes
    nothing, the sentinel being shorter than the cut. *)
Theorem key_file_snips_spec (key_files : Py.dict string) :
  List.NoDup (Py.dict_keys key_files) ->
  key_file_snips key_files
    = map (fun kv => (fst kv, Py.take 4000 (snd kv))) key_files
  /\ Forall (fun kv => String.length (snd kv) <= 4000)
       (key_file_snips key_files).
Proof.
  intros H. unfold key_file_snips.
  rewrite (snips_fold key_files H []) by reflexivity. cbn [app].
  split; [reflexivity|].
  apply List.Forall_forall. intros kv Hin. apply in_map_iff in Hin.
  destruct Hin as (x & <- & _). apply take_length.
Qed.

Lemma key_file_snips_spec_witness :
  key_file_snips [("README.md", "# demo"); (".github", "DIRECTORY_PRESENT")]
    = [("README.md", "# demo"); (".github", "DIRECTORY_PRESENT")]
  /\ Forall (fun kv => String.length (snd kv) <= 4000)
       (key_file_snips
          [("README.md", "# demo"); (".github", "DIRECTORY_PRESENT")]).
Proof.
  apply (key_file_snips_spec
           [("README.md", "# demo"); (".github", "DIRECTORY_PRESENT")]).
  repeat constructor; cbn; intuition discriminate.
Defined.

(** The three shapes of an encoded character: itself, a two-character
    escape, or a [\u00xy] escape. *)
Definition char_at (n : nat) (s : string) : ascii :=
  match String.get n s with Some c => c | None => " "%char end.

Lemma dumps_char_cases (c : ascii) :
  (dumps_char c = Py.ch c /\ Py.eqc c "034" = false /\ Py.eqc c "\" = false
   /\ (Py.ord c <? 32) = false)
  \/ (exists e, dumps_char c = String "\" (Py.ch e)
        /\ Py.eqc e "u" = false /\ Json.unescape e = Some c)
  \/ (exists x y,
        dumps_char c
        = String "\" (String "u" (String "0" (String "0" (String x (Py.ch y)))))
        /\ Json.hex4 "0" "0" x y = Some (Py.ord c)).
Proof.
  destruct c as [[] [] [] [] [] [] [] []];
    match goal with
    | |- context [dumps_char ?c] =>
        first
          [ left; repeat split; vm_compute; reflexivity
          | right; left; exists (char_at 1 (dumps_char c));
            repeat split; vm_compute; reflexivity
          | right; right;
            exists (char_at 4 (dumps_char c)), (char_at 5 (dumps_char c));
            repeat split; vm_compute; reflexivity ]
    end.
Qed.

Lemma scan_string_cons (off : nat) (c : ascii) (r : string) :
  Json.scan_string off (String c r) =
    if Py.eqc c "034" then Json.SOk EmptyString (S off)
    else if Py.eqc c "\" then
      match r with
      | EmptyString => Json.SUnterminated
      | String e r' =>
          if Py.eqc e "u" then
            match r' with
            | String x1 (String x2 (String x3 (String x4 r''))) =>
                match Json.hex4 x1 x2 x3 x4 with
                | Some n =>
                    if n <? 256
                    then Json.scons (Py.chr n) (Json.scan_string (off + 6) r'')
                    else Json.SErr "code point above 255" (S off)
                | None => Json.SErr "Invalid \uXXXX escape" (S off)
                end
            | _ => Json.SErr "Invalid \uXXXX escape" (S off)
            end
          else
            match Json.unescape e with
            | Some x => Json.scons x (Json.scan_string (off + 2) r')
            | None => Json.SErr "Invalid \escape" off
            end
      end
    else if Py.ord c <? 32 then Json.SErr "Invalid control character at" off
    else Json.scons c (Json.scan_string (S off) r).
Proof. reflexivity. Qed.

(** Scanning an encoded character gives the character back. *)
Lemma scan_dumps_char (c : ascii) (off : nat) (r : string) :
  Json.scan_string off (dumps_char c +:+ r)
  = Json.scons c
      (Json.scan_string (off + String.length (dumps_char c)) r).
Proof.
  destruct (dumps_char_cases c)
    as [(-> & H1 & H2 & H3)|[(e & -> & H1 & H2)|(x & y & -> & H)]].
  - unfold Py.ch. rewrite str_app_cons, str_app_nil, scan_string_cons.
    rewrite H1, H2, H3. cbn [String.length]. now rewrite Nat.add_1_r.
  - unfold Py.ch. rewrite !str_app_cons, str_app_nil, scan_string_cons.
    change (Py.eqc "\" "034") with false. change (Py.eqc "\" "\") with true.
    cbv iota. now rewrite H1, H2.
  - unfold Py.ch. rewrite !str_app_cons, str_app_nil, scan_string_cons.
    change (Py.eqc "\" "034") with false. change (Py.eqc "\" "\") with true.
    change (Py.eqc "u" "u") with true.
    cbv iota. rewrite H.
    assert (Hb : (Py.ord c <? 256) = true)
      by (apply Nat.ltb_lt; apply nat_ascii_bounded).
    rewrite Hb. unfold Py.chr, Py.ord. now rewrite ascii_nat_embedding.
Qed.

Lemma scan_dumps_chars (s : string) :
  forall off rest,
    Json.scan_string off (dumps_chars s +:+ String "034" rest)
    = Json.SOk s (S (off + String.length (dumps_chars s))).
Proof.
  induction s as [|c s IH]; intros off rest.
  - cbn [dumps_chars String.length]. rewrite str_app_nil, scan_string_cons.
    change (Py.eqc "034" "034") with true. cbv iota. now rewrite Nat.add_0_r.
  - cbn [dumps_chars]. rewrite str_app_assoc, scan_dumps_char, IH.
    cbn [Json.scons]. rewrite str_length_app. f_equal. lia.
Qed.

(** The text [txt] is read as the tokens [ts], whatever comes before and
    after it. *)
Definition lexes (txt : string) (ts : list Json.token) : Prop :=
  forall pos rest, exists ps pos',
    length ps = length ts
    /\ Json.tokens pos 0 (txt +:+ rest)
       = combine ts ps ++ Json.tokens pos' 0 rest.

Lemma tokens_skip (a : string) :
  forall pos rest, exists pos',
    Json.tokens pos (String.length a) (a +:+ rest) = Json.tokens pos' 0 rest.
Proof.
  induction a as [|c a IH]; intros pos rest.
  - exists pos. now destruct rest.
  - destruct (IH (S pos) rest) as (pos' & H). exists pos'.
    rewrite str_app_cons. cbn [String.length Json.tokens]. exact H.
Qed.

Lemma combine_app_same {A B} (a a' : list A) (b b' : list B) :
  length b = length a ->
  combine (a ++ a') (b ++ b') = combine a b ++ combine a' b'.
Proof.
  revert b. induction a as [|x a IH]; intros [|y b] H; try discriminate;
    [reflexivity|].
  cbn. f_equal. apply IH. now injection H.
Qed.

Lemma lexes_nil : lexes "" [].
Proof. intros pos rest. now exists [], pos. Qed.

Lemma lexes_app (a b : string) (ta tb : list Json.token) :
  lexes a ta -> lexes b tb -> lexes (a +:+ b) (ta ++ tb).
Proof.
  intros Ha Hb pos rest. rewrite str_app_assoc.
  destruct (Ha pos (b +:+ rest)) as (pa & p1 & La & Ea).
  destruct (Hb p1 rest) as (pb & p2 & Lb & Eb).
  exists (pa ++ pb), p2. split; [rewrite !length_app; lia|].
  rewrite Ea, Eb. rewrite combine_app_same by exact La.
  now rewrite <- app_assoc.
Qed.

Lemma lexes_lbrace : lexes "{" [Json.TLBrace].
Proof. intros pos rest. now exists [pos], (S pos). Qed.

Lemma lexes_rbrace : lexes "}" [Json.TRBrace].
Proof. intros pos rest. now exists [pos], (S pos). Qed.

Lemma lexes_colon : lexes ": " [Json.TColon].
Proof. intros pos rest. now exists [pos], (S (S pos)). Qed.

Lemma lexes_comma : lexes ", " [Json.TComma].
Proof. intros pos rest. now exists [pos], (S (S pos)). Qed.

Lemma tokens_quote (pos : nat) (r : string) (v : string) (n : nat) :
  Json.scan_string 0 r = Json.SOk v n ->
  Json.tokens pos 0 (String "034" r)
  = (Json.TStr v, pos) :: Json.tokens (S pos) n r.
Proof.
  intros H. cbn [Json.tokens].
  change (Json.is_json_ws "034") with false. cbv iota.
  change (Json.scan_token (String "034" r))
    with (match Json.scan_string 0 r with
          | Json.SOk v n => (Json.TStr v, S n)
          | Json.SErr msg off => (Json.TBadStr msg (S off), 0)
          | Json.SUnterminated =>
              (Json.TBadStr "Unterminated string starting at" 0, 0)
          end).
  rewrite H. cbn [Json.is_bad]. now replace (S n - 1) with n by lia.
Qed.

(** An encoded string is read as one string token holding the string. *)
Lemma lexes_str (s : string) : lexes (dumps_str s) [Json.TStr s].
Proof.
  intros pos rest.
  assert (E : dumps_str s +:+ rest
              = String "034" (dumps_chars s +:+ String "034" rest)).
  { unfold dumps_str, Py.dq, Py.ch. now rewrite !str_app_assoc. }
  rewrite E.
  rewrite (tokens_quote pos _ _ _ (scan_dumps_chars s 0 rest)).
  cbn [Nat.add].
  replace (dumps_chars s +:+ String "034" rest)
    with ((dumps_chars s +:+ String "034" "") +:+ rest)
    by (now rewrite str_app_assoc, str_app_cons, str_app_nil).
  replace (S (String.length (dumps_chars s)))
    with (String.length (dumps_chars s +:+ String "034" ""))
    by (rewrite str_length_app; cbn; lia).
  destruct (tokens_skip (dumps_chars s +:+ String "034" "") (S pos) rest)
    as (pos' & ->).
  now exists [pos], pos'.
Qed.

(** The parser run on tokens alone, where it succeeds. *)
Fixpoint feed (doc : string) (m : Json.mode) (st : list Json.frame)
    (ts : list Json.token) : option (Json.mode * list Json.frame) :=
  match ts with
  | [] => Some (m, st)
  | t :: r =>
      match Json.step doc m st t 0 with
      | Py.Ok (m', st') => feed doc m' st' r
      | Py.Raise _ => None
      end
  end.

(** A step that succeeds does not depend on the position. *)
Lemma step_position (doc : string) (m : Json.mode) (st : list Json.frame)
    (t : Json.token) (x : Json.mode * list Json.frame) (pos : nat) :
  Json.step doc m st t 0 = Py.Ok x -> Json.step doc m st t pos = Py.Ok x.
Proof.
  destruct m, t; cbn; intros H; try discriminate H; exact H.
Qed.

Lemma run_feed (doc : string) (ts : list Json.token) :
  forall m st m' st' ps more,
    feed doc m st ts = Some (m', st') ->
    length ps = length ts ->
    Json.run doc m st (combine ts ps ++ more) = Json.run doc m' st' more.
Proof.
  induction ts as [|t ts IH]; intros m st m' st' ps more H L.
  - cbn in H. injection H as -> ->. reflexivity.
  - destruct ps as [|p ps]; [discriminate|]. cbn [feed] in H.
    destruct (Json.step doc m st t 0) as [[m1 st1]|e] eqn:E; [|discriminate].
    cbn [combine app Json.run]. rewrite (step_position _ _ _ _ _ p E).
    apply IH; [exact H|now injection L].
Qed.

Lemma feed_app (doc : string) (a b : list Json.token) :
  forall m st,
    feed doc m st (a ++ b)
    = match feed doc m st a with
      | Some (m', st') => feed doc m' st' b
      | None => None
      end.
Proof.
  induction a as [|t a IH]; intros m st; [reflexivity|].
  cbn [app feed]. destruct (Json.step doc m st t 0) as [[m1 st1]|e];
    [apply IH|reflexivity].
Qed.

(** A document that is read as tokens the parser accepts decodes to the
    value the parser ends with. *)
Lemma loads_of_tokens (doc : string) (ts : list Json.token) (v : Json.json) :
  lexes doc ts ->
  feed doc Json.MVal [] ts = Some (Json.MDone v, []) ->
  Json.loads doc = Py.Ok v.
Proof.
  intros Hl Hf. destruct (Hl 0 "") as (ps & pos' & L & E).
  rewrite str_app_empty in E. unfold Json.loads. rewrite E.
  change (Json.tokens pos' 0 "") with (@nil (Json.token * nat)).
  now rewrite (run_feed doc ts _ _ _ _ ps [] Hf L).
Qed.

(** The tokens of the members of an object. *)
Definition member_tokens (kv : string * string) : list Json.token :=
  [Json.TStr (fst kv); Json.TColon; Json.TStr (snd kv)].

Fixpoint members_tokens (l : list (string * string)) : list Json.token :=
  match l with
  | [] => []
  | [kv] => member_tokens kv
  | kv :: r => member_tokens kv ++ Json.TComma :: members_tokens r
  end.

Definition member_text (kv : string * string) : string :=
  dumps_str (fst kv) +:+ ": " +:+ dumps_str (snd kv).

Lemma lexes_member (kv : string * string) :
  lexes (member_text kv) (member_tokens kv).
Proof.
  unfold member_text, member_tokens.
  apply (lexes_app _ _ [_] [_; _]); [apply lexes_str|].
  apply (lexes_app _ _ [_] [_]); [apply lexes_colon|apply lexes_str].
Qed.

Lemma lexes_members (l : list (string * string)) :
  lexes (Py.join ", " (map member_text l)) (members_tokens l).
Proof.
  induction l as [|kv l IH]; [apply lexes_nil|].
  destruct l as [|kv' l]; [apply lexes_member|].
  change (lexes (member_text kv +:+ ", "
                 +:+ Py.join ", " (map member_text (kv' :: l)))
                (member_tokens kv ++ [Json.TComma]
                 ++ members_tokens (kv' :: l))).
  apply lexes_app; [apply lexes_member|].
  apply lexes_app; [apply lexes_comma|exact IH].
Qed.

Definition set_member (acc : Py.dict Json.json) (kv : string * string)
  : Py.dict Json.json :=
  Py.dict_set (fst kv) (Json.JStr (snd kv)) acc.

(** Reading the members of an object that is itself the value of the key
    [okey] of an enclosing object. *)
Lemma feed_members (doc : string) (oacc : Py.dict Json.json) (okey : string)
    (st : list Json.frame) (more : list Json.token)
    (l : list (string * string)) :
  forall kv acc,
    feed doc (Json.MKey acc) (Json.FObj oacc okey :: st)
      (members_tokens (kv :: l) ++ Json.TRBrace :: more)
    = feed doc
        (Json.MSepObj
           (Py.dict_set okey (Json.JObj (fold_left set_member (kv :: l) acc))
              oacc))
        st more.
Proof.
  induction l as [|kv' l IH]; intros kv acc; [reflexivity|].
  change (members_tokens (kv :: kv' :: l))
    with (member_tokens kv ++ Json.TComma :: members_tokens (kv' :: l)).
  rewrite <- app_assoc. cbn [member_tokens app feed Json.step Json.expect_key
    Json.expect_value Json.ret]. rewrite IH. reflexivity.
Qed.

Lemma feed_object (doc : string) (oacc : Py.dict Json.json) (okey : string)
    (st : list Json.frame) (more : list Json.token)
    (l : list (string * string)) :
  feed doc Json.MKeyOrClose (Json.FObj oacc okey :: st)
    (members_tokens l ++ Json.TRBrace :: more)
  = feed doc
      (Json.MSepObj
         (Py.dict_set okey (Json.JObj (fold_left set_member l [])) oacc))
      st more.
Proof.
  destruct l as [|kv l]; [reflexivity|].
  rewrite <- (feed_members doc oacc okey st more l kv []).
  destruct l as [|kv' l]; reflexivity.
Qed.

Lemma fold_set_member (l : list (string * string)) :
  List.NoDup (Py.dict_keys l) ->
  forall acc,
    (forall k, In k (Py.dict_keys l) -> Py.dict_get k acc = None) ->
    fold_left set_member l acc
    = acc ++ map (fun kv => (fst kv, Json.JStr (snd kv))) l.
Proof.
  unfold Py.dict_keys.
  induction l as [|[k v] l IH]; intros Hnd acc Hacc;
    cbn [fold_left map fst snd]; [now rewrite app_nil_r|].
  inversion Hnd as [|? ? Hnot Hnd']; subst.
  unfold set_member at 2. cbn [fst snd].
  rewrite dict_set_fresh by (apply Hacc; now left).
  rewrite IH; [now rewrite <- app_assoc|exact Hnd'|].
  intros k' Hk. rewrite dict_get_app, (Hacc k') by now right.
  cbn. destruct (Py.str_eqb k' k) eqn:E; [|reflexivity].
  apply String.eqb_eq in E. rewrite E in Hk. contradiction.
Qed.

Lemma key_file_snips_nodup (key_files : Py.dict string) :
  List.NoDup (Py.dict_keys (key_file_snips key_files)).
Proof.
  unfold key_file_snips.
  assert (H : forall acc : Py.dict string,
             List.NoDup (Py.dict_keys acc) ->
             List.NoDup (Py.dict_keys
               (fold_left
                  (fun acc kv =>
                     let '(name, content) := kv in
                     if Py.str_eqb content "DIRECTORY_PRESENT"
                     then Py.dict_set name "DIRECTORY_PRESENT" acc
                     else Py.dict_set name (Py.take 4000 content) acc)
                  key_files acc))).
  { induction key_files as [|[name content] kf IH]; intros acc Hacc;
      [exact Hacc|].
    cbn [fold_left]. apply IH.
    destruct (Py.str_eqb content "DIRECTORY_PRESENT");
      now apply dict_set_keys_nodup. }
  apply H. constructor.
Qed.

(** X10: The user message of the review request is a JSON document, and
    decoding it gives back the evidence: the URL, the first 200 listed paths
    joined by line feeds, and the snippet of every key file, whatever
    characters they hold. *)
Theorem payload_round_trip (repo_url : string) (file_tree : list string)
    (key_files : Py.dict string) :
  Json.loads (mr_user (review_request repo_url file_tree key_files))
  = Py.Ok (Json.JObj
      [("repo_url", Json.JStr repo_url);
       ("file_tree", Json.JStr (Py.join Py.lf (firstn 200 file_tree)));
       ("key_files",
        Json.JObj (map (fun kv => (fst kv, Json.JStr (snd kv)))
                       (key_file_snips key_files)))]).
Proof.
  cbn [mr_user review_request]. unfold user_payload.
  set (ft := Py.join Py.lf (firstn 200 file_tree)).
  set (snips := key_file_snips key_files).
  eapply loads_of_tokens.
  - unfold dumps_dict. rewrite map_map. cbn [map Py.join fst snd].
    change (map _ snips) with (map member_text snips).
    rewrite !str_app_assoc.
    repeat (eapply lexes_app;
            [first [ apply lexes_lbrace | apply lexes_rbrace
                   | apply lexes_colon | apply lexes_comma
                   | apply lexes_str | apply lexes_members ]|]).
    apply lexes_rbrace.
  - cbn [app feed Json.step Json.expect_key Json.expect_value Json.ret].
    change (Py.dict_set "file_tree" (Json.JStr ft)
              (Py.dict_set "repo_url" (Json.JStr repo_url) []))
      with [("repo_url", Json.JStr repo_url); ("file_tree", Json.JStr ft)].
    rewrite (feed_object _ _ _ [] [Json.TRBrace] snips).
    rewrite (fold_set_member snips (key_file_snips_nodup key_files) [])
      by reflexivity.
    reflexivity.
Qed.

End Payload.

(** ** Publishing several issues *)
Section Publishing.

Import World Main.

(** The first field that record [it] lacks, in the order the loop reads
    them: the three fields of the body, then the title. *)
Definition first_missing (it : Py.dict string) : option string :=
  List.find (fun k => negb (Py.dict_mem k it))
            ["severity"; "evidence"; "fix"; "title"].

Lemma issue_request_missing (token owner repo : string) (it : Py.dict string) :
  match first_missing it with
  | Some k => issue_request token owner repo it = Py.Raise (Py.KeyError k)
  | None => exists rq, issue_request token owner repo it = Py.Ok rq
  end.
Proof.
  unfold first_missing, issue_request, issue_body, issue_field, Py.dict_mem.
  cbn [List.find].
  destruct (Py.dict_get "severity" it); cbn; [|reflexivity].
  destruct (Py.dict_get "evidence" it); cbn; [|reflexivity].
  destruct (Py.dict_get "fix" it); cbn; [|reflexivity].
  destruct (Py.dict_get "title" it); cbn; [|reflexivity].
  eauto.
Qed.

Lemma firstn_five_app {A} (done : list A) (x : A) (rest : list A) :
  length done < 5 ->
  exists rest', firstn 5 (done ++ x :: rest) = done ++ x :: rest'.
Proof.
  intros H. rewrite List.firstn_app, (firstn_all2 done) by lia.
  destruct (5 - length done) as [|m] eqn:E; [lia|].
  now exists (firstn m rest).
Qed.

(** X11: When a record among the first five lacks a field, the records before
    it being complete and accepted, [create_issues] raises the KeyError of
    the first field missing (severity, evidence, fix, title in that order):
    the issues of the earlier records are created and stay, the incomplete
    record and the later ones are not posted. *)
Theorem create_issues_incomplete_record (req : CreateIssuesRequest)
    (w : world) (owner repo : string)
    (done : list (Py.dict string)) (bad : Py.dict string)
    (rest : list (Py.dict string))
    (rqs : list post_request) (urls : list Json.json) (k : string) :
  GithubIssues.parse_repo (ci_repo_url req) = Py.Ok (owner, repo) ->
  issues req = done ++ bad :: rest ->
  length done < 5 ->
  Forall2 (fun it rq =>
             issue_request (github_token req) owner repo it = Py.Ok rq)
          done rqs ->
  all_answered w (posts (w_trace w)) rqs urls ->
  first_missing bad = Some k ->
  create_issues req w = (post_all rqs w, Py.Raise (Py.KeyError k))
  /\ posts (w_trace (post_all rqs w)) = posts (w_trace w) ++ rqs.
Proof.
  intros Hp Hi Hl Hreq Hans Hk. split; [|apply post_all_world].
  unfold create_issues. rewrite Hp, Hi.
  destruct (firstn_five_app done bad rest Hl) as (rest' & ->).
  rewrite (create_loop_done _ _ _ _ _ rqs urls [] w Hreq Hans).
  pose proof (issue_request_missing (github_token req) owner repo bad) as Hm.
  rewrite Hk in Hm. unfold issue_request in Hm. cbn [create_loop].
  destruct (issue_body bad) as [body|e];
    [|cbn in Hm; now injection Hm as ->].
  destruct (issue_field bad "title") as [title|e]; [discriminate|].
  cbn in Hm. now injection Hm as ->.
Qed.

(** X12: When the tracker answers a request with a status of 400 or more, the
    records before it being complete and accepted, [create_issues] raises
    the RuntimeError of that answer: the earlier issues are created and
    stay, and no later record is posted. *)
Theorem create_issues_refused (req : CreateIssuesRequest) (w : world)
    (owner repo : string)
    (done : list (Py.dict string)) (it : Py.dict string)
    (rest : list (Py.dict string))
    (rqs : list post_request) (urls : list Json.json)
    (rq : post_request) (r : http_response) :
  GithubIssues.parse_repo (ci_repo_url req) = Py.Ok (owner, repo) ->
  issues req = done ++ it :: rest ->
  length done < 5 ->
  Forall2 (fun it rq =>
             issue_request (github_token req) owner repo it = Py.Ok rq)
          done rqs ->
  all_answered w (posts (w_trace w)) rqs urls ->
  issue_request (github_token req) owner repo it = Py.Ok rq ->
  w_tracker w (posts (w_trace w) ++ rqs) rq = Py.Ok r ->
  400 <= status_code r ->
  create_issues req w
    = (post_all (rqs ++ [rq]) w,
       Py.Raise (Py.RuntimeError
         ("GitHub API error " +:+ Py.str_of_nat (status_code r) +:+ ": "
          +:+ Py.take 300 (text r))))
  /\ posts (w_trace (post_all (rqs ++ [rq]) w))
     = posts (w_trace w) ++ rqs ++ [rq].
Proof.
  intros Hp Hi Hl Hreq Hans Hrq Hr Hs. split; [|apply post_all_world].
  unfold create_issues. rewrite Hp, Hi.
  destruct (firstn_five_app done it rest Hl) as (rest' & ->).
  rewrite (create_loop_done _ _ _ _ _ rqs urls [] w Hreq Hans).
  cbn [create_loop]. unfold issue_request in Hrq.
  destruct (issue_body it) as [body|e]; [|discriminate].
  destruct (issue_field it "title") as [title|e]; [|discriminate].
  cbn [Py.bind] in Hrq. injection Hrq as <-.
  unfold create_issue.
  destruct (post_all_world rqs w) as (Ht & Hposts & _).
  rewrite Ht, Hposts, Hr. apply Nat.leb_le in Hs. rewrite Hs.
  unfold post_all. now rewrite fold_left_app.
Qed.

Local Ltac accepted_in_turn :=
  cbn [all_answered map];
  repeat match goal with
         | |- _ /\ _ => split
         | |- True => exact I
         | |- answered _ _ _ _ =>
             eexists _, _;
             split; [reflexivity|];
             split; [apply Nat.ltb_lt; vm_compute; reflexivity|];
             split; [vm_compute; reflexivity|vm_compute; reflexivity]
         end.

Definition incomplete_second : CreateIssuesRequest :=
  {| ci_repo_url := "https://github.com/owner/repo";
     github_token := " tok ";
     issues := [issue_record "1"; [("title", "No body"); ("fix", "none")];
                issue_record "3"] |}.

Lemma create_issues_incomplete_record_witness :
  create_issues incomplete_second numbering_world
  = (post_all [record_request "1"] numbering_world,
     Py.Raise (Py.KeyError "severity"))
  /\ posts (w_trace (post_all [record_request "1"] numbering_world))
     = posts (w_trace numbering_world) ++ [record_request "1"].
Proof.
  apply (create_issues_incomplete_record incomplete_second numbering_world
           "owner" "repo" [issue_record "1"]
           [("title", "No body"); ("fix", "none")] [issue_record "3"]
           [record_request "1"] [record_url "1"] "severity").
  - reflexivity.
  - reflexivity.
  - cbn. lia.
  - repeat constructor.
  - accepted_in_turn.
  - reflexivity.
Defined.

(** A tracker that creates one issue and then refuses. *)
Definition rate_limited : http_response :=
  {| status_code := 403;
     text := "{" +:+ quoted "message" +:+ ": " +:+ quoted "rate limit" +:+ "}" |}.

Definition quota_world : world :=
  {| w_api_key := None; w_fs := Fs.Dir [("tmp", Fs.Dir [])];
     w_tempdir := ["tmp"]; w_names := [];
     w_git := fun _ => CloneFail (Py.Exn "GitCommandError" "not found");
     w_model := fun _ => Py.Raise (Py.Exn "APIConnectionError" "Connection error.");
     w_tracker := fun hist rq =>
       match hist with
       | [] => numbering_tracker hist rq
       | _ => Py.Ok rate_limited
       end;
     w_trace := [] |}.

Lemma create_issues_refused_witness :
  create_issues seven_issues quota_world
  = (post_all ([record_request "1"] ++ [record_request "2"]) quota_world,
     Py.Raise (Py.RuntimeError
       ("GitHub API error " +:+ Py.str_of_nat 403 +:+ ": "
        +:+ Py.take 300 (text rate_limited))))
  /\ posts (w_trace (post_all ([record_request "1"] ++ [record_request "2"])
                       quota_world))
     = posts (w_trace quota_world)
       ++ [record_request "1"] ++ [record_request "2"].
Proof.
  apply (create_issues_refused seven_issues quota_world "owner" "repo"
           [issue_record "1"] (issue_record "2")
           (map issue_record ["3"; "4"; "5"; "6"; "7"])
           [record_request "1"] [record_url "1"]
           (record_request "2") rate_limited).
  - reflexivity.
  - reflexivity.
  - cbn. lia.
  - repeat constructor.
  - accepted_in_turn.
  - reflexivity.
  - reflexivity.
  - apply Nat.leb_le. vm_compute. reflexivity.
Defined.

End Publishing.

(** ** The analysis as a whole *)
Section Analysis.

Import World Main.




Definition is_mkdir (ev : event) : bool :=
  match ev with EMkdir _ => true | _ => false end.

Lemma mkdtemp_from_trace (prefix : string) (names : list string) :
  forall w, exists mk,
    w_trace (fst (mkdtemp_from prefix names w)) = w_trace w ++ mk
    /\ forallb is_mkdir mk = true
    /\ w_git (fst (mkdtemp_from prefix names w)) = w_git w.
Proof.
  induction names as [|name rest IH]; intros w; cbn [mkdtemp_from].
  - exists []. cbn. now rewrite app_nil_r.
  - set (file := Fs.path_join (w_tempdir w) (prefix +:+ name)).
    destruct (Fs.mkdir file (w_fs w)) as [t|e].
    + exists [EMkdir file]. now cbn.
    + destruct (Py.str_eqb (Py.exn_class e) "FileExistsError").
      * destruct (IH (log (EMkdir file) (set_names rest w)))
          as (mk & Ht & Hm & Hg).
        exists (EMkdir file :: mk). rewrite Ht, Hg. cbn.
        now rewrite <- app_assoc, Hm.
      * exists [EMkdir file]. now cbn.
Qed.

Lemma clone_from_trace (url : string) (dest : Fs.path) (w : world) :
  w_trace (fst (clone_from url dest w)) = w_trace w ++ [EClone url dest].
Proof.
  unfold clone_from.
  destruct (Fs.lookup (Fs.norm dest) (w_fs w)) as [[c|[|x es]]|];
    try reflexivity; now destruct (w_git w url).
Qed.



(** The requests sent to the model. *)
Definition models (tr : list event) : list model_request :=
  flat_map (fun ev => match ev with EModel r => [r] | _ => [] end) tr.

Lemma models_app (a b : list event) : models (a ++ b) = models a ++ models b.
Proof. unfold models. apply flat_map_app. Qed.

(** X15: When git fails to clone the URL, [analyze_repo] does not return a
    result: it raises git's exception (or git's refusal of the
    destination), after removing the scratch directory and without calling
    the model. *)
Theorem analyze_git_failure (req : AnalyzeRequest) (w : world)
    (tmp_root : Fs.path) (e : Py.exn) :
  Py.startswith trusted_prefix (Py.strip (repo_url req)) = true ->
  snd (mkdtemp "repodoctor_" w) = Py.Ok tmp_root ->
  w_git w (Py.strip (repo_url req)) = CloneFail e ->
  (exists e',
     snd (analyze_repo req w) = Py.Raise e'
     /\ (e' = e \/ Py.exn_class e' = "GitCommandError"))
  /\ models (w_trace (fst (analyze_repo req w))) = models (w_trace w)
  /\ last (w_trace (fst (analyze_repo req w))) = Some (ERmtree tmp_root).
Proof.
  intros Hg Hm Hgit.
  assert (Hmodels : forall mk, forallb is_mkdir mk = true -> models mk = []).
  { induction mk as [|[] mk IH]; cbn; try discriminate; auto. }
  unfold analyze_repo. fold trusted_prefix. rewrite Hg. cbn [negb].
  destruct (mkdtemp_from_trace "repodoctor_" (w_names w) w)
    as (mk & Ht & Hmk & Hgit1).
  fold (mkdtemp "repodoctor_" w) in Ht, Hgit1.
  destruct (mkdtemp "repodoctor_" w) as [w1 r]. cbn [fst snd] in *. subst r.
  destruct (safe_repo_name_ok _ Hg) as [name ->].
  pose proof (clone_from_trace (Py.strip (repo_url req))
                (Fs.path_join tmp_root name) w1) as Hc.
  assert (Hr : exists e',
             snd (clone_from (Py.strip (repo_url req))
                    (Fs.path_join tmp_root name) w1) = Py.Raise e'
             /\ (e' = e \/ Py.exn_class e' = "GitCommandError")).
  { unfold clone_from. rewrite Hgit1, Hgit.
    destruct (Fs.lookup _ (w_fs w1)) as [[c|[|x es]]|]; cbn [snd]; eauto. }
  destruct (clone_from _ _ w1) as [w2 r]. cbn [fst snd] in *.
  destruct Hr as (e' & -> & He). cbn [fst snd rmtree log set_fs w_trace].
  split; [now exists e'|]. split; [|apply last_snoc].
  rewrite Hc, Ht, !models_app, (Hmodels mk Hmk). cbn. now rewrite !app_nil_r.
Qed.

Lemma analyze_git_failure_witness :
  (exists e',
     snd (analyze_repo some_request offline_world) = Py.Raise e'
     /\ (e' = GitCommandError "fatal: repository not found"
         \/ Py.exn_class e' = "GitCommandError"))
  /\ models (w_trace (fst (analyze_repo some_request offline_world)))
     = models (w_trace offline_world)
  /\ last (w_trace (fst (analyze_repo some_request offline_world)))
     = Some (ERmtree scratch).
Proof.
  apply (analyze_git_failure some_request offline_world scratch
           (GitCommandError "fatal: repository not found"));
    reflexivity.
Defined.

Lemma path_str_last (p : Fs.path) (c : string) :
  exists x, Fs.path_str (p ++ [c]) = x +:+ "/" +:+ c.
Proof.
  induction p as [|y p IH].
  - exists "". reflexivity.
  - destruct IH as (x & Hx). exists (("/" +:+ y) +:+ x).
    rewrite str_app_assoc, <- Hx. clear Hx.
    unfold Fs.path_str. cbn [app map String.concat].
    destruct p as [|z p]; reflexivity.
Qed.

(** X16: When the directory name that [safe_repo_name] gives the checkout holds
    a word of the skip list, as [owner__repo.git] does, an analysis that is returned counted no file at all: it has no finding
    and it reports that no test was detected, whatever the repository
    contains. *)
Theorem analyze_skipped_name (req : AnalyzeRequest) (w : world)
    (name : string) (a : analysis) :
  safe_repo_name (Py.strip (repo_url req)) = Py.Ok name ->
  skipped name = true ->
  snd (analyze_repo req w) = Py.Ok (Analysis a) ->
  file_count_sampled a = 0
  /\ a_findings a = []
  /\ In tests_risk (a_risks a).
Proof.
  intros Hn Hs H. unfold analyze_repo in H.
  destruct (negb _); [discriminate|].
  destruct (mkdtemp "repodoctor_" w) as [w1 [tmp_root|e]]; [|discriminate].
  rewrite Hn in H.
  destruct (clone_from _ _ w1) as [w2 [[]|e]]; [|discriminate].
  assert (Hroot : skipped (Fs.path_str (Fs.path_join tmp_root name)) = true).
  { unfold Fs.path_join. destruct (path_str_last tmp_root name) as (x & ->).
    apply skipped_app_l. now apply skipped_app_l. }
  pose proof (walk_skips_all_files (Fs.path_str (Fs.path_join tmp_root name))
                (Fs.lookup (Fs.norm (Fs.path_join tmp_root name)) (w_fs w2))
                200 Hroot) as Hf.
  destruct (walk_repo_summary _ _ 200) as [files kc]. cbn [fst] in Hf.
  subst files. rewrite basic_heuristics_unfold in H.
  destruct (AiReview.call_ai_review _ [] kc w2) as [w3 [v|e]];
    cbn -[emit] in H; injection H as <-; cbn;
    (split; [reflexivity|]); (split; [reflexivity|]);
    apply in_or_app; right; now left.
Qed.

Lemma analyze_skipped_name_witness :
  exists a,
    snd (analyze_repo some_request (model_world (review_text five_titles)))
    = Py.Ok (Analysis a)
    /\ file_count_sampled a = 0
    /\ a_findings a = []
    /\ In tests_risk (a_risks a).
Proof.
  eexists. split; [vm_compute; reflexivity|].
  apply (analyze_skipped_name some_request
           (model_world (review_text five_titles)) "owner__repo.git");
    vm_compute; reflexivity.
Defined.

(** X17: When the URL has the trusted prefix, the scratch directory is made,
    the clone succeeds and the review step returns [v], [analyze_repo]
    returns an analysis that carries [v] as its review, no error message,
    and the scanner's output on the extracted evidence; the scratch
    directory is then removed. *)
Theorem analyze_review_returned (req : AnalyzeRequest)
    (w w1 w2 w3 : world) (tmp_root : Fs.path) (name : string)
    (v : Json.json) :
  let url := Py.strip (repo_url req) in
  let dest := Fs.path_join tmp_root name in
  Py.startswith trusted_prefix url = true ->
  mkdtemp "repodoctor_" w = (w1, Py.Ok tmp_root) ->
  safe_repo_name url = Py.Ok name ->
  clone_from url dest w1 = (w2, Py.Ok tt) ->
  let evidence :=
    walk_repo_summary (Fs.path_str dest)
      (Fs.lookup (Fs.norm dest) (w_fs w2)) 200 in
  let scan := basic_heuristics (fst evidence) (snd evidence) in
  AiReview.call_ai_review url (fst evidence) (snd evidence) w2
    = (w3, Py.Ok v) ->
  analyze_repo req w =
    (rmtree tmp_root w3,
     Py.Ok (Analysis
       {| a_repo_url := url;
          file_count_sampled := length (fst evidence);
          key_files_found := Py.dict_keys (snd evidence);
          a_findings := fst (fst scan);
          quick_wins := snd (fst scan);
          a_risks := snd scan;
          next_steps :=
            ["Add CI + basic tests"; "Document env vars and run steps";
             "Add Docker"; "Run a dependency security audit"];
          openai_key_present := true;
          ai_error := None;
          ai_review := Some v |}))
  /\ exists output_text,
       w_model w2 (AiReview.review_request url (fst evidence) (snd evidence))
       = Py.Ok output_text
       /\ Json.loads output_text = Py.Ok v.
Proof.
  cbn zeta. intros Hp Hm Hn Hc Hr.
  assert (Hk : key_present w3 = true
               /\ exists output_text,
                    w_model w2
                      (AiReview.review_request (Py.strip (repo_url req))
                         (fst (walk_repo_summary
                                 (Fs.path_str (Fs.path_join tmp_root name))
                                 (Fs.lookup (Fs.norm (Fs.path_join tmp_root name))
                                    (w_fs w2)) 200))
                         (snd (walk_repo_summary
                                 (Fs.path_str (Fs.path_join tmp_root name))
                                 (Fs.lookup (Fs.norm (Fs.path_join tmp_root name))
                                    (w_fs w2)) 200)))
                    = Py.Ok output_text
                    /\ Json.loads output_text = Py.Ok v).
  { unfold AiReview.call_ai_review, key_present in *.
    destruct (w_api_key w2) as [[|c k]|] eqn:Ek; try discriminate.
    destruct (w_model w2 _) as [txt|e]; [|discriminate].
    injection Hr as <- Hv. cbn [log w_api_key]. rewrite Ek.
    split; [reflexivity|]. now exists txt. }
  destruct Hk as [Hk Hout]. split; [|exact Hout].
  unfold analyze_repo. fold trusted_prefix. rewrite Hp. cbn [negb].
  rewrite Hm, Hn, Hc.
  destruct (walk_repo_summary _ _ 200) as [files key_contents].
  cbn [fst snd] in *. rewrite Hr.
  destruct (basic_heuristics files key_contents) as [[findings qw] risks].
  fold (key_present w3). now rewrite Hk.
Qed.

(** A request whose clone and review succeed, the worlds it goes through
    and the review it gets. *)
Definition reviewed_request : AnalyzeRequest :=
  {| repo_url := "https://github.com/owner/repo" |}.

Definition reviewing_world : world := model_world (review_text five_titles).

Definition made_world : world := fst (mkdtemp "repodoctor_" reviewing_world).

Definition cloned_world : world :=
  fst (clone_from "https://github.com/owner/repo"
         (Fs.path_join scratch "owner__repo") made_world).

Definition reviewed_world : world :=
  fst (AiReview.call_ai_review "https://github.com/owner/repo"
         ["./main.py"] [] cloned_world).

Definition returned_review : Json.json :=
  match snd (AiReview.call_ai_review "https://github.com/owner/repo"
               ["./main.py"] [] cloned_world) with
  | Py.Ok v => v
  | Py.Raise _ => Json.JNull
  end.

Lemma analyze_review_returned_witness :
  exists a,
    snd (analyze_repo reviewed_request reviewing_world) = Py.Ok (Analysis a)
    /\ ai_error a = None
    /\ file_count_sampled a = 1
    /\ ai_review a = Some returned_review
    /\ review_shape returned_review.
Proof.
  destruct (analyze_review_returned reviewed_request reviewing_world
              made_world cloned_world reviewed_world scratch "owner__repo"
              returned_review) as [H _].
  - vm_compute. reflexivity.
  - vm_compute. reflexivity.
  - vm_compute. reflexivity.
  - vm_compute. reflexivity.
  - vm_compute. reflexivity.
  - eexists. split; [exact (f_equal snd H)|].
    split; [reflexivity|]. split; [vm_compute; reflexivity|].
    split; [reflexivity|].
    apply review_shape_of_schema. vm_compute. reflexivity.
Defined.

End Analysis.

(** ** Nothing is left on disk *)
Section Cleanup.

Import World Main.















End Cleanup.

(** ** Input normalisation *)
Section Whitespace.

Import World Main.

(** A string of white space only. *)
Definition blank (s : string) : Prop := Url.all_chars Py.is_space s = true.

Lemma lstrip_by_all (p : ascii -> bool) (b : string) :
  Url.all_chars p b = true -> Py.lstrip_by p b = "".
Proof.
  induction b as [|x b IH]; [reflexivity|]. cbn.
  intros H. apply andb_prop in H. destruct H as [Hx Hb]. now rewrite Hx, IH.
Qed.

Lemma lstrip_by_pad (p : ascii -> bool) (a s : string) :
  Url.all_chars p a = true -> Py.lstrip_by p (a +:+ s) = Py.lstrip_by p s.
Proof.
  induction a as [|x a IH]; [reflexivity|]. cbn [Url.all_chars].
  intros H. apply andb_prop in H. destruct H as [Hx Ha].
  rewrite str_app_cons. cbn [Py.lstrip_by]. now rewrite Hx, IH.
Qed.

Lemma strip_by_pad (p : ascii -> bool) (a s b : string) :
  Url.all_chars p a = true -> Url.all_chars p b = true ->
  Py.strip_by p (a +:+ s +:+ b) = Py.strip_by p s.
Proof.
  intros Ha Hb. unfold Py.strip_by. rewrite (lstrip_by_pad p a _ Ha).
  induction s as [|c s IH].
  - rewrite str_app_nil. now rewrite (lstrip_by_all p b Hb).
  - rewrite str_app_cons. cbn [Py.lstrip_by]. destruct (p c); [exact IH|].
    rewrite <- str_app_cons. now apply rstrip_by_drop.
Qed.

Lemma strip_pad (a s b : string) :
  blank a -> blank b -> Py.strip (a +:+ s +:+ b) = Py.strip s.
Proof. apply strip_by_pad. Qed.

Lemma create_loop_token (t1 t2 owner repo : string)
    (its : list (Py.dict string)) :
  Py.strip t1 = Py.strip t2 ->
  forall created w,
    create_loop t1 owner repo its created w
    = create_loop t2 owner repo its created w.
Proof.
  intros Ht. induction its as [|it its IH]; intros created w; [reflexivity|].
  cbn [create_loop]. rewrite Ht.
  destruct (issue_body it) as [body|e]; [|reflexivity].
  destruct (issue_field it "title") as [title|e]; [|reflexivity].
  destruct (create_issue (Py.strip t2) owner repo title body w)
    as [w1 [issue|e]]; [|reflexivity].
  destruct (Json.getitem issue "html_url"); [apply IH|reflexivity].
Qed.

(** X19: White space around the repository URL and around the token is
    ignored: each entry point does the same, in every world, as for the
    bare URL and the bare token. *)
Theorem whitespace_ignored (a b url : string) :
  blank a -> blank b ->
  GithubIssues.parse_repo (a +:+ url +:+ b) = GithubIssues.parse_repo url
  /\ (forall w,
        analyze_repo {| repo_url := a +:+ url +:+ b |} w
        = analyze_repo {| repo_url := url |} w)
  /\ (forall token its w,
        create_issues {| ci_repo_url := a +:+ url +:+ b;
                         github_token := a +:+ token +:+ b;
                         issues := its |} w
        = create_issues {| ci_repo_url := url; github_token := token;
                           issues := its |} w).
Proof.
  intros Ha Hb.
  assert (Hp : GithubIssues.parse_repo (a +:+ url +:+ b)
               = GithubIssues.parse_repo url).
  { unfold GithubIssues.parse_repo. now rewrite (strip_pad a url b Ha Hb). }
  split; [exact Hp|]. split.
  - intros w. unfold analyze_repo. cbn [repo_url].
    now rewrite (strip_pad a url b Ha Hb).
  - intros token its w. unfold create_issues.
    cbn [ci_repo_url github_token issues]. rewrite Hp.
    destruct (GithubIssues.parse_repo url) as [[owner repo]|e]; [|reflexivity].
    apply create_loop_token. now apply strip_pad.
Qed.

Lemma whitespace_ignored_witness :
  GithubIssues.parse_repo ("  " +:+ "https://github.com/owner/repo" +:+ Py.lf)
  = GithubIssues.parse_repo "https://github.com/owner/repo"
  /\ (forall w,
        analyze_repo {| repo_url := "  " +:+ "https://github.com/owner/repo"
                                     +:+ Py.lf |} w
        = analyze_repo {| repo_url := "https://github.com/owner/repo" |} w)
  /\ (forall token its w,
        create_issues {| ci_repo_url := "  " +:+ "https://github.com/owner/repo"
                                         +:+ Py.lf;
                         github_token := "  " +:+ token +:+ Py.lf;
                         issues := its |} w
        = create_issues {| ci_repo_url := "https://github.com/owner/repo";
                           github_token := token; issues := its |} w).
Proof.
  apply (whitespace_ignored "  " Py.lf "https://github.com/owner/repo");
    reflexivity.
Defined.

End Whitespace.

(** ** The scanner on a checkout *)
Section ScanCheckout.

Import Main.

Definition present (x : option Fs.node) : bool :=
  match x with Some _ => true | None => false end.

Lemma dict_mem_key_entries (es : list (string * Fs.node))
    (names : list string) (k : string) :
  Py.dict_mem k (flat_map (key_entry es) names)
  = existsb (Py.str_eqb k) names && present (Fs.entry_get k es).
Proof.
  unfold Py.dict_mem. induction names as [|name names IH]; [reflexivity|].
  cbn [flat_map existsb]. rewrite dict_get_app. unfold key_entry at 1.
  destruct (Py.str_eqb k name) eqn:E.
  - apply String.eqb_eq in E. subst name.
    destruct (Fs.entry_get k es) as [n|] eqn:Eg.
    + cbn. unfold Py.str_eqb. now rewrite String.eqb_refl.
    + cbn [Py.dict_get]. rewrite IH. cbn. now rewrite !andb_false_r.
  - destruct (Fs.entry_get name es) as [n|]; cbn [Py.dict_get];
      rewrite ?E; exact IH.
Qed.

(** The rules of the scanner that look at a key file, with their
    entries. *)
Definition rule_table : list (string * string) :=
  [("README.md", readme_tip); (".env.example", env_tip);
   ("Dockerfile", docker_tip); ("LICENSE", license_risk)].

(** X20: Extractor and scanner together: the entry of a key-file rule is among
    the quick wins and risks exactly when the checkout has no entry of that
    very name directly under its root.  A file of that name in a
    sub-directory, or under another spelling, does not count; a directory
    of that name does. *)
Theorem tips_follow_top_level (root : string) (t : option Fs.node)
    (max_files : nat) (k tip : string) :
  In (k, tip) rule_table ->
  let ev := walk_repo_summary root t max_files in
  let scan := basic_heuristics (fst ev) (snd ev) in
  In tip (snd (fst scan) ++ snd scan)
  <-> Fs.entry_get k (top_entries t) = None.
Proof.
  intros Hin. cbn zeta. rewrite basic_heuristics_unfold. cbn [fst snd].
  rewrite key_contents_flat, !dict_mem_key_entries.
  change (existsb (Py.str_eqb "README.md") important) with true.
  change (existsb (Py.str_eqb ".env.example") important) with true.
  change (existsb (Py.str_eqb "Dockerfile") important) with true.
  change (existsb (Py.str_eqb "LICENSE") important) with true.
  cbn [andb].
  unfold rule_table in Hin. cbn [In] in Hin.
  destruct Hin as [H|[H|[H|[H|[]]]]]; injection H as <- <-;
    destruct (Fs.entry_get "README.md" (top_entries t)),
      (Fs.entry_get ".env.example" (top_entries t)),
      (Fs.entry_get "Dockerfile" (top_entries t)),
      (Fs.entry_get "LICENSE" (top_entries t)),
      (mentions_test (fst (walk_repo_summary root t max_files)));
    cbn [present negb emit app In];
    (split; [intros H; try reflexivity;
             repeat (destruct H as [H|H]; [discriminate H|]); contradiction
            |intros H; try discriminate H; auto 10]).
Qed.

Definition docs_only_checkout : Fs.node :=
  Fs.Dir [("LICENSE", Fs.Dir []);
          ("docs", Fs.Dir [("README.md", Fs.File (Py.Ok "# demo"))])].

Lemma tips_follow_top_level_witness :
  let ev := walk_repo_summary "/tmp/rd/o__r" (Some docs_only_checkout) 200 in
  let scan := basic_heuristics (fst ev) (snd ev) in
  In readme_tip (snd (fst scan) ++ snd scan)
  /\ ~ In license_risk (snd (fst scan) ++ snd scan).
Proof.
  cbn zeta. split.
  - apply (tips_follow_top_level "/tmp/rd/o__r" (Some docs_only_checkout) 200
             "README.md" readme_tip); [cbn; auto|reflexivity].
  - intros H.
    apply (tips_follow_top_level "/tmp/rd/o__r" (Some docs_only_checkout) 200
             "LICENSE" license_risk) in H; [discriminate H|cbn; auto].
Defined.

End ScanCheckout.
